(** * binance_bot: the order-sizing and dynamic-DCA engine of [binance_bot.py]

    A shallow embedding of the script [src/binance_bot.py] and of the part of
    Python's [decimal] module it relies on, followed by the properties of the
    sizing pipeline.

    Conventions of the embedding.
    - A [Decimal] is a finite decimal number: sign, coefficient, exponent
      (the triple [_sign], [_int], [_exp] of the library).  NaN and the
      infinities are not represented.
    - Arithmetic follows the default context of the [decimal] module:
      [prec = 28], [rounding = ROUND_HALF_EVEN], [Emin = -999999],
      [Emax = 999999], [clamp = 0], traps on [InvalidOperation],
      [DivisionByZero] and [Overflow].  A trapped signal is a raised
      exception.
    - The script is one top-level block.  It is modelled as a computation
      that produces a trace of observable events (exchange calls, prints,
      prompts, SNS publications) and ends by falling off the end, by
      [exit()], or by an uncaught exception.  The replies of the exchange
      and of the operator are read from an environment record.
    - The statement that builds [message] (lines 298-300) is read as the
      single concatenation it spells out. *)

From Stdlib Require Import ZArith Lia List String Bool.
Import ListNotations.
Local Open Scope string_scope.
Local Open Scope Z_scope.

(** ** Exceptions and outcomes *)

Inductive PyExc : Type :=
| NameError (name : string)
| TypeError (what : string)
| IndexError
| AttributeError
| InvalidOperation (why : string)
| DivisionByZero
| Overflow
| Exception_ (msg : string)
| BinanceAPIException (msg : string).

Inductive Exc (A : Type) : Type :=
| Ok (a : A)
| Err (e : PyExc).
Arguments Ok {A} a.
Arguments Err {A} e.

Definition exc_bind {A B} (m : Exc A) (f : A -> Exc B) : Exc B :=
  match m with
  | Ok a => f a
  | Err e => Err e
  end.

(** ** The [decimal] module, default context *)

Module PyDecimal.

Record Decimal : Type := mkDecimal {
  dsign : bool;   (* [_sign]: true for a negative number *)
  dint : N;       (* [_int]: the coefficient *)
  dexp : Z        (* [_exp] *)
}.

Definition prec : Z := 28.
Definition Emax : Z := 999999.
Definition Emin : Z := -999999.
Definition Etiny : Z := Emin - prec + 1.
Definition Etop : Z := Emax - prec + 1.

Definition coef (d : Decimal) : Z := Z.of_N (dint d).

Definition dec (sign : bool) (c : Z) (e : Z) : Decimal :=
  mkDecimal sign (Z.to_N c) e.

(* [len(str(n))] for a non-negative integer *)
Fixpoint ndigits_aux (fuel : nat) (n : Z) : Z :=
  match fuel with
  | O => 1
  | S f => if n <? 10 then 1 else 1 + ndigits_aux f (n / 10)
  end.

Definition ndigits (n : Z) : Z := ndigits_aux (Z.to_nat (Z.log2 n)) n.

(* [__bool__]: a finite decimal is falsy exactly when it is zero *)
Definition truthy (d : Decimal) : bool := negb (coef d =? 0).
Definition is_zero (d : Decimal) : bool := coef d =? 0.

Definition adjusted (d : Decimal) : Z := dexp d + ndigits (coef d) - 1.

Definition copy_negate (d : Decimal) : Decimal :=
  mkDecimal (negb (dsign d)) (dint d) (dexp d).

Inductive Rounding : Type := ROUND_HALF_EVEN | ROUND_FLOOR.

(* Drop the [k] low digits of [c] ([0 < k]), rounding the quotient. *)
Definition round_half_even (c k : Z) : Z :=
  let p := 10 ^ k in
  let q := c / p in
  let r := c mod p in
  if 2 * r <? p then q
  else if p <? 2 * r then q + 1
  else if Z.even q then q else q + 1.

Definition round_floor (sign : bool) (c k : Z) : Z :=
  let p := 10 ^ k in
  if sign && negb (c mod p =? 0) then c / p + 1 else c / p.

Definition round_digits (r : Rounding) (sign : bool) (c k : Z) : Z :=
  match r with
  | ROUND_HALF_EVEN => round_half_even c k
  | ROUND_FLOOR => round_floor sign c k
  end.

(* [_rescale(exp, rounding)] *)
Definition rescale (d : Decimal) (exp : Z) (r : Rounding) : Decimal :=
  if is_zero d then dec (dsign d) 0 exp
  else if exp <=? dexp d then dec (dsign d) (coef d * 10 ^ (dexp d - exp)) exp
  else
    (* too many digits: round; a number below [10 ^ (exp - 1)] is first
       replaced by [10 ^ (exp - 1)] *)
    let digits := ndigits (coef d) + dexp d - exp in
    let '(c, k) := if digits <? 0 then (1, 1) else (coef d, exp - dexp d) in
    dec (dsign d) (round_digits r (dsign d) c k) exp.

(* [_fix(context)]: round to the context precision, trap on overflow *)
Definition fix_ (d : Decimal) : Exc Decimal :=
  if is_zero d then
    Ok (dec (dsign d) 0 (Z.min (Z.max (dexp d) Etiny) Emax))
  else
    let exp_min := ndigits (coef d) + dexp d - prec in
    if Etop <? exp_min then Err Overflow
    else
      let exp_min := if exp_min <? Etiny then Etiny else exp_min in
      if dexp d <? exp_min then
        let digits := ndigits (coef d) + dexp d - exp_min in
        let '(c, k) :=
          if digits <? 0 then (1, 1) else (coef d, exp_min - dexp d) in
        let coeff := round_half_even c k in
        let '(coeff, exp_min) :=
          if prec <? ndigits coeff then (coeff / 10, exp_min + 1)
          else (coeff, exp_min) in
        if Etop <? exp_min then Err Overflow
        else Ok (dec (dsign d) coeff exp_min)
      else Ok d.

Definition signed (d : Decimal) : Z :=
  if dsign d then - coef d else coef d.

(* [_cmp]: exact comparison of the two values *)
Definition cmp (a b : Decimal) : comparison :=
  let m := Z.min (dexp a) (dexp b) in
  Z.compare (signed a * 10 ^ (dexp a - m)) (signed b * 10 ^ (dexp b - m)).

Definition lt (a b : Decimal) : bool :=
  match cmp a b with Lt => true | _ => false end.
Definition le (a b : Decimal) : bool :=
  match cmp a b with Gt => false | _ => true end.

Definition zero : Decimal := mkDecimal false 0 0.

(* [Decimal(n)] for a Python int *)
Definition of_int (n : Z) : Decimal := dec (n <? 0) (Z.abs n) 0.

(* [__add__] *)
Definition add (a b : Decimal) : Exc Decimal :=
  let exp := Z.min (dexp a) (dexp b) in
  if is_zero a && is_zero b then fix_ (dec (dsign a && dsign b) 0 exp)
  else if is_zero a then
    fix_ (rescale b (Z.max exp (dexp b - prec - 1)) ROUND_HALF_EVEN)
  else if is_zero b then
    fix_ (rescale a (Z.max exp (dexp a - prec - 1)) ROUND_HALF_EVEN)
  else
    let s := signed a * 10 ^ (dexp a - exp) + signed b * 10 ^ (dexp b - exp) in
    if s =? 0 then fix_ (dec false 0 exp)
    else fix_ (dec (s <? 0) (Z.abs s) exp).

(* [__sub__] *)
Definition sub (a b : Decimal) : Exc Decimal := add a (copy_negate b).

(* [__mul__] *)
Definition mul (a b : Decimal) : Exc Decimal :=
  fix_ (dec (xorb (dsign a) (dsign b)) (coef a * coef b) (dexp a + dexp b)).

(* the loop of [__truediv__] that brings an exact quotient towards the
   ideal exponent: at most [fuel] trailing zeros are removed *)
Fixpoint strip_zeros (fuel : nat) (c e : Z) : Z * Z :=
  match fuel with
  | O => (c, e)
  | S f => if c mod 10 =? 0 then strip_zeros f (c / 10) (e + 1) else (c, e)
  end.

(* [__truediv__] *)
Definition div (a b : Decimal) : Exc Decimal :=
  let sign := xorb (dsign a) (dsign b) in
  if is_zero b then
    if is_zero a then Err (InvalidOperation "0 / 0") else Err DivisionByZero
  else if is_zero a then fix_ (dec sign 0 (dexp a - dexp b))
  else
    let shift := ndigits (coef b) - ndigits (coef a) + prec + 1 in
    let exp := dexp a - dexp b - shift in
    let '(coeff, remainder) :=
      if 0 <=? shift then Z.div_eucl (coef a * 10 ^ shift) (coef b)
      else Z.div_eucl (coef a) (coef b * 10 ^ (- shift)) in
    if negb (remainder =? 0) then
      fix_ (dec sign (if coeff mod 5 =? 0 then coeff + 1 else coeff) exp)
    else
      let ideal_exp := dexp a - dexp b in
      let '(coeff, exp) := strip_zeros (Z.to_nat (ideal_exp - exp)) coeff exp in
      fix_ (dec sign coeff exp).

(* [__abs__] *)
Definition abs (d : Decimal) : Exc Decimal :=
  fix_ (mkDecimal false (dint d) (dexp d)).

(* [int(math.floor(d))] *)
Definition floor (d : Decimal) : Z :=
  signed (rescale d 0 ROUND_FLOOR).

(* [normalize()] *)
Definition normalize (d : Decimal) : Exc Decimal :=
  exc_bind (fix_ d) (fun dup =>
    if is_zero dup then Ok (dec (dsign dup) 0 0)
    else
      let '(c, e) :=
        strip_zeros (Z.to_nat (Z.min (ndigits (coef dup)) (Emax - dexp dup)))
                    (coef dup) (dexp dup) in
      Ok (dec (dsign dup) c e)).

(* [quantize(exp)] with the context rounding *)
Definition quantize (d exp : Decimal) : Exc Decimal :=
  if negb ((Etiny <=? dexp exp) && (dexp exp <=? Emax)) then
    Err (InvalidOperation "target exponent out of bounds in quantize")
  else if is_zero d then fix_ (dec (dsign d) 0 (dexp exp))
  else if Emax <? adjusted d then
    Err (InvalidOperation "exponent of quantize result too large for current context")
  else if prec <? adjusted d - dexp exp + 1 then
    Err (InvalidOperation "quantize result has too many digits for current context")
  else
    let ans := rescale d (dexp exp) ROUND_HALF_EVEN in
    if Emax <? adjusted ans then
      Err (InvalidOperation "exponent of quantize result too large for current context")
    else if prec <? ndigits (coef ans) then
      Err (InvalidOperation "quantize result has too many digits for current context")
    else fix_ ans.

(* [Decimal('1e-%d' % p)] for an int [p]; a negative [p] gives the text
   ['1e--n'], which is not a number *)
Definition one_e_minus (p : Z) : Exc Decimal :=
  if p <? 0 then Err (InvalidOperation "ConversionSyntax")
  else Ok (dec false 1 (- p)).

End PyDecimal.

(** ** The script [binance_bot.py] *)

Import PyDecimal.

(* [order_side]: [args.order_side.lower()], one of ['buy'] and ['sell']
   (argparse [choices]) *)
Inductive Side : Type := BUY | SELL.

(* the parsed command line *)
Record Args : Type := mkArgs {
  market_name : string;
  order_side : Side;
  amount : Decimal;
  amount_currency : string;
  dynamic_dca : bool;
  live_mode : bool;
  job_mode : bool
}.

(* one entry of a market's ["filters"]; a key that the entry does not have
   reads as [None] *)
Record Filter : Type := mkFilter {
  filterType : string;
  minNotional : option Decimal;
  stepSize : option Decimal;
  tickSize : option Decimal
}.

(* one entry of [exchange_info["symbols"]] *)
Record Market : Type := mkMarket {
  symbol : string;
  baseAsset : string;
  quoteAsset : string;
  quoteAssetPrecision : Z;
  filters : list Filter
}.

Record Fill : Type := mkFill { fill_price : string }.

(* an order record returned by the exchange; [None] is a missing key *)
Record Order : Type := mkOrder {
  status : option string;
  fills : option (list Fill)
}.

(* what the collaborators answer during one run *)
Record Env : Type := mkEnv {
  sns_topic : option string;              (* [None] without an [AWS] section *)
  exchange_info : list Market;            (* [get_exchange_info()["symbols"]] *)
  input_response : string;                (* the operator's answer to [input] *)
  priceChangePercent : Decimal;           (* [get_ticker(...)] *)
  bids : list (Decimal * Decimal);        (* [get_order_book(...)["bids"]] *)
  asks : list (Decimal * Decimal);
  test_order : Exc Order;                 (* [create_test_order(...)] *)
  market_order : Exc Order                (* [order_market_buy/sell(...)] *)
}.

(* a value shown with [%s] where the script holds either a Decimal or the
   text of a fill price *)
Inductive Shown : Type :=
| ShownDecimal (d : Decimal)
| ShownText (s : string).

(* the texts the script formats *)
Inductive Text : Type :=
| T_started (a : Args)
| T_not_live_banner
| T_market (m : Market)
| T_base_min_size (d : Decimal)
| T_base_increment (d : Decimal)
| T_quote_increment (d : Decimal)
| T_separator
| T_exiting
| T_dynamic_dca (percent_change : Decimal) (steps : Z)
| T_scaling_up (steps : Z) (amount : Decimal)
| T_canceling (percent_change : Decimal)
| T_scaling_down (steps : Z) (amount : Decimal)
| T_market_price (market_price : Decimal) (quote_currency : string)
| T_base_currency_amount (base_currency_amount : Decimal) (base_currency : string)
| T_below_min_notional (base_currency_amount : Decimal) (base_currency : string)
    (market_price : Decimal) (quote_currency : string)
    (order_value base_min_size : Decimal)
| T_canceled_summary (percent_change : Decimal) (steps : Z)
    (market_name : string) (order_side : Side)
    (amount orig_amount : Decimal) (amount_currency : string)
| T_order_value (order_value : Decimal) (quote_currency : string)
| T_order (o : Order)
| T_unable_to_place (market : Market)
| T_unable_to_place_because (market : Market) (e : string)
| T_exception (e : string)
| T_dca_summary (percent_change : Decimal) (steps : Z)
    (market_name : string) (order_side : Side)
    (amount orig_amount : Decimal) (amount_currency : string)
    (status : option string) (market_price : Shown) (quote_currency : string)
| T_plain_summary (market_name : string) (order_side : Side)
    (amount : Decimal) (amount_currency : string)
    (status : option string) (market_price : Shown) (quote_currency : string)
| T_not_live_note.

Inductive Event : Type :=
| Print (t : Text)
| Input (prompt : string)
| Get_exchange_info
| Get_ticker (symbol : string)
| Get_order_book (symbol : string)
| Create_test_order (symbol : string) (side : Side) (quantity : Decimal)
| Order_market_buy (symbol : string) (quantity : Decimal)
| Order_market_sell (symbol : string) (quantity : Decimal)
| Sns_publish (topic : string) (subject message : Text).

(* how a block of the script ends *)
Inductive Outcome (A : Type) : Type :=
| Done (a : A)
| Raised (e : PyExc)
| Exited.
Arguments Done {A} a.
Arguments Raised {A} e.
Arguments Exited {A}.

(* a block: the events it produces, then how it ends *)
Definition M (A : Type) : Type := (list Event * Outcome A)%type.

Definition ret {A} (a : A) : M A := ([], Done a).

Definition bind {A B} (m : M A) (f : A -> M B) : M B :=
  match snd m with
  | Done a => ((fst m ++ fst (f a))%list, snd (f a))
  | Raised e => (fst m, Raised e)
  | Exited => (fst m, Exited)
  end.

Definition emit (ev : Event) : M unit := ([ev], Done tt).
Definition raise {A} (e : PyExc) : M A := ([], Raised e).
Definition exit_ {A} : M A := ([], Exited).

Definition lift {A} (x : Exc A) : M A :=
  match x with
  | Ok a => ret a
  | Err e => raise e
  end.

Notation "x <- m ;; k" := (bind m (fun x => k))
  (at level 61, m at next level, right associativity).
Notation "' p <- m ;; k" := (bind m (fun x => let 'p := x in k))
  (at level 61, p pattern, m at next level, right associativity).
Notation "m ;; k" := (bind m (fun _ => k))
  (at level 61, right associativity).

Definition trace {A} (m : M A) : list Event := fst m.
Definition outcome {A} (m : M A) : Outcome A := snd m.

Fixpoint foldM {A S} (step : S -> A -> M S) (s : S) (l : list A) : M S :=
  match l with
  | [] => ret s
  | a :: l' => s' <- step s a ;; foldM step s' l'
  end.

(* reading a global that may not have been assigned yet *)
Definition read {A} (name : string) (v : option A) : M A :=
  match v with
  | Some a => ret a
  | None => raise (NameError name)
  end.

(* [Decimal(x)] where [x] comes from [dict.get] *)
Definition Decimal_of (x : option Decimal) : M Decimal :=
  match x with
  | Some d => ret d
  | None => raise (TypeError "conversion from NoneType to Decimal is not supported")
  end.

(* the globals assigned inside the loop over the markets *)
Record Vars : Type := mkVars {
  market : option Market;
  base_currency : option string;
  quote_currency : option string;
  quote_asset_precision : option Z;
  base_min_size : option Decimal;
  base_increment : option Decimal;
  quote_increment : option Decimal;
  amount_currency_is_quote_currency : option bool
}.

Definition no_vars : Vars := mkVars None None None None None None None None.

Definition set_market (v : Vars) (m : Market) : Vars :=
  mkVars (Some m) (base_currency v) (quote_currency v) (quote_asset_precision v)
         (base_min_size v) (base_increment v) (quote_increment v)
         (amount_currency_is_quote_currency v).

Definition set_assets (v : Vars) (m : Market) : Vars :=
  mkVars (market v) (Some (baseAsset m)) (Some (quoteAsset m))
         (Some (quoteAssetPrecision m))
         (base_min_size v) (base_increment v) (quote_increment v)
         (amount_currency_is_quote_currency v).

Definition set_base_min_size (v : Vars) (d : Decimal) : Vars :=
  mkVars (market v) (base_currency v) (quote_currency v) (quote_asset_precision v)
         (Some d) (base_increment v) (quote_increment v)
         (amount_currency_is_quote_currency v).

Definition set_base_increment (v : Vars) (d : Decimal) : Vars :=
  mkVars (market v) (base_currency v) (quote_currency v) (quote_asset_precision v)
         (base_min_size v) (Some d) (quote_increment v)
         (amount_currency_is_quote_currency v).

Definition set_quote_increment (v : Vars) (d : Decimal) : Vars :=
  mkVars (market v) (base_currency v) (quote_currency v) (quote_asset_precision v)
         (base_min_size v) (base_increment v) (Some d)
         (amount_currency_is_quote_currency v).

Definition set_is_quote (v : Vars) (b : bool) : Vars :=
  mkVars (market v) (base_currency v) (quote_currency v) (quote_asset_precision v)
         (base_min_size v) (base_increment v) (quote_increment v) (Some b).

(* lines 204-210: one iteration of [for filter in market.get("filters")] *)
Definition filter_step (v : Vars) (f : Filter) : M Vars :=
  if (filterType f =? "MIN_NOTIONAL")%string then
    d <- Decimal_of (minNotional f) ;;
    n <- lift (normalize d) ;;
    ret (set_base_min_size v n)
  else if (filterType f =? "LOT_SIZE")%string then
    d <- Decimal_of (stepSize f) ;;
    n <- lift (normalize d) ;;
    ret (set_base_increment v n)
  else if (filterType f =? "PRICE_FILTER")%string then
    d <- Decimal_of (tickSize f) ;;
    n <- lift (normalize d) ;;
    ret (set_quote_increment v n)
  else ret v.

(* lines 212-217: the three presence checks *)
Definition check_filters (a : Args) (v : Vars) : M unit :=
  d <- read "base_min_size" (base_min_size v) ;;
  (if negb (truthy d) then
     raise (Exception_ ("MIN_NOTIONAL.minNotional not found in " ++ market_name a ++ " info"))
   else ret tt) ;;
  d <- read "base_increment" (base_increment v) ;;
  (if negb (truthy d) then
     raise (Exception_ ("LOT_SIZE.stepSize not found in " ++ market_name a ++ " info"))
   else ret tt) ;;
  d <- read "quote_increment" (quote_increment v) ;;
  (if negb (truthy d) then
     raise (Exception_ ("PRICE_FILTER.tickSize not found in " ++ market_name a ++ " info"))
   else ret tt).

(* lines 219-225 *)
Definition check_amount_currency (a : Args) (v : Vars) : M Vars :=
  q <- read "quote_currency" (quote_currency v) ;;
  if (amount_currency a =? q)%string then ret (set_is_quote v true)
  else
    b <- read "base_currency" (base_currency v) ;;
    if (amount_currency a =? b)%string then ret (set_is_quote v false)
    else raise (Exception_ ("amount_currency " ++ amount_currency a
                            ++ " not in market " ++ market_name a)).

(* lines 197-226: one iteration of [for market in exchange_info.get("symbols")] *)
Definition market_step (a : Args) (v : Vars) (m : Market) : M Vars :=
  let v := set_market v m in
  if (symbol m =? market_name a)%string then
    let v := set_assets v m in
    v <- foldM filter_step v (filters m) ;;
    check_filters a v ;;
    v <- check_amount_currency a v ;;
    emit (Print (T_market m)) ;;
    ret v
  else ret v.

(* lines 119-230 *)
Definition resolve (a : Args) (e : Env) : M Vars :=
  emit Get_exchange_info ;;
  v <- foldM (market_step a) no_vars (exchange_info e) ;;
  d <- read "base_min_size" (base_min_size v) ;;
  emit (Print (T_base_min_size d)) ;;
  d <- read "base_increment" (base_increment v) ;;
  emit (Print (T_base_increment d)) ;;
  d <- read "quote_increment" (quote_increment v) ;;
  emit (Print (T_quote_increment d)) ;;
  ret v.

(* lines 232-237 *)
Definition confirm (a : Args) (e : Env) : M unit :=
  if live_mode a && negb (job_mode a) then
    emit (Print T_separator) ;;
    emit (Input "Live purchase! Confirm Y/[n]: ") ;;
    if negb (input_response e =? "Y")%string then
      emit (Print T_exiting) ;;
      exit_
    else ret tt
  else ret tt.

(* the globals assigned inside [if is_dynamic_dca:] *)
Record Scaling : Type := mkScaling {
  percent_change : Decimal;
  steps : Z;
  orig_amount : Decimal
}.

(* [amount] and [is_dynamic_dca] after the dynamic DCA block *)
Record Dca : Type := mkDca {
  dca_amount : Decimal;
  is_dynamic_dca : bool;
  scaling : option Scaling
}.

Definition step_size : Decimal := mkDecimal false 50 (-1).          (* "5.0" *)
Definition amount_multiplier : Decimal := mkDecimal false 10 (-1).  (* "1.0" *)
Definition amount_divider : Decimal := mkDecimal false 25 (-2).     (* "0.25" *)
Definition zero_amount : Decimal := mkDecimal false 0 (-1).         (* "0.0" *)

Definition is_buy (s : Side) : bool :=
  match s with BUY => true | SELL => false end.
Definition is_sell (s : Side) : bool :=
  match s with BUY => false | SELL => true end.

(* lines 257-258; a comparison with the float [0.0] is exact *)
Definition favorable (side : Side) (percent_change : Decimal) : bool :=
  (is_buy side && lt percent_change zero)
  || (is_sell side && lt zero percent_change).

(* line 250 *)
Definition steps_of (percent_change : Decimal) : Exc Z :=
  exc_bind (div percent_change step_size) (fun q =>
  exc_bind (abs q) (fun r => Ok (floor r))).

(* lines 256-269, the branch [steps > 0] *)
Definition scale_amount (side : Side) (amount percent_change : Decimal)
    (steps : Z) : M Decimal :=
  if favorable side percent_change then
    x <- lift (mul amount amount_multiplier) ;;
    y <- lift (mul x (of_int steps)) ;;
    amount <- lift (add amount y) ;;
    emit (Print (T_scaling_up steps amount)) ;;
    ret amount
  else
    x <- lift (mul amount amount_divider) ;;
    y <- lift (mul x (of_int steps)) ;;
    amount <- lift (sub amount y) ;;
    if le amount zero then
      emit (Print (T_canceling percent_change)) ;;
      ret zero_amount
    else
      emit (Print (T_scaling_down steps amount)) ;;
      ret amount.

(* lines 241-272 *)
Definition dynamic_dca_block (a : Args) (e : Env) : M Dca :=
  if dynamic_dca a then
    let orig_amount := amount a in
    emit (Get_ticker (market_name a)) ;;
    let percent_change := priceChangePercent e in
    steps <- lift (steps_of percent_change) ;;
    emit (Print (T_dynamic_dca percent_change steps)) ;;
    let s := mkScaling percent_change steps orig_amount in
    if 0 <? steps then
      amount <- scale_amount (order_side a) (amount a) percent_change steps ;;
      ret (mkDca amount true (Some s))
    else
      ret (mkDca (amount a) false (Some s))
  else ret (mkDca (amount a) false None).

(* lines 278-282: [bids[0][0]] or [asks[0][0]] *)
Definition top_price (book : list (Decimal * Decimal)) : M Decimal :=
  match book with
  | [] => raise IndexError
  | (p, _) :: _ => ret p
  end.

(* lines 278-284 *)
Definition get_market_price (a : Args) (e : Env) (v : Vars) : M Decimal :=
  emit (Get_order_book (market_name a)) ;;
  market_price <- (if is_buy (order_side a) then top_price (bids e)
                   else top_price (asks e)) ;;
  q <- read "quote_currency" (quote_currency v) ;;
  emit (Print (T_market_price market_price q)) ;;
  ret market_price.

(* lines 287-290 *)
Definition base_currency_amount_of (is_quote : bool)
    (amount market_price base_increment : Decimal) : Exc Decimal :=
  if is_quote then
    exc_bind (div amount market_price) (fun q => quantize q base_increment)
  else quantize amount base_increment.

(* lines 287-292 *)
Definition size_order (v : Vars) (amount market_price : Decimal) : M Decimal :=
  is_quote <- read "amount_currency_is_quote_currency"
                   (amount_currency_is_quote_currency v) ;;
  inc <- read "base_increment" (base_increment v) ;;
  q <- lift (base_currency_amount_of is_quote amount market_price inc) ;;
  b <- read "base_currency" (base_currency v) ;;
  emit (Print (T_base_currency_amount q b)) ;;
  ret q.

(* lines 294-296 *)
Definition order_value_of (base_currency_amount market_price : Decimal)
    (quote_asset_precision : Z) : Exc Decimal :=
  exc_bind (mul base_currency_amount market_price) (fun x =>
  exc_bind (one_e_minus quote_asset_precision) (fun q => quantize x q)).

(* [if sns_topic and live_mode: sns.publish(...)] *)
Definition notify (a : Args) (e : Env) (subject message : Text) : M unit :=
  match sns_topic e with
  | Some t =>
      if negb (t =? "")%string && live_mode a
      then emit (Sns_publish t subject message)
      else ret tt
  | None => ret tt
  end.

(* lines 294-323 *)
Definition validate (a : Args) (e : Env) (v : Vars) (d : Dca)
    (market_price base_currency_amount : Decimal) : M Decimal :=
  p <- read "quote_asset_precision" (quote_asset_precision v) ;;
  order_value <- lift (order_value_of base_currency_amount market_price p) ;;
  m <- read "base_min_size" (base_min_size v) ;;
  if lt order_value m then
    b <- read "base_currency" (base_currency v) ;;
    q <- read "quote_currency" (quote_currency v) ;;
    let message :=
      T_below_min_notional base_currency_amount b market_price q order_value m in
    emit (Print message) ;;
    (if is_dynamic_dca d then
       s <- read "percent_change" (scaling d) ;;
       let purchase_summary :=
         T_canceled_summary (percent_change s) (steps s) (market_name a)
           (order_side a) (dca_amount d) (orig_amount s) (amount_currency a) in
       emit (Print purchase_summary) ;;
       notify a e purchase_summary message
     else ret tt) ;;
    exit_
  else
    q <- read "quote_currency" (quote_currency v) ;;
    emit (Print (T_order_value order_value q)) ;;
    ret order_value.

(* truth value of the dict as far as the record shows its keys *)
Definition order_truthy (o : Order) : bool :=
  match status o, fills o with
  | None, None => false
  | _, _ => true
  end.

(* [order.get("fills")[0]] *)
Definition first_fill (o : Order) : M Fill :=
  match fills o with
  | None => raise (TypeError "'NoneType' object is not subscriptable")
  | Some [] => raise IndexError
  | Some (f :: _) => ret f
  end.

(* lines 325-387; the quantity is sent as [float(base_currency_amount)] *)
Definition execute (a : Args) (e : Env) (v : Vars)
    (market_price base_currency_amount : Decimal) : M (Order * Shown) :=
  if negb (live_mode a) then
    emit (Create_test_order (market_name a) (order_side a) base_currency_amount) ;;
    order <- lift (test_order e) ;;
    (if order_truthy order then emit (Print (T_order order)) else ret tt) ;;
    ret (order, ShownDecimal market_price)
  else
    (if is_buy (order_side a)
     then emit (Order_market_buy (market_name a) base_currency_amount)
     else emit (Order_market_sell (market_name a) base_currency_amount)) ;;
    match market_order e with
    | Err (BinanceAPIException msg) =>
        m <- read "market" (market v) ;;
        emit (Print (T_unable_to_place_because m msg)) ;;
        notify a e (T_unable_to_place m) (T_exception msg) ;;
        exit_
    | Err x => raise x
    | Ok order =>
        emit (Print (T_order order)) ;;
        f <- first_fill order ;;
        ret (order, ShownText (fill_price f))
    end.

(* lines 389-423 *)
Definition summarize (a : Args) (e : Env) (v : Vars) (d : Dca)
    (order : Order) (market_price : Shown) : M unit :=
  purchase_summary <-
    (if is_dynamic_dca d then
       s <- read "percent_change" (scaling d) ;;
       q <- read "quote_currency" (quote_currency v) ;;
       ret (T_dca_summary (percent_change s) (steps s) (market_name a)
              (order_side a) (dca_amount d) (orig_amount s) (amount_currency a)
              (status order) market_price q)
     else
       q <- read "quote_currency" (quote_currency v) ;;
       ret (T_plain_summary (market_name a) (order_side a) (dca_amount d)
              (amount_currency a) (status order) market_price q)) ;;
  notify a e purchase_summary (T_order order) ;;
  emit (Print T_separator) ;;
  emit (Print purchase_summary) ;;
  if negb (live_mode a) then emit (Print T_not_live_note) else ret tt.

(* lines 294-423: validation, submission and summary of a sized order *)
Definition settle (a : Args) (e : Env) (v : Vars) (d : Dca)
    (market_price base_currency_amount : Decimal) : M unit :=
  validate a e v d market_price base_currency_amount ;;
  ' (order, shown) <- execute a e v market_price base_currency_amount ;;
  summarize a e v d order shown.

(* lines 275-423: everything after the dynamic DCA block *)
Definition trade (a : Args) (e : Env) (v : Vars) (d : Dca) : M unit :=
  market_price <- get_market_price a e v ;;
  base_currency_amount <- size_order v (dca_amount d) market_price ;;
  settle a e v d market_price base_currency_amount.

(* the block under [if __name__ == "__main__":] *)
Definition main (a : Args) (e : Env) : M unit :=
  emit (Print (T_started a)) ;;
  (if negb (live_mode a) then emit (Print T_not_live_banner) else ret tt) ;;
  v <- resolve a e ;;
  confirm a e ;;
  d <- dynamic_dca_block a e ;;
  trade a e v d.

(** ** Vocabulary of the properties *)

(* every publication goes through the guard [sns_topic and live_mode] *)
Definition guarded_publish (a : Args) (e : Env) (ev : Event) : Prop :=
  match ev with
  | Sns_publish t _ _ =>
      live_mode a = true /\ sns_topic e = Some t /\ t <> ""%string
  | _ => True
  end.

(* an order, test or live, is handed to the exchange *)
Definition is_submission (ev : Event) : bool :=
  match ev with
  | Create_test_order _ _ _ | Order_market_buy _ _ | Order_market_sell _ _ => true
  | _ => false
  end.

(* a ticker or order-book request *)
Definition is_price_fetch (ev : Event) : bool :=
  match ev with
  | Get_ticker _ | Get_order_book _ => true
  | _ => false
  end.

(* the sizing step reports a base quantity *)
Definition is_sizing (ev : Event) : bool :=
  match ev with
  | Print (T_base_currency_amount _ _) => true
  | _ => false
  end.

(* number of order-book requests in a trace *)
Fixpoint book_calls (t : list Event) : nat :=
  match t with
  | [] => O
  | Get_order_book _ :: t' => S (book_calls t')
  | _ :: t' => book_calls t'
  end.

(** ** Sample data: the ETHBTC record quoted in the script *)

Definition D (c : N) (e : Z) : Decimal := mkDecimal false c e.

Definition no_filter (ty : string) : Filter := mkFilter ty None None None.

Definition ethbtc_filters : list Filter :=
  [ mkFilter "PRICE_FILTER" None None (Some (D 100 (-8)));
    no_filter "PERCENT_PRICE";
    mkFilter "LOT_SIZE" None (Some (D 100000 (-8))) None;
    mkFilter "MIN_NOTIONAL" (Some (D 10000 (-8))) None None;
    no_filter "ICEBERG_PARTS";
    mkFilter "MARKET_LOT_SIZE" None (Some (D 0 (-8))) None;
    no_filter "MAX_NUM_ORDERS";
    no_filter "MAX_NUM_ALGO_ORDERS" ].

Definition ethbtc : Market := mkMarket "ETHBTC" "ETH" "BTC" 8 ethbtc_filters.

Definition adabtc : Market :=
  mkMarket "ADABTC" "ADA" "BTC" 8
    [ mkFilter "LOT_SIZE" None (Some (D 100000000 (-8))) None ].

Definition filled : Order :=
  mkOrder (Some "FILLED") (Some [mkFill "0.05010000"]).

Definition empty_order : Order := mkOrder None None.

(* ETHBTC, up 12.5% over the day; best bid 0.05, best ask 0.0501 *)
Definition sample_env : Env :=
  mkEnv (Some "arn:aws:sns:us-east-1:0:dca") [adabtc; ethbtc] "Y"
        (D 125 (-1))
        [(D 5 (-2), D 10 0); (D 49 (-3), D 3 0)]
        [(D 501 (-4), D 5 0)]
        (Ok empty_order) (Ok filled).

(* [ETHBTC BUY 0.002 BTC] with the switches given *)
Definition sample_args (dynamic live job : bool) : Args :=
  mkArgs "ETHBTC" BUY (D 2 (-3)) "BTC" dynamic live job.

(* a market entry that the loop over the symbols passes over *)
Definition other_market (a : Args) (m : Market) : Prop :=
  symbol m <> market_name a.

(* lines 199-217 for a matching market [m] that the loop enters with none
   of the constraints assigned yet *)
Definition resolve_constraints (a : Args) (m : Market) : M Vars :=
  v <- foldM filter_step (set_assets (set_market no_vars m) m) (filters m) ;;
  check_filters a v ;;
  ret v.

(* the filter of type [ty] that the filter loop sees last *)
Definition last_filter (ty : string) (fs : list Filter) : option Filter :=
  find (fun f => (filterType f =? ty)%string) (rev fs).

Definition no_fetch_no_order (ev : Event) : Prop :=
  is_price_fetch ev = false /\ is_sizing ev = false /\ is_submission ev = false.

(* ADABTC carries no MIN_NOTIONAL entry; XRPBTC is not listed at all *)
Definition adabtc_args : Args := mkArgs "ADABTC" SELL (D 10 0) "ADA" false false false.
Definition xrpbtc_args : Args := mkArgs "XRPBTC" SELL (D 10 0) "XRP" false false false.

(* [ETHBTC BUY 0.002 USD]: USD is neither ETH nor BTC *)
Definition usd_args : Args := mkArgs "ETHBTC" BUY (D 2 (-3)) "USD" false false false.

(* an ETHBTC record whose MIN_NOTIONAL and LOT_SIZE values are both zero *)
Definition ethbtc_zero_lot : Market :=
  mkMarket "ETHBTC" "ETH" "BTC" 8
    [ mkFilter "PRICE_FILTER" None None (Some (D 100 (-8)));
      mkFilter "LOT_SIZE" None (Some (D 0 (-8))) None;
      mkFilter "MIN_NOTIONAL" (Some (D 0 (-8))) None None ].

(* an ETHBTC record with a zero LOT_SIZE value and no MIN_NOTIONAL entry *)
Definition ethbtc_no_min : Market :=
  mkMarket "ETHBTC" "ETH" "BTC" 8
    [ mkFilter "PRICE_FILTER" None None (Some (D 100 (-8)));
      mkFilter "LOT_SIZE" None (Some (D 0 (-8))) None ].

(* an ETHBTC record whose only defect is a zero LOT_SIZE value *)
Definition ethbtc_zero_step : Market :=
  mkMarket "ETHBTC" "ETH" "BTC" 8
    [ mkFilter "PRICE_FILTER" None None (Some (D 100 (-8)));
      mkFilter "LOT_SIZE" None (Some (D 0 (-8))) None;
      mkFilter "MIN_NOTIONAL" (Some (D 10000 (-8))) None None ].

Definition env_with (ms : list Market) : Env :=
  mkEnv (sns_topic sample_env) ms (input_response sample_env)
        (priceChangePercent sample_env) (bids sample_env) (asks sample_env)
        (test_order sample_env) (market_order sample_env).

(* lines 84-272: the run up to the end of the dynamic DCA block *)
Definition prelude (a : Args) (e : Env) : M (Vars * Dca) :=
  emit (Print (T_started a)) ;;
  (if negb (live_mode a) then emit (Print T_not_live_banner) else ret tt) ;;
  v <- resolve a e ;;
  confirm a e ;;
  d <- dynamic_dca_block a e ;;
  ret (v, d).

(* the price at the top of the book on the side the script reads:
   the best bid for a buy, the best ask for a sell *)
Definition best_price (a : Args) (e : Env) : option Decimal :=
  match order_side a with
  | BUY => option_map fst (hd_error (bids e))
  | SELL => option_map fst (hd_error (asks e))
  end.

Definition is_book_call (ev : Event) : bool :=
  match ev with
  | Get_order_book _ => true
  | _ => false
  end.

(* the events of lines 275-423 that show the price, the sized quantity,
   the notional value or an order *)
Definition is_trade_event (ev : Event) : bool :=
  match ev with
  | Get_order_book _
  | Print (T_market_price _ _)
  | Print (T_base_currency_amount _ _)
  | Print (T_order_value _ _)
  | Print (T_below_min_notional _ _ _ _ _ _)
  | Print (T_canceled_summary _ _ _ _ _ _ _)
  | Create_test_order _ _ _ | Order_market_buy _ _ | Order_market_sell _ _ => true
  | _ => false
  end.

(* the cancellation summary of lines 304-312 *)
Definition canceled_summary (a : Args) (d : Dca) (s : Scaling) : Text :=
  T_canceled_summary (percent_change s) (steps s) (market_name a) (order_side a)
    (dca_amount d) (orig_amount s) (amount_currency a).

(* what a rejection by the validator produces: the message, then, when
   dynamic DCA is in effect, the cancellation summary and its notification *)
Definition rejection_trace (a : Args) (e : Env) (d : Dca) (message : Text)
    : list Event :=
  Print message ::
  match is_dynamic_dca d, scaling d with
  | true, Some s =>
      Print (canceled_summary a d s)
      :: trace (notify a e (canceled_summary a d s) message)
  | _, _ => []
  end.

(* the value of [d] counted in units of [10 ^ m], for [m <= dexp d] *)
Definition scaled (m : Z) (d : Decimal) : Z := signed d * 10 ^ (dexp d - m).

(* [r] is within half a unit of its last place of [x] *)
Definition rounded_to_nearest (x r : Decimal) : Prop :=
  let m := Z.min (dexp x) (dexp r) in
  2 * Z.abs (scaled m r - scaled m x) <= 10 ^ (dexp r - m).

(* the globals after the ETHBTC record has been resolved for an amount in BTC *)
Definition ethbtc_vars : Vars :=
  mkVars (Some ethbtc) (Some "ETH") (Some "BTC") (Some 8)
         (Some (D 1 (-4))) (Some (D 1 (-3))) (Some (D 1 (-6))) (Some true).

(* 0.0001 BTC halved by two unfavourable steps at +12.5% *)
Definition halved : Dca :=
  mkDca (D 5000 (-8)) true (Some (mkScaling (D 125 (-1)) 2 (D 1 (-4)))).

(* the prints of the dynamic DCA block *)
Definition is_dynamic_event (ev : Event) : bool :=
  match ev with
  | Get_ticker _
  | Print (T_dynamic_dca _ _)
  | Print (T_scaling_up _ _)
  | Print (T_canceling _)
  | Print (T_scaling_down _ _) => true
  | _ => false
  end.

(* the prints of lines 228-230 *)
Definition is_constraint_print (ev : Event) : bool :=
  match ev with
  | Print (T_base_min_size _)
  | Print (T_base_increment _)
  | Print (T_quote_increment _) => true
  | _ => false
  end.

(* [ETHBTC BUY 0.002 BTC -d] on a day when the price rose by 25%: five
   unfavourable steps *)
Definition rally_env : Env :=
  mkEnv (sns_topic sample_env) (exchange_info sample_env)
        (input_response sample_env) (D 250 (-1))
        (bids sample_env) (asks sample_env)
        (test_order sample_env) (market_order sample_env).



(* on a tie the rounded coefficient is even *)
Definition ties_to_even (x r : Decimal) : Prop :=
  let m := Z.min (dexp x) (dexp r) in
  2 * Z.abs (scaled m r - scaled m x) = 10 ^ (dexp r - m) ->
  Z.even (coef r) = true.

(* [r] is [x] times [num / den] *)
Definition value_times (r x : Decimal) (num den : Z) : Prop :=
  let m := Z.min (dexp r) (dexp x) in
  den * scaled m r = num * scaled m x.

(* an amount of 28 nines, and the 40-digit amount 10^39 + 1 *)
Definition nines28 : Decimal := D 9999999999999999999999999999 0.
Definition big40 : Decimal := D 1000000000000000000000000000000000000001 0.
Definition minus (d : Decimal) : Decimal := copy_negate d.

(* the same command line without [-d] *)
Definition without_dynamic_dca (a : Args) : Args :=
  mkArgs (market_name a) (order_side a) (amount a) (amount_currency a)
         false (live_mode a) (job_mode a).

(* [copy_abs] *)
Definition copy_abs (d : Decimal) : Decimal :=
  mkDecimal false (dint d) (dexp d).

(* a rise of 4.99999999999999999999999999999 percent (30 digits) *)
Definition almost5 : Decimal := D 499999999999999999999999999999 (-29).

Definition almost5_env : Env :=
  mkEnv (sns_topic sample_env) (exchange_info sample_env)
        (input_response sample_env) almost5
        (bids sample_env) (asks sample_env)
        (test_order sample_env) (market_order sample_env).

(* the day's change is +3.2% *)
Definition calm_env : Env :=
  mkEnv (sns_topic sample_env) (exchange_info sample_env)
        (input_response sample_env) (D 32 (-1))
        (bids sample_env) (asks sample_env)
        (test_order sample_env) (market_order sample_env).

(* what the filter loop leaves in the three constraints *)
Definition extracted (ty : string) (field : Filter -> option Decimal)
    (var : Vars -> option Decimal) (fs : list Filter) (v v' : Vars) : Prop :=
  match last_filter ty fs with
  | Some f => exists z n, field f = Some z /\ normalize z = Ok n /\ var v' = Some n
  | None => var v' = var v
  end.

(* the globals of the market loop: none of the three constraints assigned
   yet, or every one of them assigned *)
Definition unresolved (v : Vars) : Prop :=
  base_min_size v = None /\ base_increment v = None /\ quote_increment v = None.

Definition resolved (v : Vars) : Prop :=
  market v <> None /\ base_currency v <> None /\ quote_currency v <> None
  /\ quote_asset_precision v <> None
  /\ (exists d, base_min_size v = Some d /\ truthy d = true)
  /\ (exists d, base_increment v = Some d /\ truthy d = true)
  /\ (exists d, quote_increment v = Some d /\ truthy d = true)
  /\ amount_currency_is_quote_currency v <> None.

(** ** Vocabulary of the further properties *)

(* number of events of a trace that satisfy [p] *)
Definition count (p : Event -> bool) (t : list Event) : nat :=
  List.length (List.filter p t).

Definition is_publish (ev : Event) : bool :=
  match ev with
  | Sns_publish _ _ _ => true
  | _ => false
  end.

Definition is_input (ev : Event) : bool :=
  match ev with
  | Input _ => true
  | _ => false
  end.

(* the final summary of lines 389-411, in either format *)
Definition is_summary (ev : Event) : bool :=
  match ev with
  | Print (T_dca_summary _ _ _ _ _ _ _ _ _ _)
  | Print (T_plain_summary _ _ _ _ _ _ _) => true
  | _ => false
  end.

(* the quantity handed to the exchange by a submission *)
Definition quantity_of (ev : Event) : option Decimal :=
  match ev with
  | Create_test_order _ _ q | Order_market_buy _ q | Order_market_sell _ q => Some q
  | _ => None
  end.

(* what lines 325-349 may send in the mode and on the side of the command
   line *)
Definition submission_fits (a : Args) (ev : Event) : Prop :=
  match ev with
  | Create_test_order sym side _ =>
      live_mode a = false /\ sym = market_name a /\ side = order_side a
  | Order_market_buy sym _ =>
      live_mode a = true /\ order_side a = BUY /\ sym = market_name a
  | Order_market_sell sym _ =>
      live_mode a = true /\ order_side a = SELL /\ sym = market_name a
  | _ => True
  end.

(* a live run in which the operator has to confirm *)
Definition live_args : Args := sample_args false true false.

(* the operator answers "y" *)
Definition declining_env : Env :=
  mkEnv (sns_topic sample_env) (exchange_info sample_env) "y"
        (priceChangePercent sample_env) (bids sample_env) (asks sample_env)
        (test_order sample_env) (market_order sample_env).

(* the exchange refuses the live order *)
Definition refusing_env : Env :=
  mkEnv (sns_topic sample_env) [ethbtc; adabtc] (input_response sample_env)
        (priceChangePercent sample_env) (bids sample_env) (asks sample_env)
        (test_order sample_env)
        (Err (BinanceAPIException "Account has insufficient balance")).

(* the exchange accepts the live order but reports no fill *)
Definition unfilled_env : Env :=
  mkEnv (sns_topic sample_env) (exchange_info sample_env)
        (input_response sample_env) (priceChangePercent sample_env)
        (bids sample_env) (asks sample_env) (test_order sample_env)
        (Ok (mkOrder (Some "EXPIRED") (Some []))).

(* nobody is bidding *)
Definition no_bids_env : Env :=
  mkEnv (sns_topic sample_env) (exchange_info sample_env)
        (input_response sample_env) (priceChangePercent sample_env)
        [] (asks sample_env) (test_order sample_env) (market_order sample_env).

(* an ETHBTC record whose LOT_SIZE entry has no stepSize key *)
Definition ethbtc_no_step_key : Market :=
  mkMarket "ETHBTC" "ETH" "BTC" 8
    [ mkFilter "MIN_NOTIONAL" (Some (D 10000 (-8))) None None;
      mkFilter "LOT_SIZE" None None None;
      mkFilter "PRICE_FILTER" None None (Some (D 100 (-8))) ].

Definition is_print (ev : Event) : bool :=
  match ev with
  | Print _ => true
  | _ => false
  end.

(* what each part of the script may do besides printing *)
Definition resolve_event (ev : Event) : Prop :=
  ev = Get_exchange_info \/ is_print ev = true.
Definition confirm_event (ev : Event) : Prop :=
  is_input ev = true \/ is_print ev = true.
Definition dynamic_event (ev : Event) : Prop :=
  (exists sym, ev = Get_ticker sym) \/ is_print ev = true.
Definition price_event (ev : Event) : Prop :=
  (exists sym, ev = Get_order_book sym) \/ is_print ev = true.
Definition report_event (ev : Event) : Prop :=
  is_publish ev = true \/ is_print ev = true.

(* the request of lines 325-349 for the quantity [q] *)
Definition submission (a : Args) (q : Decimal) : Event :=
  if negb (live_mode a) then Create_test_order (market_name a) (order_side a) q
  else if is_buy (order_side a) then Order_market_buy (market_name a) q
  else Order_market_sell (market_name a) q.

(* lines 325-423: submission and summary of a validated order *)
Definition finish (a : Args) (e : Env) (v : Vars) (d : Dca)
    (market_price base_currency_amount : Decimal) : M unit :=
  ' (order, shown) <- execute a e v market_price base_currency_amount ;;
  summarize a e v d order shown.

(* what a run shows between the order-book request and the submission *)
Definition priced (a : Args) (p : Decimal) (qc : string) : list Event :=
  [Get_order_book (market_name a); Print (T_market_price p qc)].
Definition sized (a : Args) (p : Decimal) (qc : string) (q : Decimal)
    (b : string) : list Event :=
  (priced a p qc ++ [Print (T_base_currency_amount q b)])%list.

(* a run that ends before anything is submitted: how far it gets, and the
   whole run in each case *)
Inductive Early (a : Args) (e : Env) : Prop :=
| Stopped_early :
    (forall x, outcome (prelude a e) <> Done x) ->
    trace (main a e) = trace (prelude a e) ->
    outcome (main a e) <> Done tt ->
    Early a e
| No_price v d :
    outcome (prelude a e) = Done (v, d) ->
    best_price a e = None ->
    main a e = ((trace (prelude a e) ++ [Get_order_book (market_name a)])%list,
                Raised IndexError) ->
    Early a e
| Not_sized v d p qc iq inc x :
    outcome (prelude a e) = Done (v, d) ->
    best_price a e = Some p ->
    quote_currency v = Some qc ->
    amount_currency_is_quote_currency v = Some iq ->
    base_increment v = Some inc ->
    base_currency_amount_of iq (dca_amount d) p inc = Err x ->
    main a e = ((trace (prelude a e) ++ priced a p qc)%list, Raised x) ->
    Early a e
| Not_valued v d p qc iq inc q b prec x :
    outcome (prelude a e) = Done (v, d) ->
    best_price a e = Some p ->
    quote_currency v = Some qc ->
    amount_currency_is_quote_currency v = Some iq ->
    base_increment v = Some inc ->
    base_currency_amount_of iq (dca_amount d) p inc = Ok q ->
    base_currency v = Some b ->
    quote_asset_precision v = Some prec ->
    order_value_of q p prec = Err x ->
    main a e = ((trace (prelude a e) ++ sized a p qc q b)%list, Raised x) ->
    Early a e
| Rejected v d p qc iq inc q b prec m ov :
    outcome (prelude a e) = Done (v, d) ->
    best_price a e = Some p ->
    quote_currency v = Some qc ->
    amount_currency_is_quote_currency v = Some iq ->
    base_increment v = Some inc ->
    base_currency_amount_of iq (dca_amount d) p inc = Ok q ->
    base_currency v = Some b ->
    quote_asset_precision v = Some prec ->
    base_min_size v = Some m ->
    order_value_of q p prec = Ok ov ->
    lt ov m = true ->
    main a e =
    ((trace (prelude a e) ++ sized a p qc q b
        ++ rejection_trace a e d (T_below_min_notional q b p qc ov m))%list,
     Exited) ->
    Early a e.

(* a run whose order passes the validator *)
Inductive Late (a : Args) (e : Env) : Prop :=
| Accepted v d p qc iq inc q b prec m ov :
    outcome (prelude a e) = Done (v, d) ->
    best_price a e = Some p ->
    quote_currency v = Some qc ->
    amount_currency_is_quote_currency v = Some iq ->
    base_increment v = Some inc ->
    base_currency_amount_of iq (dca_amount d) p inc = Ok q ->
    base_currency v = Some b ->
    quote_asset_precision v = Some prec ->
    base_min_size v = Some m ->
    order_value_of q p prec = Ok ov ->
    lt ov m = false ->
    main a e =
    ((trace (prelude a e) ++ sized a p qc q b
        ++ Print (T_order_value ov qc) :: trace (finish a e v d p q))%list,
     outcome (finish a e v d p q)) ->
    Late a e.

(* the last record of the symbol list: what [market] is bound to once the
   loop of line 197 has run through *)
Definition last_listed (e : Env) : option Market :=
  hd_error (rev (exchange_info e)).

(* the text of lines 389-411 *)
Definition summary_text (a : Args) (d : Dca) (qc : string) (o : Order)
    (shown : Shown) : option Text :=
  if is_dynamic_dca d then
    match scaling d with
    | Some s =>
        Some (T_dca_summary (percent_change s) (steps s) (market_name a)
                (order_side a) (dca_amount d) (orig_amount s) (amount_currency a)
                (status o) shown qc)
    | None => None
    end
  else
    Some (T_plain_summary (market_name a) (order_side a) (dca_amount d)
            (amount_currency a) (status o) shown qc).

(* lines 420-423 once the summary [s] of the order [o] is known *)
Definition closing (a : Args) (e : Env) (s : Text) (o : Order) : list Event :=
  (trace (notify a e s (T_order o))
   ++ Print T_separator :: Print s
   :: (if negb (live_mode a) then [Print T_not_live_note] else []))%list.

(* where the status and the price of the summary come from (lines 325-387) *)
Definition reported (a : Args) (e : Env) (st : option string) (shown : Shown)
    : Prop :=
  if live_mode a then
    exists o f fs, market_order e = Ok o /\ fills o = Some (f :: fs)
                   /\ st = status o /\ shown = ShownText (fill_price f)
  else
    exists o p, test_order e = Ok o /\ best_price a e = Some p
                /\ st = status o /\ shown = ShownDecimal p.

(* a filter entry of one of the three types the loop reads, without the
   key that holds its value *)
Definition lacks_value (f : Filter) : Prop :=
  (filterType f = "MIN_NOTIONAL"%string /\ minNotional f = None)
  \/ (filterType f = "LOT_SIZE"%string /\ stepSize f = None)
  \/ (filterType f = "PRICE_FILTER"%string /\ tickSize f = None).

(* ETHBTC listed with the LOT_SIZE entry that has no stepSize *)
Definition no_step_key_env : Env :=
  mkEnv (sns_topic sample_env) [adabtc; ethbtc_no_step_key]
        (input_response sample_env) (priceChangePercent sample_env)
        (bids sample_env) (asks sample_env) (test_order sample_env)
        (market_order sample_env).

(* [r] is [z] without its trailing zeros: the same number, with a
   coefficient that does not end in 0 *)
Definition stripped (z r : Decimal) : Prop :=
  dsign r = dsign z
  /\ dexp z <= dexp r
  /\ coef z = coef r * 10 ^ (dexp r - dexp z)
  /\ coef r mod 10 <> 0.

(* a non-zero value of at most [prec] digits, as the exchange sends them *)
Definition plain_value (z : Decimal) : Prop :=
  0 < coef z < 10 ^ prec /\ Etiny <= dexp z /\ dexp z + prec <= Emax.

(* a request to the exchange *)
Definition is_call (ev : Event) : bool :=
  match ev with
  | Print _ | Input _ | Sns_publish _ _ _ => false
  | _ => true
  end.

Definition calls (t : list Event) : list Event := List.filter is_call t.

(* the requests of a complete run that orders the quantity [q] *)
Definition call_plan (a : Args) (q : Decimal) : list Event :=
  (Get_exchange_info
   :: (if dynamic_dca a then [Get_ticker (market_name a)] else [])
   ++ [Get_order_book (market_name a); submission a q])%list.

(* the same replies, with another answer of the operator *)
Definition with_response (e : Env) (r : string) : Env :=
  mkEnv (sns_topic e) (exchange_info e) r (priceChangePercent e) (bids e)
        (asks e) (test_order e) (market_order e).

(* the same command line with [--job] *)
Definition as_job (a : Args) : Args :=
  mkArgs (market_name a) (order_side a) (amount a) (amount_currency a)
         (dynamic_dca a) (live_mode a) true.

(* a signal of the [decimal] module that the default context traps *)
Definition decimal_error (x : PyExc) : Prop :=
  match x with
  | InvalidOperation _ | DivisionByZero | Overflow => True
  | _ => False
  end.

(* an exception that a request to the exchange raised *)
Definition from_exchange (a : Args) (e : Env) (x : PyExc) : Prop :=
  if live_mode a then market_order e = Err x else test_order e = Err x.

(* quantity times price as a number: the product of the coefficients, not
   rounded to the precision of the context *)
Definition exact_product (q p : Decimal) : Decimal :=
  dec (xorb (dsign q) (dsign p)) (coef q * coef p) (dexp q + dexp p).

(* the price 1.00000000500000000000000000001 (30 digits) *)
Definition long_price : Decimal := D 100000000500000000000000000001 (-29).

(** * Properties *)

(** ** Blocks and their traces *)

Section Blocks.
Context {A B : Type}.

Lemma trace_bind (m : M A) (f : A -> M B) :
  trace (bind m f) =
  match outcome m with
  | Done a => (trace m ++ trace (f a))%list
  | _ => trace m
  end.
Proof. unfold bind, trace, outcome. destruct (snd m); reflexivity. Qed.

Lemma outcome_bind (m : M A) (f : A -> M B) :
  outcome (bind m f) =
  match outcome m with
  | Done a => outcome (f a)
  | Raised e => Raised e
  | Exited => Exited
  end.
Proof. unfold bind, outcome. destruct (snd m); reflexivity. Qed.

Lemma in_trace_bind (ev : Event) (m : M A) (f : A -> M B) :
  In ev (trace (bind m f)) ->
  In ev (trace m) \/ exists a, outcome m = Done a /\ In ev (trace (f a)).
Proof.
  rewrite trace_bind. destruct (outcome m) as [a| |] eqn:E; auto.
  intros H. apply in_app_or in H. destruct H; eauto.
Qed.

Lemma in_trace_bind_l (ev : Event) (m : M A) (f : A -> M B) :
  In ev (trace m) -> In ev (trace (bind m f)).
Proof.
  rewrite trace_bind. destruct (outcome m); auto. intros; apply in_or_app; auto.
Qed.

Lemma in_trace_bind_r (ev : Event) (m : M A) (f : A -> M B) a :
  outcome m = Done a -> In ev (trace (f a)) -> In ev (trace (bind m f)).
Proof.
  intros E H. rewrite trace_bind, E. apply in_or_app; auto.
Qed.

Lemma Forall_trace_bind (P : Event -> Prop) (m : M A) (f : A -> M B) :
  Forall P (trace m) ->
  (forall a, outcome m = Done a -> Forall P (trace (f a))) ->
  Forall P (trace (bind m f)).
Proof.
  intros Hm Hf. rewrite trace_bind.
  destruct (outcome m) eqn:E; auto. apply Forall_app; auto.
Qed.

Lemma outcome_bind_done (m : M A) (f : A -> M B) b :
  outcome (bind m f) = Done b ->
  exists a, outcome m = Done a /\ outcome (f a) = Done b.
Proof.
  rewrite outcome_bind. destruct (outcome m); try discriminate; eauto.
Qed.
End Blocks.

Lemma bind_ret {A B} (a : A) (f : A -> M B) : bind (ret a) f = f a.
Proof. unfold bind, ret; simpl. destruct (f a); reflexivity. Qed.

Lemma bind_assoc {A B C} (m : M A) (f : A -> M B) (g : B -> M C) :
  bind (bind m f) g = bind m (fun a => bind (f a) g).
Proof.
  unfold bind. destruct m as [t [a| |]]; simpl; try reflexivity.
  destruct (f a) as [t' [b| |]]; simpl; try reflexivity.
  now rewrite app_assoc.
Qed.

Lemma bind_ext {A B} (m : M A) (f g : A -> M B) :
  (forall a, f a = g a) -> bind m f = bind m g.
Proof. intros H. unfold bind. destruct (snd m); auto. now rewrite H. Qed.

Lemma trace_lift {A} (x : Exc A) : trace (lift x) = [].
Proof. destruct x; reflexivity. Qed.

Lemma trace_read {A} name (v : option A) : trace (read name v) = [].
Proof. destruct v; reflexivity. Qed.

Lemma outcome_lift_done {A} (x : Exc A) a : outcome (lift x) = Done a -> x = Ok a.
Proof. destruct x; simpl; congruence. Qed.

Lemma outcome_read_done {A} name (v : option A) a :
  outcome (read name v) = Done a -> v = Some a.
Proof. destruct v; simpl; congruence. Qed.

Lemma Forall_trace_foldM {X S} (P : Event -> Prop) (step : S -> X -> M S) l :
  (forall s x, Forall P (trace (step s x))) ->
  forall s, Forall P (trace (foldM step s l)).
Proof.
  intros H. induction l as [|x l IH]; intros s; simpl.
  - constructor.
  - apply Forall_trace_bind; auto.
Qed.

(* proves [Forall P (trace block)] by following the structure of the block *)
Ltac forall_trace :=
  repeat first
    [ apply Forall_nil
    | rewrite trace_lift
    | rewrite trace_read
    | match goal with
      | |- Forall _ (trace (bind _ _)) => apply Forall_trace_bind; [ | intros ]
      | |- Forall _ (trace (emit _)) => apply Forall_cons; [ | apply Forall_nil ]
      | |- Forall _ (trace (ret _)) => apply Forall_nil
      | |- Forall _ (trace (raise _)) => apply Forall_nil
      | |- Forall _ (trace exit_) => apply Forall_nil
      | |- Forall _ (trace (if ?b then _ else _)) => destruct b
      | |- Forall _ (trace (match ?x with _ => _ end)) => destruct x
      | |- Forall _ (trace (let '(_, _) := ?x in _)) => destruct x
      end ].

(** ** Notifications *)

Lemma notify_guarded a e subject message :
  Forall (guarded_publish a e) (trace (notify a e subject message)).
Proof.
  unfold notify. destruct (sns_topic e) as [t|] eqn:T; [|constructor].
  destruct (String.eqb_spec t ""); simpl; [constructor|].
  destruct (live_mode a) eqn:L; simpl; repeat constructor; auto.
Qed.

Lemma main_guarded a e : Forall (guarded_publish a e) (trace (main a e)).
Proof.
  unfold main. forall_trace; try exact I.
  - unfold resolve. forall_trace; try exact I.
    apply Forall_trace_foldM. intros s x. unfold market_step.
    forall_trace; try exact I.
    + apply Forall_trace_foldM. intros s' f. unfold filter_step, Decimal_of.
      forall_trace.
    + unfold check_filters. forall_trace.
    + unfold check_amount_currency. forall_trace.
  - unfold confirm. forall_trace; exact I.
  - unfold dynamic_dca_block. forall_trace; try exact I.
    unfold scale_amount. forall_trace; exact I.
  - unfold trade. forall_trace.
    + unfold get_market_price, top_price. forall_trace; exact I.
    + unfold size_order. forall_trace; exact I.
    + unfold settle. forall_trace.
      * unfold validate. forall_trace; try exact I; apply notify_guarded.
      * unfold execute, first_fill. forall_trace; try exact I; apply notify_guarded.
      * unfold summarize. forall_trace; try exact I; apply notify_guarded.
Qed.

(** C10.  A notification is published only through the guard
    [sns_topic and live_mode]: whenever a run of the script publishes to
    SNS, on any of its three notifying paths, live mode is on and a
    non-empty topic is configured.  In simulation mode no run publishes. *)
Theorem C10_publish_requires_topic_and_live_mode a e topic subject message :
  In (Sns_publish topic subject message) (trace (main a e)) ->
  live_mode a = true /\ sns_topic e = Some topic /\ topic <> ""%string.
Proof.
  intros H.
  pose proof (main_guarded a e) as G.
  rewrite Forall_forall in G. exact (G _ H).
Qed.

Lemma C10_witness :
  exists subject message,
    In (Sns_publish "arn:aws:sns:us-east-1:0:dca" subject message)
       (trace (main (sample_args false true true) sample_env))
    /\ live_mode (sample_args false true true) = true.
Proof.
  eexists. eexists.
  assert (H : In (Sns_publish "arn:aws:sns:us-east-1:0:dca"
                    (T_plain_summary "ETHBTC" BUY (D 2 (-3)) "BTC" (Some "FILLED")
                       (ShownText "0.05010000") "BTC")
                    (T_order filled))
                 (trace (main (sample_args false true true) sample_env))).
  { vm_compute. tauto. }
  split.
  - exact H.
  - exact (proj1 (C10_publish_requires_topic_and_live_mode _ _ _ _ _ H)).
Defined.

(** ** Resolution of the market constraints *)

Lemma foldM_app {X S} (step : S -> X -> M S) l1 l2 s :
  foldM step s (l1 ++ l2)%list = (s' <- foldM step s l1 ;; foldM step s' l2).
Proof.
  revert s. induction l1 as [|x l1 IH]; intros s; simpl.
  - now rewrite bind_ret.
  - rewrite bind_assoc. apply bind_ext. intros s'. apply IH.
Qed.

(* markets with another symbol only move the loop variable *)
Lemma foldM_other_markets a pre :
  Forall (other_market a) pre ->
  forall v, exists v',
    foldM (market_step a) v pre = ret v'
    /\ forall m, set_market v' m = set_market v m.
Proof.
  induction 1 as [|x pre Hx _ IH]; intros v; simpl.
  - exists v. split; auto.
  - unfold market_step at 1.
    destruct (String.eqb_spec (symbol x) (market_name a)) as [E|_];
      [contradiction|].
    rewrite bind_ret.
    destruct (IH (set_market v x)) as [v' [E1 E2]].
    exists v'. split; auto.
Qed.

Lemma market_step_matching a v m :
  symbol m = market_name a ->
  (forall m', set_market v m' = set_market no_vars m') ->
  market_step a v m =
  (v1 <- resolve_constraints a m ;;
   v2 <- check_amount_currency a v1 ;;
   emit (Print (T_market m)) ;;
   ret v2).
Proof.
  intros E Hv. unfold market_step, resolve_constraints.
  rewrite E, String.eqb_refl, Hv.
  rewrite !bind_assoc. apply bind_ext. intros v1.
  rewrite !bind_assoc. apply bind_ext. intros _.
  now rewrite bind_ret.
Qed.

Lemma bind_raise {A B} (x : PyExc) (f : A -> M B) : bind (raise x) f = raise x.
Proof. reflexivity. Qed.

Lemma bind_exit {A B} (f : A -> M B) : bind exit_ f = exit_.
Proof. reflexivity. Qed.

Lemma read_Some {A} name (a : A) : read name (Some a) = ret a.
Proof. reflexivity. Qed.

Lemma read_None {A} name : read name (@None A) = raise (NameError name).
Proof. reflexivity. Qed.

Lemma lift_Ok {A} (a : A) : lift (Ok a) = ret a.
Proof. reflexivity. Qed.

Lemma lift_Err {A} (x : PyExc) : @lift A (Err x) = raise x.
Proof. reflexivity. Qed.

Lemma trace_ret {A} (a : A) : trace (ret a) = [].
Proof. reflexivity. Qed.

Lemma trace_raise {A} (x : PyExc) : trace (@raise A x) = [].
Proof. reflexivity. Qed.

Lemma trace_exit {A} : trace (@exit_ A) = [].
Proof. reflexivity. Qed.

Lemma trace_emit ev : trace (emit ev) = [ev].
Proof. reflexivity. Qed.

Lemma outcome_ret {A} (a : A) : outcome (ret a) = Done a.
Proof. reflexivity. Qed.

Lemma outcome_raise {A} (x : PyExc) : outcome (@raise A x) = Raised x.
Proof. reflexivity. Qed.

Lemma outcome_exit {A} : outcome (@exit_ A) = Exited.
Proof. reflexivity. Qed.

Lemma outcome_emit ev : outcome (emit ev) = Done tt.
Proof. reflexivity. Qed.

Lemma bind_emit {B} ev (f : unit -> M B) :
  bind (emit ev) f = (ev :: trace (f tt), outcome (f tt)).
Proof. reflexivity. Qed.

Lemma Decimal_of_Some d : Decimal_of (Some d) = ret d.
Proof. reflexivity. Qed.

Lemma Decimal_of_None :
  Decimal_of None =
  raise (TypeError "conversion from NoneType to Decimal is not supported").
Proof. reflexivity. Qed.

Create Rewrite HintDb block.
#[export] Hint Rewrite @bind_ret @bind_raise @bind_exit @read_Some @read_None
  Decimal_of_Some Decimal_of_None
  @lift_Ok @lift_Err @trace_ret @trace_raise @trace_exit trace_emit
  @outcome_ret @outcome_raise @outcome_exit outcome_emit
  @trace_lift @trace_read : block.

(* case analysis on the tests and lookups of a block, one at a time *)
Ltac step_block :=
  autorewrite with block;
  match goal with
  | |- context [read _ ?x] => destruct x eqn:?
  | |- context [lift ?x] => destruct x eqn:?
  | |- context [Decimal_of ?x] => destruct x eqn:?
  | |- context [if ?b then _ else _] => destruct b eqn:?
  end;
  autorewrite with block.

Lemma check_amount_currency_trace a v : trace (check_amount_currency a v) = [].
Proof. unfold check_amount_currency. repeat step_block; reflexivity. Qed.

Lemma filter_step_trace v f : trace (filter_step v f) = [].
Proof. unfold filter_step. repeat step_block; reflexivity. Qed.

Lemma check_filters_trace a v : trace (check_filters a v) = [].
Proof. unfold check_filters. repeat step_block; reflexivity. Qed.

Lemma foldM_silent {X S} (step : S -> X -> M S) l :
  (forall s x, trace (step s x) = []) ->
  forall s, trace (foldM step s l) = [].
Proof.
  intros H. induction l as [|x l IH]; intros s; simpl; auto.
  rewrite trace_bind, H. destruct (outcome (step s x)); simpl; auto.
Qed.

Lemma resolve_constraints_trace a m : trace (resolve_constraints a m) = [].
Proof.
  unfold resolve_constraints.
  rewrite trace_bind, foldM_silent by apply filter_step_trace.
  destruct (outcome _); auto. simpl.
  rewrite trace_bind, check_filters_trace. destruct (outcome _); auto.
Qed.

(* the filter loop assigns only the three constraints *)
Lemma filter_step_assets v f v' :
  outcome (filter_step v f) = Done v' ->
  base_currency v' = base_currency v
  /\ quote_currency v' = quote_currency v
  /\ quote_asset_precision v' = quote_asset_precision v
  /\ market v' = market v
  /\ amount_currency_is_quote_currency v' = amount_currency_is_quote_currency v.
Proof.
  unfold filter_step. repeat step_block; intros H; inversion H; subst;
    simpl; auto 10.
Qed.

Lemma filter_loop_assets fs : forall v v',
  outcome (foldM filter_step v fs) = Done v' ->
  base_currency v' = base_currency v
  /\ quote_currency v' = quote_currency v
  /\ quote_asset_precision v' = quote_asset_precision v
  /\ market v' = market v
  /\ amount_currency_is_quote_currency v' = amount_currency_is_quote_currency v.
Proof.
  induction fs as [|f fs IH]; intros v v'; simpl.
  - intros H; inversion H; auto.
  - intros H. apply outcome_bind_done in H. destruct H as [v1 [H1 H2]].
    apply filter_step_assets in H1. apply IH in H2.
    intuition congruence.
Qed.

Lemma check_filters_done a v :
  outcome (check_filters a v) = Done tt ->
  (exists d, base_min_size v = Some d /\ truthy d = true)
  /\ (exists d, base_increment v = Some d /\ truthy d = true)
  /\ (exists d, quote_increment v = Some d /\ truthy d = true).
Proof.
  unfold check_filters.
  destruct (base_min_size v) as [d1|]; autorewrite with block; [|discriminate].
  destruct (truthy d1) eqn:T1; simpl negb; cbv iota;
    autorewrite with block; [|discriminate].
  destruct (base_increment v) as [d2|]; autorewrite with block; [|discriminate].
  destruct (truthy d2) eqn:T2; simpl negb; cbv iota;
    autorewrite with block; [|discriminate].
  destruct (quote_increment v) as [d3|]; autorewrite with block; [|discriminate].
  destruct (truthy d3) eqn:T3; simpl negb; cbv iota;
    autorewrite with block; [|discriminate].
  intros _. eauto 10.
Qed.

Lemma resolve_constraints_done a m v :
  outcome (resolve_constraints a m) = Done v ->
  base_currency v = Some (baseAsset m)
  /\ quote_currency v = Some (quoteAsset m)
  /\ quote_asset_precision v = Some (quoteAssetPrecision m)
  /\ (exists d, base_min_size v = Some d /\ truthy d = true)
  /\ (exists d, base_increment v = Some d /\ truthy d = true)
  /\ (exists d, quote_increment v = Some d /\ truthy d = true).
Proof.
  unfold resolve_constraints. intros H.
  apply outcome_bind_done in H. destruct H as [v1 [H1 H2]].
  apply outcome_bind_done in H2. destruct H2 as [[] [H2 H3]].
  rewrite outcome_ret in H3. inversion H3; subst v1. clear H3.
  apply filter_loop_assets in H1. simpl in H1.
  apply check_filters_done in H2. tauto.
Qed.

Lemma silent_done {A} (m : M A) a :
  trace m = [] -> outcome m = Done a -> m = ret a.
Proof. destruct m as [t o]. simpl. intros; subst; reflexivity. Qed.

Lemma set_market_fields v v' :
  (forall m, set_market v' m = set_market v m) ->
  base_currency v' = base_currency v
  /\ quote_currency v' = quote_currency v
  /\ quote_asset_precision v' = quote_asset_precision v
  /\ base_min_size v' = base_min_size v
  /\ base_increment v' = base_increment v
  /\ quote_increment v' = quote_increment v
  /\ amount_currency_is_quote_currency v' = amount_currency_is_quote_currency v.
Proof.
  intros H. specialize (H (mkMarket "" "" "" 0 [])).
  unfold set_market in H. inversion H. repeat split; assumption.
Qed.

(* the resolution of the constraints fetches no price and sends no order *)
Lemma resolve_quiet a e : Forall no_fetch_no_order (trace (resolve a e)).
Proof.
  unfold resolve. forall_trace; try (repeat split; reflexivity).
  apply Forall_trace_foldM. intros s x. unfold market_step.
  forall_trace; try (repeat split; reflexivity).
  - rewrite foldM_silent by apply filter_step_trace. constructor.
  - rewrite check_filters_trace. constructor.
  - rewrite check_amount_currency_trace. constructor.
Qed.

Lemma check_amount_currency_spec a v b q :
  base_currency v = Some b ->
  quote_currency v = Some q ->
  check_amount_currency a v =
  if (amount_currency a =? q)%string then ret (set_is_quote v true)
  else if (amount_currency a =? b)%string then ret (set_is_quote v false)
  else raise (Exception_ ("amount_currency " ++ amount_currency a
                          ++ " not in market " ++ market_name a)).
Proof.
  intros B Q. unfold check_amount_currency. rewrite B, Q.
  autorewrite with block. reflexivity.
Qed.

(** C6.  Let [m] be the first entry of the exchange's symbol list that
    carries the requested symbol, and let its constraints resolve.  If
    [amount_currency] is neither the quote nor the base asset of [m], the run
    ends with the exception "amount_currency <currency> not in market
    <market>", and its trace holds no ticker or order-book request, no
    sizing and no order submission.  If it is one of the two (and no later
    entry carries the symbol), resolution completes with
    [amount_currency_is_quote_currency] set to whether it is the quote
    asset, which selects the conversion mode. *)
Theorem C6_amount_currency_validation a e pre m post v :
  exchange_info e = (pre ++ m :: post)%list ->
  Forall (other_market a) pre ->
  symbol m = market_name a ->
  outcome (resolve_constraints a m) = Done v ->
  (amount_currency a <> quoteAsset m ->
   amount_currency a <> baseAsset m ->
   outcome (main a e) =
     Raised (Exception_ ("amount_currency " ++ amount_currency a
                         ++ " not in market " ++ market_name a))
   /\ Forall no_fetch_no_order (trace (main a e)))
  /\
  (amount_currency a = quoteAsset m \/ amount_currency a = baseAsset m ->
   Forall (other_market a) post ->
   exists v',
     outcome (resolve a e) = Done v'
     /\ amount_currency_is_quote_currency v'
        = Some (amount_currency a =? quoteAsset m)%string).
Proof.
  intros HE Hpre Hm Hv.
  destruct (foldM_other_markets a pre Hpre no_vars) as [v0 [F0 S0]].
  pose proof (resolve_constraints_done a m v Hv) as (B & Q & P & (d1 & M1 & _)
    & (d2 & M2 & _) & (d3 & M3 & _)).
  pose proof (resolve_constraints_trace a m) as Tm.
  assert (Loop : forall rest,
    foldM (market_step a) no_vars (pre ++ m :: rest)%list =
    (v2 <- check_amount_currency a v ;;
     emit (Print (T_market m)) ;;
     foldM (market_step a) v2 rest)).
  { intros rest. rewrite foldM_app, F0, bind_ret. simpl foldM.
    rewrite (market_step_matching a v0 m Hm S0).
    rewrite (silent_done _ _ Tm Hv), bind_ret.
    rewrite bind_assoc. apply bind_ext. intros v2.
    rewrite bind_assoc. apply bind_ext. intros _.
    now rewrite bind_ret. }
  rewrite (check_amount_currency_spec a v _ _ B Q) in Loop.
  split.
  - intros NQ NB.
    apply String.eqb_neq in NQ, NB.
    assert (R : resolve a e =
                ([Get_exchange_info],
                 Raised (Exception_ ("amount_currency " ++ amount_currency a
                                     ++ " not in market " ++ market_name a)))).
    { unfold resolve. rewrite HE, Loop, NQ, NB. reflexivity. }
    split.
    + unfold main. rewrite !outcome_bind, R.
      destruct (negb (live_mode a)); reflexivity.
    + unfold main. forall_trace; try (repeat split; reflexivity);
        try apply resolve_quiet;
        match goal with
        | H : outcome (resolve a e) = Done _ |- _ => rewrite R in H; discriminate
        end.
  - intros Hin Hpost.
    set (b := (amount_currency a =? quoteAsset m)%string).
    assert (Loop' : foldM (market_step a) no_vars (exchange_info e) =
                    (emit (Print (T_market m)) ;;
                     foldM (market_step a) (set_is_quote v b) post)).
    { rewrite HE, Loop. subst b.
      destruct (amount_currency a =? quoteAsset m)%string eqn:EQ.
      - now rewrite bind_ret.
      - destruct Hin as [Hin|Hin].
        + apply String.eqb_eq in Hin. congruence.
        + apply String.eqb_eq in Hin. rewrite Hin. now rewrite bind_ret. }
    destruct (foldM_other_markets a post Hpost (set_is_quote v b)) as [v' [F' S']].
    apply set_market_fields in S'. simpl in S'.
    destruct S' as (_ & _ & _ & S1 & S2 & S3 & S4).
    exists v'. split; [|exact S4].
    unfold resolve. rewrite Loop', F'.
    rewrite !outcome_bind. simpl.
    rewrite S1, S2, S3, M1, M2, M3. reflexivity.
Qed.

Lemma C6_witness :
  outcome (main usd_args sample_env)
  = Raised (Exception_ "amount_currency USD not in market ETHBTC")
  /\ exists v',
       outcome (resolve (sample_args false false false) sample_env) = Done v'
       /\ amount_currency_is_quote_currency v' = Some true.
Proof.
  assert (P : forall a, market_name a = "ETHBTC" -> Forall (other_market a) [adabtc]).
  { intros a Ha. constructor; [|constructor].
    unfold other_market. rewrite Ha. discriminate. }
  split.
  - refine (proj1 (proj1 (C6_amount_currency_validation usd_args sample_env
                      [adabtc] ethbtc [] _ eq_refl (P usd_args eq_refl) eq_refl eq_refl) _ _)).
    + discriminate.
    + discriminate.
  - refine (proj2 (C6_amount_currency_validation (sample_args false false false)
                      sample_env [adabtc] ethbtc [] _ eq_refl
                      (P (sample_args false false false) eq_refl)
                      eq_refl eq_refl) _ _).
    + left. reflexivity.
    + constructor.
Defined.

(** C5 (what the script does instead).  When the matching market carries
    no MIN_NOTIONAL entry, the presence check of line 212 reads a name that
    was never assigned: the run ends with [NameError] on [base_min_size],
    not with the exception "MIN_NOTIONAL.minNotional not found" that the
    check was written to raise.  When no market carries the symbol, line
    228 fails in the same way. *)
Theorem C5_missing_filter_raises_NameError :
  outcome (main adabtc_args sample_env) = Raised (NameError "base_min_size")
  /\ outcome (main xrpbtc_args sample_env) = Raised (NameError "base_min_size")
  /\ outcome (main adabtc_args sample_env)
     <> Raised (Exception_ "MIN_NOTIONAL.minNotional not found in ADABTC info").
Proof.
  assert (H : outcome (main adabtc_args sample_env)
              = Raised (NameError "base_min_size")) by (vm_compute; reflexivity).
  split; [exact H|]. split; [vm_compute; reflexivity|].
  rewrite H. discriminate.
Qed.

(* a zero is still a zero after [normalize] *)
Lemma normalize_zero z :
  coef z = 0 -> exists n, normalize z = Ok n /\ truthy n = false.
Proof.
  intros Hz. unfold normalize, fix_, is_zero. rewrite Hz. simpl.
  eexists. split; reflexivity.
Qed.

Lemma last_filter_snoc ty l f :
  last_filter ty (l ++ [f])%list =
  if (filterType f =? ty)%string then Some f else last_filter ty l.
Proof. unfold last_filter. rewrite rev_app_distr. reflexivity. Qed.

Lemma filter_step_extracted v f v' :
  outcome (filter_step v f) = Done v' ->
  extracted "MIN_NOTIONAL" minNotional base_min_size [f] v v'
  /\ extracted "LOT_SIZE" stepSize base_increment [f] v v'
  /\ extracted "PRICE_FILTER" tickSize quote_increment [f] v v'.
Proof.
  unfold extracted, last_filter, filter_step. simpl rev. simpl find.
  destruct (String.eqb_spec (filterType f) "MIN_NOTIONAL") as [E|N1].
  { try rewrite E. simpl String.eqb. cbv iota.
    destruct (minNotional f) as [z|]; autorewrite with block; [|discriminate].
    destruct (normalize z) as [n|] eqn:Hn; autorewrite with block; [|discriminate].
    intros H; inversion H; subst; simpl. eauto 10. }
  destruct (String.eqb_spec (filterType f) "LOT_SIZE") as [E|N2].
  { try rewrite E. simpl String.eqb. cbv iota.
    destruct (stepSize f) as [z|]; autorewrite with block; [|discriminate].
    destruct (normalize z) as [n|] eqn:Hn; autorewrite with block; [|discriminate].
    intros H; inversion H; subst; simpl. eauto 10. }
  destruct (String.eqb_spec (filterType f) "PRICE_FILTER") as [E|N3].
  { try rewrite E. simpl String.eqb. cbv iota.
    destruct (tickSize f) as [z|]; autorewrite with block; [|discriminate].
    destruct (normalize z) as [n|] eqn:Hn; autorewrite with block; [|discriminate].
    intros H; inversion H; subst; simpl. eauto 10. }
  autorewrite with block. intros H; inversion H; subst. auto.
Qed.

Lemma extracted_snoc ty field var l f v v1 v2 :
  extracted ty field var l v v1 ->
  extracted ty field var [f] v1 v2 ->
  extracted ty field var (l ++ [f])%list v v2.
Proof.
  unfold extracted. rewrite last_filter_snoc.
  unfold last_filter at 2. simpl rev. simpl find.
  destruct (filterType f =? ty)%string; auto.
  destruct (last_filter ty l); intros H1 H2.
  - destruct H1 as (z & n & F & N & V). exists z, n. repeat split; congruence.
  - congruence.
Qed.

Lemma filter_loop_extracted fs : forall v v',
  outcome (foldM filter_step v fs) = Done v' ->
  extracted "MIN_NOTIONAL" minNotional base_min_size fs v v'
  /\ extracted "LOT_SIZE" stepSize base_increment fs v v'
  /\ extracted "PRICE_FILTER" tickSize quote_increment fs v v'.
Proof.
  induction fs as [|f l IH] using rev_ind; intros v v'.
  - simpl. intros H; inversion H; subst. unfold extracted; simpl; auto.
  - rewrite foldM_app. intros H.
    apply outcome_bind_done in H. destruct H as [v1 [H1 H2]].
    simpl foldM in H2.
    apply outcome_bind_done in H2. destruct H2 as [v2 [H2 H3]].
    rewrite outcome_ret in H3. inversion H3; subst v2.
    apply IH in H1. apply filter_step_extracted in H2.
    destruct H1 as (A1 & A2 & A3), H2 as (B1 & B2 & B3).
    repeat split; eapply extracted_snoc; eauto.
Qed.

Lemma extracted_zero ty field var fs v v' f z :
  extracted ty field var fs v v' ->
  last_filter ty fs = Some f ->
  field f = Some z ->
  coef z = 0 ->
  exists n, var v' = Some n /\ truthy n = false.
Proof.
  unfold extracted. intros H L F Z. rewrite L in H.
  destruct H as (z' & n & F' & N & V).
  assert (z' = z) by congruence. subst z'.
  destruct (normalize_zero z Z) as (n' & N' & T).
  assert (n' = n) by congruence. subst n'. eauto.
Qed.

(* an exception raised while the first matching market is resolved ends
   the run, before any price is fetched *)
Lemma main_resolution_raises a e pre m post x :
  exchange_info e = (pre ++ m :: post)%list ->
  Forall (other_market a) pre ->
  symbol m = market_name a ->
  outcome (resolve_constraints a m) = Raised x ->
  outcome (main a e) = Raised x
  /\ Forall no_fetch_no_order (trace (main a e)).
Proof.
  intros HE Hpre Hm Hx.
  destruct (foldM_other_markets a pre Hpre no_vars) as [v0 [F0 S0]].
  assert (R : outcome (resolve a e) = Raised x).
  { unfold resolve. rewrite HE, foldM_app, F0, bind_ret. simpl foldM.
    rewrite (market_step_matching a v0 m Hm S0).
    rewrite !outcome_bind, Hx. reflexivity. }
  split.
  - unfold main. rewrite !outcome_bind, R.
    destruct (negb (live_mode a)); reflexivity.
  - unfold main. forall_trace; try (repeat split; reflexivity);
      try apply resolve_quiet;
      match goal with
      | H : outcome (resolve a e) = Done _ |- _ => rewrite R in H; discriminate
      end.
Qed.

Lemma resolve_constraints_check a m v :
  outcome (foldM filter_step (set_assets (set_market no_vars m) m) (filters m))
  = Done v ->
  outcome (resolve_constraints a m) =
  match outcome (check_filters a v) with
  | Done _ => Done v
  | Raised x => Raised x
  | Exited => Exited
  end.
Proof.
  intros H. unfold resolve_constraints. rewrite outcome_bind, H, outcome_bind.
  destruct (outcome (check_filters a v)); reflexivity.
Qed.

(** C9 (as amended).  Let [m] be the first entry with the requested symbol
    and let its filter loop complete.  If the last MIN_NOTIONAL entry of [m]
    carries a value that is exactly zero, the run ends with the exception
    "MIN_NOTIONAL.minNotional not found"; if the last LOT_SIZE entry carries
    zero and the extracted MIN_NOTIONAL value is not zero, it ends with
    "LOT_SIZE.stepSize not found"; if the last PRICE_FILTER entry carries
    zero and the two values checked before it are not zero, it ends with
    "PRICE_FILTER.tickSize not found".  Presence is tested by the truth
    value of the extracted decimal. *)
Theorem C9_zero_valued_filter_reported_missing a e pre m post v f z :
  exchange_info e = (pre ++ m :: post)%list ->
  Forall (other_market a) pre ->
  symbol m = market_name a ->
  outcome (foldM filter_step (set_assets (set_market no_vars m) m) (filters m))
  = Done v ->
  coef z = 0 ->
  (last_filter "MIN_NOTIONAL" (filters m) = Some f ->
   minNotional f = Some z ->
   outcome (main a e) =
   Raised (Exception_ ("MIN_NOTIONAL.minNotional not found in "
                       ++ market_name a ++ " info")))
  /\
  (last_filter "LOT_SIZE" (filters m) = Some f ->
   stepSize f = Some z ->
   (exists d, base_min_size v = Some d /\ truthy d = true) ->
   outcome (main a e) =
   Raised (Exception_ ("LOT_SIZE.stepSize not found in "
                       ++ market_name a ++ " info")))
  /\
  (last_filter "PRICE_FILTER" (filters m) = Some f ->
   tickSize f = Some z ->
   (exists d, base_min_size v = Some d /\ truthy d = true) ->
   (exists d, base_increment v = Some d /\ truthy d = true) ->
   outcome (main a e) =
   Raised (Exception_ ("PRICE_FILTER.tickSize not found in "
                       ++ market_name a ++ " info"))).
Proof.
  intros HE Hpre Hm Hv Hz.
  pose proof (filter_loop_extracted _ _ _ Hv) as (X1 & X2 & X3).
  pose proof (resolve_constraints_check a m v Hv) as RC.
  repeat split.
  - intros L F.
    destruct (extracted_zero _ _ _ _ _ _ _ _ X1 L F Hz) as (n & V & T).
    apply (main_resolution_raises a e pre m post _ HE Hpre Hm).
    rewrite RC. unfold check_filters. rewrite V.
    autorewrite with block. rewrite T. reflexivity.
  - intros L F (d1 & V1 & T1).
    destruct (extracted_zero _ _ _ _ _ _ _ _ X2 L F Hz) as (n & V & T).
    apply (main_resolution_raises a e pre m post _ HE Hpre Hm).
    rewrite RC. unfold check_filters. rewrite V1.
    autorewrite with block. rewrite T1. simpl negb. cbv iota.
    autorewrite with block. rewrite V.
    autorewrite with block. rewrite T. reflexivity.
  - intros L F (d1 & V1 & T1) (d2 & V2 & T2).
    destruct (extracted_zero _ _ _ _ _ _ _ _ X3 L F Hz) as (n & V & T).
    apply (main_resolution_raises a e pre m post _ HE Hpre Hm).
    rewrite RC. unfold check_filters. rewrite V1.
    autorewrite with block. rewrite T1. simpl negb. cbv iota.
    autorewrite with block. rewrite V2.
    autorewrite with block. rewrite T2. simpl negb. cbv iota.
    autorewrite with block. rewrite V.
    autorewrite with block. rewrite T. reflexivity.
Qed.

Lemma C9_witness :
  outcome (main (sample_args false false false) (env_with [ethbtc_zero_step]))
  = Raised (Exception_ "LOT_SIZE.stepSize not found in ETHBTC info").
Proof.
  refine (proj1 (proj2 (C9_zero_valued_filter_reported_missing
            (sample_args false false false) (env_with [ethbtc_zero_step])
            [] ethbtc_zero_step [] _
            (mkFilter "LOT_SIZE" None (Some (D 0 (-8))) None) (D 0 (-8))
            eq_refl (Forall_nil _) eq_refl eq_refl eq_refl)) eq_refl eq_refl _).
  eexists. split; reflexivity.
Defined.

(** C9 (as stated) fails.  With MIN_NOTIONAL and LOT_SIZE both zero, the
    zero LOT_SIZE value is not reported: the run ends with the MIN_NOTIONAL
    message.  And a zero value is not treated like an absent entry: with the
    MIN_NOTIONAL entry absent, the same zero LOT_SIZE value is not reported
    either, the run ends with [NameError]. *)
Lemma C9_counterexample :
  (last_filter "LOT_SIZE" (filters ethbtc_zero_lot)
     = Some (mkFilter "LOT_SIZE" None (Some (D 0 (-8))) None)
   /\ outcome (main (sample_args false false false) (env_with [ethbtc_zero_lot]))
      = Raised (Exception_ "MIN_NOTIONAL.minNotional not found in ETHBTC info")
   /\ outcome (main (sample_args false false false) (env_with [ethbtc_zero_lot]))
      <> Raised (Exception_ "LOT_SIZE.stepSize not found in ETHBTC info"))
  /\
  (last_filter "LOT_SIZE" (filters ethbtc_no_min)
     = Some (mkFilter "LOT_SIZE" None (Some (D 0 (-8))) None)
   /\ outcome (main (sample_args false false false) (env_with [ethbtc_no_min]))
      = Raised (NameError "base_min_size")).
Proof.
  assert (H : outcome (main (sample_args false false false)
                         (env_with [ethbtc_zero_lot]))
              = Raised (Exception_ "MIN_NOTIONAL.minNotional not found in ETHBTC info"))
    by (vm_compute; reflexivity).
  split; [split; [reflexivity|split; [exact H|rewrite H; discriminate]]|].
  split; [reflexivity|vm_compute; reflexivity].
Qed.

(** ** The shape of a run *)

Lemma trace_bind_emit {B} ev (f : unit -> M B) :
  trace (bind (emit ev) f) = ev :: trace (f tt).
Proof. reflexivity. Qed.

Lemma outcome_bind_emit {B} ev (f : unit -> M B) :
  outcome (bind (emit ev) f) = outcome (f tt).
Proof. reflexivity. Qed.

#[export] Hint Rewrite @trace_bind_emit @outcome_bind_emit : block.

Lemma main_split a e :
  main a e = (p <- prelude a e ;; trade a e (fst p) (snd p)).
Proof.
  unfold main, prelude.
  repeat (rewrite ?bind_assoc; apply bind_ext; intros).
  rewrite ?bind_assoc. now rewrite bind_ret.
Qed.

Lemma prelude_quiet a e :
  Forall (fun ev => is_trade_event ev = false) (trace (prelude a e)).
Proof.
  unfold prelude. forall_trace; try reflexivity.
  - unfold resolve. forall_trace; try reflexivity.
    apply Forall_trace_foldM. intros s x. unfold market_step.
    forall_trace; try reflexivity.
    + rewrite foldM_silent by apply filter_step_trace. constructor.
    + rewrite check_filters_trace. constructor.
    + rewrite check_amount_currency_trace. constructor.
  - unfold confirm. forall_trace; reflexivity.
  - unfold dynamic_dca_block. forall_trace; try reflexivity.
    unfold scale_amount. forall_trace; reflexivity.
Qed.

(* every event of lines 275-423 belongs to the part of the run that
   follows a completed prelude *)
Lemma main_trade_event a e ev :
  In ev (trace (main a e)) ->
  is_trade_event ev = true ->
  exists v d,
    outcome (prelude a e) = Done (v, d)
    /\ In ev (trace (trade a e v d))
    /\ trace (main a e) = (trace (prelude a e) ++ trace (trade a e v d))%list
    /\ outcome (main a e) = outcome (trade a e v d).
Proof.
  rewrite main_split. intros H T.
  pose proof (prelude_quiet a e) as Q. rewrite Forall_forall in Q.
  apply in_trace_bind in H. destruct H as [H|([v d] & E & H)].
  - apply Q in H. congruence.
  - exists v, d. rewrite trace_bind, outcome_bind, E. auto.
Qed.

Lemma check_amount_currency_done a v v' :
  outcome (check_amount_currency a v) = Done v' ->
  exists b, v' = set_is_quote v b.
Proof.
  unfold check_amount_currency. repeat step_block;
    intros H; inversion H; eauto.
Qed.

Lemma market_step_matching_done a v m v' :
  symbol m = market_name a ->
  outcome (market_step a v m) = Done v' ->
  resolved v'.
Proof.
  intros E. unfold market_step. rewrite E, String.eqb_refl. intros H.
  apply outcome_bind_done in H. destruct H as (v1 & H1 & H).
  apply outcome_bind_done in H. destruct H as ([] & H2 & H).
  apply outcome_bind_done in H. destruct H as (v2 & H3 & H).
  autorewrite with block in H. inversion H; subst v2. clear H.
  apply filter_loop_assets in H1. simpl in H1.
  destruct H1 as (B & Q & P & K & _).
  apply check_filters_done in H2. destruct H2 as (C1 & C2 & C3).
  apply check_amount_currency_done in H3. destruct H3 as (b & ->).
  unfold resolved. simpl. rewrite B, Q, P, K.
  repeat split; try discriminate; auto.
Qed.

Lemma market_step_inv a v m v' :
  unresolved v \/ resolved v ->
  outcome (market_step a v m) = Done v' ->
  unresolved v' \/ resolved v'.
Proof.
  intros I H.
  destruct (String.eqb_spec (symbol m) (market_name a)) as [E|N].
  - right. eapply market_step_matching_done; eauto.
  - unfold market_step in H. apply String.eqb_neq in N. rewrite N in H.
    autorewrite with block in H. inversion H; subst v'. clear H.
    destruct I as [I|I]; [left|right].
    + exact I.
    + unfold resolved in *. simpl. intuition discriminate.
Qed.

Lemma market_loop_inv a ms : forall v v',
  unresolved v \/ resolved v ->
  outcome (foldM (market_step a) v ms) = Done v' ->
  unresolved v' \/ resolved v'.
Proof.
  induction ms as [|m ms IH]; intros v v' I; simpl.
  - intros H; inversion H; subst; auto.
  - intros H. apply outcome_bind_done in H. destruct H as (v1 & H1 & H2).
    eapply IH; [|exact H2]. eapply market_step_inv; eauto.
Qed.

(* a run that gets past line 230 has every global of the loop assigned *)
Lemma resolve_done a e v : outcome (resolve a e) = Done v -> resolved v.
Proof.
  unfold resolve. autorewrite with block. intros H.
  apply outcome_bind_done in H. destruct H as (v1 & H1 & H).
  apply outcome_bind_done in H. destruct H as (d1 & H2 & H).
  apply outcome_read_done in H2.
  autorewrite with block in H.
  apply outcome_bind_done in H. destruct H as (d2 & H3 & H).
  autorewrite with block in H.
  apply outcome_bind_done in H. destruct H as (d3 & H4 & H).
  autorewrite with block in H. inversion H; subst v1. clear H.
  destruct (market_loop_inv a (exchange_info e) no_vars v) as [U|R]; auto.
  - left. repeat split.
  - destruct U as (U & _). congruence.
Qed.

Lemma dynamic_dca_block_done a e d :
  outcome (dynamic_dca_block a e) = Done d ->
  is_dynamic_dca d = true -> exists s, scaling d = Some s.
Proof.
  unfold dynamic_dca_block.
  destruct (dynamic_dca a); autorewrite with block.
  - destruct (steps_of (priceChangePercent e)) as [n|];
      autorewrite with block; [|discriminate].
    destruct (0 <? n).
    + intros H. apply outcome_bind_done in H. destruct H as (x & _ & H).
      autorewrite with block in H. inversion H; subst. simpl. eauto.
    + autorewrite with block. intros H; inversion H; subst. simpl. eauto.
  - intros H; inversion H; subst. simpl. discriminate.
Qed.

Lemma prelude_done a e v d :
  outcome (prelude a e) = Done (v, d) ->
  outcome (resolve a e) = Done v
  /\ outcome (dynamic_dca_block a e) = Done d
  /\ resolved v
  /\ (is_dynamic_dca d = true -> exists s, scaling d = Some s).
Proof.
  unfold prelude. autorewrite with block. intros H.
  apply outcome_bind_done in H. destruct H as ([] & _ & H).
  apply outcome_bind_done in H. destruct H as (v1 & H1 & H).
  apply outcome_bind_done in H. destruct H as ([] & _ & H).
  apply outcome_bind_done in H. destruct H as (d1 & H2 & H).
  autorewrite with block in H. inversion H; subst v1 d1. clear H.
  split; [exact H1|]. split; [exact H2|]. split.
  - eapply resolve_done; eauto.
  - eapply dynamic_dca_block_done; eauto.
Qed.

Lemma best_price_spec a e :
  (if is_buy (order_side a) then top_price (bids e) else top_price (asks e)) =
  match best_price a e with
  | Some p => ret p
  | None => raise IndexError
  end.
Proof.
  unfold best_price, top_price.
  destruct (order_side a); simpl.
  - destruct (bids e) as [|[p q] l]; reflexivity.
  - destruct (asks e) as [|[p q] l]; reflexivity.
Qed.

(* lines 275-292 with every global of the loop assigned *)
Lemma trade_spec a e v d :
  resolved v ->
  match best_price a e with
  | None => trade a e v d = ([Get_order_book (market_name a)], Raised IndexError)
  | Some p =>
      exists qc iq inc b,
        quote_currency v = Some qc
        /\ amount_currency_is_quote_currency v = Some iq
        /\ base_increment v = Some inc
        /\ base_currency v = Some b
        /\ match base_currency_amount_of iq (dca_amount d) p inc with
           | Err x =>
               trade a e v d =
               ([Get_order_book (market_name a); Print (T_market_price p qc)],
                Raised x)
           | Ok q =>
               trade a e v d =
               (Get_order_book (market_name a)
                  :: Print (T_market_price p qc)
                  :: Print (T_base_currency_amount q b)
                  :: trace (settle a e v d p q),
                outcome (settle a e v d p q))
           end
  end.
Proof.
  intros (_ & B & Q & _ & _ & (inc & I & _) & _ & A).
  unfold trade, get_market_price, size_order. rewrite best_price_spec.
  destruct (best_price a e) as [p|]; [|reflexivity].
  destruct (base_currency v) as [b|]; [|congruence].
  destruct (quote_currency v) as [qc|]; [|congruence].
  destruct (amount_currency_is_quote_currency v) as [iq|] eqn:EA; [|congruence].
  exists qc, iq, inc, b. repeat split; auto.
  rewrite I.
  cbn [bind ret emit raise read fst snd app].
  destruct (base_currency_amount_of iq (dca_amount d) p inc) as [q|x];
    reflexivity.
Qed.

Lemma notify_done a e subject message :
  outcome (notify a e subject message) = Done tt.
Proof.
  unfold notify. destruct (sns_topic e) as [t|]; [|reflexivity].
  destruct (negb (t =? "")%string && live_mode a); reflexivity.
Qed.

(* lines 294-323 with every global the block reads assigned *)
Lemma validate_spec a e v d p q prec m b qc :
  quote_asset_precision v = Some prec ->
  base_min_size v = Some m ->
  base_currency v = Some b ->
  quote_currency v = Some qc ->
  (is_dynamic_dca d = true -> scaling d <> None) ->
  validate a e v d p q =
  match order_value_of q p prec with
  | Err x => raise x
  | Ok ov =>
      if lt ov m
      then (rejection_trace a e d (T_below_min_notional q b p qc ov m), Exited)
      else ([Print (T_order_value ov qc)], Done ov)
  end.
Proof.
  intros P M B Q S. unfold validate, rejection_trace. rewrite P, M, B, Q.
  cbn [bind ret emit raise read fst snd app].
  destruct (order_value_of q p prec) as [ov|x]; [|reflexivity].
  cbn [bind ret emit raise read lift fst snd app].
  destruct (lt ov m); [|reflexivity].
  cbn [bind ret emit raise read lift fst snd app].
  destruct (is_dynamic_dca d); [|reflexivity].
  destruct (scaling d) as [s|]; [|now destruct S].
  cbn [bind ret emit raise read lift fst snd app].
  unfold canceled_summary.
  match goal with |- context [notify a e ?x ?y] =>
    pose proof (notify_done a e x y) as N;
    destruct (notify a e x y) as [t o]
  end.
  simpl in N. subst o.
  cbn [bind ret emit raise exit_ read lift fst snd app trace].
  rewrite ?app_nil_r. reflexivity.
Qed.

Lemma notify_quiet a e subject message :
  Forall (fun ev => is_trade_event ev = false /\ is_submission ev = false)
         (trace (notify a e subject message)).
Proof.
  unfold notify. destruct (sns_topic e) as [t|]; [|constructor].
  destruct (negb (t =? "")%string && live_mode a); repeat constructor.
Qed.

Lemma rejection_trace_no_submission a e d msg :
  is_submission (Print msg) = false ->
  Forall (fun ev => is_submission ev = false) (rejection_trace a e d msg).
Proof.
  intros _. unfold rejection_trace. constructor; [reflexivity|].
  destruct (is_dynamic_dca d); [|constructor].
  destruct (scaling d); [|constructor].
  constructor; [reflexivity|].
  eapply Forall_impl; [|apply notify_quiet]. simpl. tauto.
Qed.

(* the part of the run that follows the sizing fetches no price and sizes
   nothing *)
Lemma settle_quiet a e v d p q :
  Forall (fun ev => is_book_call ev = false /\ is_sizing ev = false
                    /\ (forall p' c, ev <> Print (T_market_price p' c)))
         (trace (settle a e v d p q)).
Proof.
  assert (N : forall s m, Forall (fun ev => is_book_call ev = false
                 /\ is_sizing ev = false
                 /\ (forall p' c, ev <> Print (T_market_price p' c)))
                (trace (notify a e s m))).
  { intros s m. unfold notify. destruct (sns_topic e) as [t|]; [|constructor].
    destruct (negb (t =? "")%string && live_mode a); repeat constructor;
      discriminate. }
  unfold settle. forall_trace.
  - unfold validate. forall_trace; try apply N;
      (split; [reflexivity | split; [reflexivity | intros; discriminate]]).
  - unfold execute, first_fill. forall_trace; try apply N;
      (split; [reflexivity | split; [reflexivity | intros; discriminate]]).
  - unfold summarize. forall_trace; try apply N;
      try (split; [reflexivity | split; [reflexivity | intros; discriminate]]).
    all: match goal with
         | H : outcome (if _ then _ else _) = Done _ |- _ =>
             revert H; repeat step_block; intros H; inversion H; subst
         end;
         (split; [reflexivity | split; [reflexivity | intros; discriminate]]).
Qed.

Lemma book_calls_app t1 t2 :
  book_calls (t1 ++ t2) = (book_calls t1 + book_calls t2)%nat.
Proof.
  induction t1 as [|ev t1 IH]; simpl; auto.
  destruct ev; simpl; auto.
Qed.

Lemma book_calls_none t :
  Forall (fun ev => is_book_call ev = false) t -> book_calls t = O.
Proof.
  induction 1 as [|ev t H _ IH]; simpl; auto.
  destruct ev; simpl in *; auto; discriminate.
Qed.

Lemma main_shape a e :
  (trace (main a e) = trace (prelude a e)
   /\ forall x, outcome (prelude a e) <> Done x)
  \/ exists v d,
       outcome (prelude a e) = Done (v, d)
       /\ trace (main a e) = (trace (prelude a e) ++ trace (trade a e v d))%list
       /\ outcome (main a e) = outcome (trade a e v d).
Proof.
  rewrite main_split, trace_bind, outcome_bind.
  destruct (outcome (prelude a e)) as [[v d]| |] eqn:E.
  - right. exists v, d. auto.
  - left. split; auto. discriminate.
  - left. split; auto. discriminate.
Qed.

Lemma prelude_no_book_call a e : book_calls (trace (prelude a e)) = O.
Proof.
  apply book_calls_none. eapply Forall_impl; [|apply prelude_quiet].
  intros [] H; simpl in *; auto; discriminate.
Qed.

Lemma settle_no_book_call a e v d p q :
  book_calls (trace (settle a e v d p q)) = O.
Proof.
  apply book_calls_none. eapply Forall_impl; [|apply settle_quiet].
  simpl. tauto.
Qed.

(* the first step of [settle] is the validator *)
Lemma settle_validate a e v d p q :
  match outcome (validate a e v d p q) with
  | Done _ => True
  | Raised x =>
      settle a e v d p q = (trace (validate a e v d p q), Raised x)
  | Exited =>
      settle a e v d p q = (trace (validate a e v d p q), Exited)
  end
  /\ forall ev, In ev (trace (validate a e v d p q)) ->
                In ev (trace (settle a e v d p q)).
Proof.
  split.
  - unfold settle, bind, outcome, trace.
    destruct (validate a e v d p q) as [t [x| |]]; simpl; auto.
  - intros ev. apply in_trace_bind_l.
Qed.

(** C7.  A run asks for the order book at most once.  Whenever a run sizes
    an order, it has asked for the order book exactly once, the market price
    it reports is the price at the top of the bids for a buy and at the top
    of the asks for a sell, the reported base quantity is the conversion of
    the (possibly scaled) amount at that price, and the notional value the
    validator compares is computed from that quantity at that same price. *)
Theorem C7_price_from_top_of_book a e :
  (book_calls (trace (main a e)) <= 1)%nat
  /\
  forall q b, In (Print (T_base_currency_amount q b)) (trace (main a e)) ->
    book_calls (trace (main a e)) = 1%nat
    /\ exists p v d iq inc qc prec,
         best_price a e = Some p
         /\ In (Print (T_market_price p qc)) (trace (main a e))
         /\ outcome (prelude a e) = Done (v, d)
         /\ amount_currency_is_quote_currency v = Some iq
         /\ base_increment v = Some inc
         /\ base_currency_amount_of iq (dca_amount d) p inc = Ok q
         /\ quote_asset_precision v = Some prec
         /\ match order_value_of q p prec with
            | Err x => outcome (main a e) = Raised x
            | Ok ov =>
                In (Print (T_order_value ov qc)) (trace (main a e))
                \/ exists m,
                     base_min_size v = Some m
                     /\ In (Print (T_below_min_notional q b p qc ov m))
                           (trace (main a e))
            end.
Proof.
  destruct (main_shape a e) as [(T & _)|(v & d & P & T & O)].
  { split.
    - rewrite T, prelude_no_book_call. auto.
    - intros q b H. rewrite T in H.
      pose proof (prelude_quiet a e) as Q. rewrite Forall_forall in Q.
      apply Q in H. discriminate. }
  pose proof (prelude_done a e v d P) as (_ & _ & R & S).
  pose proof (trade_spec a e v d R) as TS.
  pose proof (prelude_quiet a e) as Q. rewrite Forall_forall in Q.
  destruct (best_price a e) as [p|] eqn:BP.
  2:{ split.
      - rewrite T, book_calls_app, prelude_no_book_call, TS. simpl. auto.
      - intros q b H. rewrite T, TS in H. apply in_app_or in H.
        destruct H as [H|[H|[]]]; [apply Q in H|]; discriminate. }
  destruct TS as (qc & iq & inc & b0 & EQ & EI & EB & EC & TS).
  destruct (base_currency_amount_of iq (dca_amount d) p inc) as [q0|x] eqn:BA.
  2:{ split.
      - rewrite T, book_calls_app, prelude_no_book_call, TS. simpl. auto.
      - intros q b H. rewrite T, TS in H. apply in_app_or in H.
        destruct H as [H|[H|[H|[]]]]; [apply Q in H| |]; discriminate. }
  assert (BC : book_calls (trace (main a e)) = 1%nat).
  { rewrite T, book_calls_app, prelude_no_book_call, TS. simpl.
    now rewrite settle_no_book_call. }
  split; [rewrite BC; auto|].
  intros q b H. split; [exact BC|].
  assert (q = q0 /\ b = b0) as [-> ->].
  { rewrite T, TS in H. apply in_app_or in H.
    destruct H as [H|[H|[H|[H|H]]]]; try discriminate.
    - apply Q in H. discriminate.
    - inversion H; auto.
    - pose proof (settle_quiet a e v d p q0) as SQ.
      rewrite Forall_forall in SQ. apply SQ in H. simpl in H.
      destruct H as (_ & H & _). discriminate. }
  destruct R as (_ & _ & _ & RP & (m & RM & _) & _).
  destruct (quote_asset_precision v) as [prec|] eqn:EP; [|congruence].
  exists p, v, d, iq, inc, qc, prec.
  repeat (split; [solve [auto]|]).
  split.
  { rewrite T, TS. apply in_or_app. right. simpl. auto. }
  repeat (split; [solve [auto]|]).
  assert (SD : is_dynamic_dca d = true -> scaling d <> None).
  { intros D. destruct (S D) as (s & ->). discriminate. }
  pose proof (validate_spec a e v d p q0 prec m b0 qc EP RM EC EQ SD) as V.
  pose proof (settle_validate a e v d p q0) as (SV & SI).
  assert (IN : forall ev, In ev (trace (validate a e v d p q0)) ->
                          In ev (trace (main a e))).
  { intros ev Hev. rewrite T, TS. apply in_or_app. right.
    simpl. right. right. right. auto. }
  destruct (order_value_of q0 p prec) as [ov|x].
  - destruct (lt ov m).
    + right. exists m. split; auto. apply IN. rewrite V.
      unfold rejection_trace. simpl. auto.
    + left. apply IN. rewrite V. simpl. auto.
  - rewrite V in SV. simpl in SV. rewrite O, TS, SV. reflexivity.
Qed.

Lemma C7_witness :
  book_calls (trace (main (sample_args false false false) sample_env)) = 1%nat
  /\ best_price (sample_args false false false) sample_env = Some (D 5 (-2)).
Proof.
  assert (H : In (Print (T_base_currency_amount (D 40 (-3)) "ETH"))
                 (trace (main (sample_args false false false) sample_env))).
  { vm_compute. tauto. }
  split.
  - exact (proj1 (proj2 (C7_price_from_top_of_book _ _) _ _ H)).
  - reflexivity.
Defined.

(** ** Facts about the decimal arithmetic *)

Section DecimalFacts.

Lemma pow10_pos k : 0 < 10 ^ k \/ k < 0.
Proof.
  destruct (Z_lt_le_dec k 0); auto. left. apply Z.pow_pos_nonneg; lia.
Qed.

Lemma pow10_gt0 k : 0 <= k -> 0 < 10 ^ k.
Proof. intros. apply Z.pow_pos_nonneg; lia. Qed.

Lemma pow10_succ k : 0 <= k -> 10 ^ (k + 1) = 10 * 10 ^ k.
Proof. intros. rewrite Z.pow_add_r by lia. lia. Qed.

Lemma pow10_split a b : 0 <= a -> 0 <= b -> 10 ^ (a + b) = 10 ^ a * 10 ^ b.
Proof. intros. apply Z.pow_add_r; lia. Qed.

Lemma pow10_le a b : 0 <= a <= b -> 10 ^ a <= 10 ^ b.
Proof. intros. apply Z.pow_le_mono_r; lia. Qed.

Lemma pow10_lt a b : 0 <= a < b -> 10 ^ a < 10 ^ b.
Proof. intros. apply Z.pow_lt_mono_r; lia. Qed.

Lemma ndigits_aux_spec fuel : forall n,
  0 < n -> n < 2 ^ (Z.of_nat fuel + 1) ->
  1 <= ndigits_aux fuel n
  /\ 10 ^ (ndigits_aux fuel n - 1) <= n < 10 ^ ndigits_aux fuel n.
Proof.
  induction fuel as [|f IH]; intros n Hn Hb.
  - simpl in *. assert (n = 1) by lia. subst. simpl. lia.
  - cbn [ndigits_aux]. destruct (Z.ltb_spec n 10) as [L|L].
    + simpl. lia.
    + assert (P : 0 < n / 10) by (apply Z.div_str_pos; lia).
      assert (B : n / 10 < 2 ^ (Z.of_nat f + 1)).
      { replace (Z.of_nat (S f) + 1) with (Z.of_nat f + 1 + 1) in Hb by lia.
        rewrite Z.pow_add_r in Hb by lia. change (2 ^ 1) with 2 in Hb.
        apply Z.div_lt_upper_bound; lia. }
      destruct (IH (n / 10) P B) as (R1 & R2 & R3).
      set (r := ndigits_aux f (n / 10)) in *.
      pose proof (Z.div_mod n 10 ltac:(lia)) as DM.
      pose proof (Z.mod_pos_bound n 10 ltac:(lia)) as MB.
      replace (1 + r - 1) with (r - 1 + 1) by lia.
      replace (1 + r) with (r + 1) by lia.
      rewrite !pow10_succ by lia. lia.
Qed.

Lemma ndigits_spec n :
  0 < n -> 1 <= ndigits n /\ 10 ^ (ndigits n - 1) <= n < 10 ^ ndigits n.
Proof.
  intros Hn. unfold ndigits. apply ndigits_aux_spec; auto.
  rewrite Z2Nat.id by apply Z.log2_nonneg.
  pose proof (Z.log2_spec n Hn). replace (Z.log2 n + 1) with (Z.succ (Z.log2 n)) by lia.
  lia.
Qed.

Lemma ndigits_zero : ndigits 0 = 1.
Proof. reflexivity. Qed.

Lemma ndigits_pos n : 0 <= n -> 1 <= ndigits n.
Proof.
  intros H. destruct (Z.eq_dec n 0) as [->|N].
  - rewrite ndigits_zero. lia.
  - apply ndigits_spec. lia.
Qed.

(* a number below [10 ^ k] has at most [k] digits, and conversely *)
Lemma ndigits_le n k : 0 < n -> 0 <= k -> n < 10 ^ k -> ndigits n <= k.
Proof.
  intros Hn Hk Hlt. destruct (ndigits_spec n Hn) as (R1 & R2 & R3).
  destruct (Z_le_gt_dec (ndigits n) k); auto.
  assert (10 ^ k <= 10 ^ (ndigits n - 1)) by (apply pow10_le; lia). lia.
Qed.

Lemma ndigits_ge n k : 0 < n -> 10 ^ k <= n -> k < ndigits n.
Proof.
  intros Hn Hle. destruct (ndigits_spec n Hn) as (R1 & R2 & R3).
  destruct (Z_lt_le_dec k (ndigits n)); auto.
  assert (10 ^ ndigits n <= 10 ^ k) by (apply pow10_le; lia). lia.
Qed.

Lemma coef_nonneg d : 0 <= coef d.
Proof. unfold coef. lia. Qed.

Lemma coef_dec s c e : 0 <= c -> coef (dec s c e) = c.
Proof. intros. unfold coef, dec. simpl. lia. Qed.

Lemma dexp_dec s c e : dexp (dec s c e) = e.
Proof. reflexivity. Qed.

Lemma dsign_dec s c e : dsign (dec s c e) = s.
Proof. reflexivity. Qed.

Lemma dec_eta d : dec (dsign d) (coef d) (dexp d) = d.
Proof. destruct d. unfold dec, coef. simpl. now rewrite N2Z.id. Qed.

(* rounding half to even stays within half a unit *)
Lemma round_half_even_spec c k :
  0 <= c -> 0 < k ->
  let q := round_half_even c k in
  0 <= q
  /\ 2 * Z.abs (q * 10 ^ k - c) <= 10 ^ k
  /\ (2 * Z.abs (q * 10 ^ k - c) = 10 ^ k -> Z.even q = true).
Proof.
  intros Hc Hk. unfold round_half_even.
  assert (P : 0 < 10 ^ k) by (apply pow10_gt0; lia).
  pose proof (Z.div_mod c (10 ^ k) ltac:(lia)) as DM.
  pose proof (Z.mod_pos_bound c (10 ^ k) P) as MB.
  assert (Q : 0 <= c / 10 ^ k) by (apply Z.div_pos; lia).
  set (p := 10 ^ k) in *. set (q := c / p) in *. set (r := c mod p) in *.
  destruct (Z.ltb_spec (2 * r) p) as [A|A]; cbv zeta.
  - repeat split; try lia; try nia.
  - destruct (Z.ltb_spec p (2 * r)) as [B|B].
    + repeat split; try lia; try nia.
    + destruct (Z.even q) eqn:E.
      * repeat split; auto; try lia; try nia.
      * repeat split; try lia; try nia. intros _.
        rewrite Z.even_add, E. reflexivity.
Qed.

Lemma round_half_even_small c k :
  0 <= c -> 0 < k -> 10 * c < 10 ^ k -> round_half_even c k = 0.
Proof.
  intros Hc Hk Hs. unfold round_half_even.
  assert (P : 0 < 10 ^ k) by (apply pow10_gt0; lia).
  rewrite Z.mod_small by lia. rewrite Z.div_small by lia.
  destruct (Z.ltb_spec (2 * c) (10 ^ k)); auto. lia.
Qed.

End DecimalFacts.

Section RescaleFix.

Lemma signed_dec s c e : 0 <= c -> signed (dec s c e) = if s then - c else c.
Proof. intros. unfold signed. rewrite coef_dec by auto. reflexivity. Qed.

Lemma is_zero_false d : is_zero d = false -> 0 < coef d.
Proof.
  unfold is_zero. intros H. apply Z.eqb_neq in H. pose proof (coef_nonneg d). lia.
Qed.

Lemma is_zero_true d : is_zero d = true -> coef d = 0.
Proof. unfold is_zero. apply Z.eqb_eq. Qed.

(* the coefficient that [rescale] keeps when digits are dropped *)
Lemma rescale_round_spec c k (digits : Z) :
  0 < c -> 0 < k -> (digits < 0 -> 10 * c < 10 ^ k) ->
  let '(c', k') := if digits <? 0 then (1, 1) else (c, k) in
  round_half_even c' k' = round_half_even c k.
Proof.
  intros Hc Hk Hd. destruct (Z.ltb_spec digits 0) as [L|L]; auto.
  rewrite (round_half_even_small c k) by (auto; lia). reflexivity.
Qed.

Lemma few_digits_small c k :
  0 < c -> ndigits c - k < 0 -> 10 * c < 10 ^ k.
Proof.
  intros Hc Hd. destruct (ndigits_spec c Hc) as (R1 & R2 & R3).
  assert (10 ^ (ndigits c + 1) <= 10 ^ k) by (apply pow10_le; lia).
  rewrite pow10_succ in H by lia. lia.
Qed.

Lemma rescale_half_even_eq d e :
  rescale d e ROUND_HALF_EVEN =
  if is_zero d then dec (dsign d) 0 e
  else if e <=? dexp d then dec (dsign d) (coef d * 10 ^ (dexp d - e)) e
  else dec (dsign d) (round_half_even (coef d) (e - dexp d)) e.
Proof.
  unfold rescale. destruct (is_zero d) eqn:Z0; auto.
  destruct (Z.leb_spec e (dexp d)) as [L|L]; auto.
  apply is_zero_false in Z0.
  pose proof (rescale_round_spec (coef d) (e - dexp d)
                (ndigits (coef d) + dexp d - e) Z0 ltac:(lia)) as R.
  cbv zeta. simpl round_digits.
  destruct (ndigits (coef d) + dexp d - e <? 0) eqn:D.
  - rewrite R; auto. intros _. apply few_digits_small; auto.
    apply Z.ltb_lt in D. lia.
  - reflexivity.
Qed.

Lemma rescale_half_even_spec d e :
  let r := rescale d e ROUND_HALF_EVEN in
  dexp r = e /\ dsign r = dsign d /\ rounded_to_nearest d r
  /\ (coef d = 0 -> coef r = 0).
Proof.
  cbv zeta. rewrite rescale_half_even_eq.
  unfold rounded_to_nearest, scaled.
  destruct (is_zero d) eqn:Z0.
  - apply is_zero_true in Z0. rewrite dexp_dec, dsign_dec.
    rewrite signed_dec, coef_dec by lia. unfold signed. rewrite Z0.
    repeat split; auto.
    assert (0 < 10 ^ (e - Z.min (dexp d) e)) by (apply pow10_gt0; lia).
    destruct (dsign d); cbv iota; change (- 0) with 0; lia.
  - apply is_zero_false in Z0.
    destruct (Z.leb_spec e (dexp d)) as [L|L].
    + rewrite dexp_dec, dsign_dec.
      assert (P : 0 < 10 ^ (dexp d - e)) by (apply pow10_gt0; lia).
      rewrite signed_dec by nia.
      repeat split; try lia.
      replace (Z.min (dexp d) e) with e by lia.
      replace (e - e) with 0 by lia. unfold signed.
      change (10 ^ 0) with 1.
      destruct (dsign d); cbv iota; lia.
    + rewrite dexp_dec, dsign_dec.
      destruct (round_half_even_spec (coef d) (e - dexp d) ltac:(lia) ltac:(lia))
        as (Q0 & Q1 & _).
      rewrite signed_dec by auto.
      repeat split; try lia.
      replace (Z.min (dexp d) e) with (dexp d) by lia.
      replace (dexp d - dexp d) with 0 by lia. unfold signed.
      change (10 ^ 0) with 1.
      destruct (dsign d); cbv iota; lia.
Qed.

Lemma fix_zero d :
  coef d = 0 ->
  fix_ d = Ok (dec (dsign d) 0 (Z.min (Z.max (dexp d) Etiny) Emax)).
Proof. intros H. unfold fix_, is_zero. rewrite H. reflexivity. Qed.

(* a number that fits the context is left alone *)
Lemma fix_id d :
  ndigits (coef d) <= prec -> Etiny <= dexp d -> adjusted d <= Emax ->
  fix_ d = Ok d.
Proof.
  intros ND EL EH. unfold fix_. destruct (is_zero d) eqn:Z0.
  - apply is_zero_true in Z0. unfold adjusted in EH.
    rewrite Z0, ndigits_zero in EH.
    replace (Z.min (Z.max (dexp d) Etiny) Emax) with (dexp d) by lia.
    rewrite <- Z0. now rewrite dec_eta.
  - unfold adjusted in EH. cbv zeta.
    destruct (Z.ltb_spec Etop (ndigits (coef d) + dexp d - prec)) as [A|A].
    { unfold Etop, prec in *. lia. }
    destruct (Z.ltb_spec (ndigits (coef d) + dexp d - prec) Etiny) as [B|B].
    + destruct (Z.ltb_spec (dexp d) Etiny); auto. lia.
    + destruct (Z.ltb_spec (dexp d) (ndigits (coef d) + dexp d - prec)); auto.
      lia.
Qed.

Lemma fix_sign d r : fix_ d = Ok r -> dsign r = dsign d.
Proof.
  unfold fix_. destruct (is_zero d).
  - intros [= <-]. reflexivity.
  - cbv zeta.
    destruct (Etop <? ndigits (coef d) + dexp d - prec); [discriminate|].
    destruct (dexp d <? _); [|intros [= <-]; reflexivity].
    destruct (_ <? 0); cbv iota beta;
      destruct (prec <? _); cbv iota beta;
      destruct (Etop <? _); try discriminate;
      intros [= <-]; reflexivity.
Qed.

(* [quantize] returns the operand rescaled to the exponent of its argument *)
Lemma quantize_spec x inc r :
  quantize x inc = Ok r ->
  r = rescale x (dexp inc) ROUND_HALF_EVEN
  /\ Etiny <= dexp inc <= Emax.
Proof.
  unfold quantize.
  destruct (Z.leb_spec Etiny (dexp inc)) as [L1|L1]; [|discriminate].
  destruct (Z.leb_spec (dexp inc) Emax) as [L2|L2]; [|discriminate].
  simpl negb. cbv iota.
  destruct (is_zero x) eqn:Z0.
  - rewrite fix_zero by (rewrite coef_dec; lia). rewrite dexp_dec, dsign_dec.
    replace (Z.min (Z.max (dexp inc) Etiny) Emax) with (dexp inc) by lia.
    intros H; inversion H. unfold rescale. rewrite Z0. auto.
  - destruct (Emax <? adjusted x); [discriminate|].
    destruct (prec <? adjusted x - dexp inc + 1); [discriminate|].
    cbv zeta. set (ans := rescale x (dexp inc) ROUND_HALF_EVEN).
    destruct (Z.ltb_spec Emax (adjusted ans)) as [A|A]; [discriminate|].
    destruct (Z.ltb_spec prec (ndigits (coef ans))) as [B|B]; [discriminate|].
    pose proof (rescale_half_even_spec x (dexp inc)) as (E & _).
    fold ans in E.
    rewrite fix_id by (auto; lia). intros H; inversion H. auto.
Qed.

Lemma quantize_rounds x inc r :
  quantize x inc = Ok r ->
  dexp r = dexp inc /\ dsign r = dsign x /\ rounded_to_nearest x r
  /\ (coef x = 0 -> coef r = 0).
Proof.
  intros H. apply quantize_spec in H. destruct H as (-> & _).
  apply rescale_half_even_spec.
Qed.

End RescaleFix.

(** ** The order validator *)

Lemma order_value_of_spec q p prec ov :
  order_value_of q p prec = Ok ov ->
  0 <= prec
  /\ exists x,
       mul q p = Ok x
       /\ quantize x (dec false 1 (- prec)) = Ok ov
       /\ dexp ov = - prec
       /\ rounded_to_nearest x ov.
Proof.
  unfold order_value_of, one_e_minus.
  destruct (mul q p) as [x|]; [|discriminate]. simpl exc_bind.
  destruct (Z.ltb_spec prec 0) as [L|L]; [discriminate|]. simpl exc_bind.
  intros H. split; auto. exists x.
  pose proof (quantize_rounds _ _ _ H) as (E & _ & R & _).
  rewrite dexp_dec in E. auto.
Qed.

(* the submission is the first thing [execute] does *)
Lemma execute_submits a e v p q :
  exists ev t, trace (execute a e v p q) = ev :: t /\ is_submission ev = true.
Proof.
  unfold execute. destruct (live_mode a); simpl negb; cbv iota.
  - destruct (is_buy (order_side a));
      rewrite trace_bind_emit; eexists; eexists; split; reflexivity.
  - rewrite trace_bind_emit; eexists; eexists; split; reflexivity.
Qed.

Lemma after_validate_quiet a e v d p q :
  Forall (fun ev => forall q' b' p' c' ov' m',
            ev <> Print (T_below_min_notional q' b' p' c' ov' m'))
         (trace (' (order, shown) <- execute a e v p q ;;
                 summarize a e v d order shown)).
Proof.
  assert (N : forall s m, Forall (fun ev => forall q' b' p' c' ov' m',
                 ev <> Print (T_below_min_notional q' b' p' c' ov' m'))
                (trace (notify a e s m))).
  { intros s m. unfold notify. destruct (sns_topic e) as [t|]; [|constructor].
    destruct (negb (t =? "")%string && live_mode a); repeat constructor;
      discriminate. }
  forall_trace.
  - unfold execute, first_fill. forall_trace; try apply N; intros; discriminate.
  - unfold summarize. forall_trace; try apply N; try (intros; discriminate).
    all: match goal with
         | H : outcome (if _ then _ else _) = Done _ |- _ =>
             revert H; repeat step_block; intros H; inversion H; subst
         end; intros; discriminate.
Qed.

(* a rejected order ends the run inside the validator *)
Lemma settle_rejected a e v d p q prec m b qc ov :
  quote_asset_precision v = Some prec ->
  base_min_size v = Some m ->
  base_currency v = Some b ->
  quote_currency v = Some qc ->
  (is_dynamic_dca d = true -> scaling d <> None) ->
  order_value_of q p prec = Ok ov ->
  lt ov m = true ->
  settle a e v d p q =
  (rejection_trace a e d (T_below_min_notional q b p qc ov m), Exited).
Proof.
  intros P M B Q S OV L.
  pose proof (validate_spec a e v d p q prec m b qc P M B Q S) as V.
  rewrite OV, L in V. unfold settle. rewrite V. reflexivity.
Qed.

Lemma settle_accepted a e v d p q prec m b qc ov :
  quote_asset_precision v = Some prec ->
  base_min_size v = Some m ->
  base_currency v = Some b ->
  quote_currency v = Some qc ->
  (is_dynamic_dca d = true -> scaling d <> None) ->
  order_value_of q p prec = Ok ov ->
  lt ov m = false ->
  settle a e v d p q =
  (Print (T_order_value ov qc)
     :: trace (' (order, shown) <- execute a e v p q ;;
               summarize a e v d order shown),
   outcome (' (order, shown) <- execute a e v p q ;;
            summarize a e v d order shown)).
Proof.
  intros P M B Q S OV L.
  pose proof (validate_spec a e v d p q prec m b qc P M B Q S) as V.
  rewrite OV, L in V. unfold settle. rewrite V. reflexivity.
Qed.

(* in a run, the message of line 298 is only printed by a rejection, which
   ends the run before any order is handed to the exchange *)
Lemma main_rejected a e q b p qc ov m :
  In (Print (T_below_min_notional q b p qc ov m)) (trace (main a e)) ->
  outcome (main a e) = Exited
  /\ Forall (fun ev => is_submission ev = false) (trace (main a e)).
Proof.
  intros H.
  destruct (main_trade_event a e _ H eq_refl) as (v & d & P & HT & T & O).
  pose proof (prelude_done a e v d P) as (_ & _ & R & S).
  assert (SD : is_dynamic_dca d = true -> scaling d <> None).
  { intros D. destruct (S D) as (s & ->). discriminate. }
  pose proof (trade_spec a e v d R) as TS.
  destruct (best_price a e) as [p0|].
  2:{ rewrite TS in HT. destruct HT as [HT|[]]; discriminate. }
  destruct TS as (qc0 & iq & inc & b0 & EQ & EI & EB & EC & TS).
  destruct (base_currency_amount_of iq (dca_amount d) p0 inc) as [q0|x].
  2:{ rewrite TS in HT. destruct HT as [HT|[HT|[]]]; discriminate. }
  destruct R as (_ & _ & _ & RP & (m0 & RM & _) & _).
  destruct (quote_asset_precision v) as [prec|] eqn:EP; [|congruence].
  pose proof (validate_spec a e v d p0 q0 prec m0 b0 qc0 EP RM EC EQ SD) as V.
  assert (HS : In (Print (T_below_min_notional q b p qc ov m))
                  (trace (settle a e v d p0 q0))).
  { rewrite TS in HT. destruct HT as [HT|[HT|[HT|HT]]]; try discriminate; auto. }
  destruct (order_value_of q0 p0 prec) as [ov0|x] eqn:OV.
  - destruct (lt ov0 m0) eqn:L.
    + rewrite (settle_rejected a e v d p0 q0 prec m0 b0 qc0 ov0) in TS by auto.
      rewrite O, T, TS. split; [reflexivity|].
      apply Forall_app. split.
      * eapply Forall_impl; [|apply prelude_quiet].
        intros [] X; simpl in *; auto; discriminate.
      * do 3 (constructor; [reflexivity|]). cbn [trace fst].
        apply rejection_trace_no_submission. reflexivity.
    + exfalso.
      rewrite (settle_accepted a e v d p0 q0 prec m0 b0 qc0 ov0) in HS by auto.
      destruct HS as [HS|HS]; [discriminate|].
      pose proof (after_validate_quiet a e v d p0 q0) as AQ.
      rewrite Forall_forall in AQ. eapply AQ; eauto.
  - exfalso. unfold settle in HS. rewrite V in HS.
    destruct HS.
Qed.

(** ** Where the prints of a run come from *)

Lemma trade_no_prelude_event a e v d :
  Forall (fun ev => is_dynamic_event ev = false /\ is_constraint_print ev = false)
         (trace (trade a e v d)).
Proof.
  assert (N : forall s m, Forall (fun ev => is_dynamic_event ev = false
                 /\ is_constraint_print ev = false) (trace (notify a e s m))).
  { intros s m. unfold notify. destruct (sns_topic e) as [t|]; [|constructor].
    destruct (negb (t =? "")%string && live_mode a); repeat constructor. }
  unfold trade. forall_trace.
  - unfold get_market_price, top_price. forall_trace; split; reflexivity.
  - unfold size_order. forall_trace; split; reflexivity.
  - unfold settle. forall_trace.
    + unfold validate. forall_trace; try apply N; split; reflexivity.
    + unfold execute, first_fill. forall_trace; try apply N; split; reflexivity.
    + unfold summarize. forall_trace; try apply N; try (split; reflexivity).
      all: match goal with
           | H : outcome (if _ then _ else _) = Done _ |- _ =>
               revert H; repeat step_block; intros H; inversion H; subst
           end; split; reflexivity.
Qed.

Lemma market_loop_prints a ms : forall v,
  Forall (fun ev => is_dynamic_event ev = false /\ is_constraint_print ev = false)
         (trace (foldM (market_step a) v ms)).
Proof.
  apply Forall_trace_foldM. intros s x. unfold market_step.
  forall_trace; try (split; reflexivity).
  - rewrite foldM_silent by apply filter_step_trace. constructor.
  - rewrite check_filters_trace. constructor.
  - rewrite check_amount_currency_trace. constructor.
Qed.

Lemma resolve_no_dynamic_event a e :
  Forall (fun ev => is_dynamic_event ev = false) (trace (resolve a e)).
Proof.
  unfold resolve. forall_trace; try reflexivity.
  eapply Forall_impl; [|apply market_loop_prints]. simpl. tauto.
Qed.

Lemma confirm_prints a e :
  Forall (fun ev => is_dynamic_event ev = false /\ is_constraint_print ev = false)
         (trace (confirm a e)).
Proof. unfold confirm. forall_trace; split; reflexivity. Qed.

Lemma dynamic_no_constraint_print a e :
  Forall (fun ev => is_constraint_print ev = false)
         (trace (dynamic_dca_block a e)).
Proof.
  unfold dynamic_dca_block. forall_trace; try reflexivity.
  unfold scale_amount. forall_trace; reflexivity.
Qed.

(* the values printed by lines 228-230 are the resolved constraints *)
Lemma resolve_prints_min_size a e v m :
  outcome (resolve a e) = Done v ->
  In (Print (T_base_min_size m)) (trace (resolve a e)) ->
  base_min_size v = Some m.
Proof.
  unfold resolve. rewrite outcome_bind_emit, trace_bind_emit.
  intros O [H|H]; [discriminate|].
  apply outcome_bind_done in O. destruct O as (v1 & O1 & O).
  apply in_trace_bind in H. destruct H as [H|(v2 & O2 & H)].
  { pose proof (market_loop_prints a (exchange_info e) no_vars) as Q.
    rewrite Forall_forall in Q. apply Q in H. destruct H; discriminate. }
  assert (v2 = v1) by congruence. subst v2.
  destruct (base_min_size v1) as [d1|] eqn:E1; autorewrite with block in *;
    [|discriminate].
  destruct (base_increment v1) as [d2|] eqn:E2; autorewrite with block in *;
    [|discriminate].
  destruct (quote_increment v1) as [d3|] eqn:E3; autorewrite with block in *;
    [|discriminate].
  inversion O; subst v1.
  destruct H as [H|[H|[H|[]]]]; try discriminate.
  inversion H; subst. assumption.
Qed.

(* the cancelling branch leaves the amount at [Decimal("0.0")] *)
Lemma dynamic_cancel a e pc :
  In (Print (T_canceling pc)) (trace (dynamic_dca_block a e)) ->
  exists s, outcome (dynamic_dca_block a e)
            = Done (mkDca zero_amount true (Some s)).
Proof.
  unfold dynamic_dca_block.
  destruct (dynamic_dca a); autorewrite with block; [|intros []].
  intros [H|H]; [discriminate|]. revert H.
  destruct (steps_of (priceChangePercent e)) as [n|];
    autorewrite with block; [|intros []].
  intros [H|H]; [discriminate|]. revert H.
  destruct (0 <? n); autorewrite with block; [|intros []].
  unfold scale_amount.
  destruct (favorable (order_side a) (priceChangePercent e)).
  - intros H. exfalso. revert H.
    repeat step_block; simpl; intuition discriminate.
  - destruct (mul (amount a) amount_divider) as [x|];
      autorewrite with block; [|intros []].
    destruct (mul x (of_int n)) as [y|]; autorewrite with block; [|intros []].
    destruct (sub (amount a) y) as [z|]; autorewrite with block; [|intros []].
    destruct (le z zero); autorewrite with block.
    + intros _. eexists. reflexivity.
    + simpl. intuition discriminate.
Qed.

Lemma banner_done a :
  outcome (if negb (live_mode a) then emit (Print T_not_live_banner) else ret tt)
  = Done tt.
Proof. destruct (live_mode a); reflexivity. Qed.

Lemma banner_prints a :
  Forall (fun ev => is_dynamic_event ev = false /\ is_constraint_print ev = false)
    (trace (if negb (live_mode a) then emit (Print T_not_live_banner) else ret tt)).
Proof. destruct (live_mode a); repeat constructor. Qed.

(* a run in which the scaler cancels gets through the prelude with a zero
   amount *)
Lemma main_cancel a e pc :
  In (Print (T_canceling pc)) (trace (main a e)) ->
  exists v d,
    outcome (prelude a e) = Done (v, d)
    /\ dca_amount d = zero_amount
    /\ trace (main a e) = (trace (prelude a e) ++ trace (trade a e v d))%list
    /\ outcome (main a e) = outcome (trade a e v d).
Proof.
  intros H.
  assert (HP : In (Print (T_canceling pc)) (trace (prelude a e))).
  { destruct (main_shape a e) as [(T & _)|(v & d & P & T & O)].
    - now rewrite <- T.
    - rewrite T in H. apply in_app_or in H. destruct H as [H|H]; auto.
      pose proof (trade_no_prelude_event a e v d) as Q.
      rewrite Forall_forall in Q. apply Q in H. destruct H; discriminate. }
  unfold prelude in HP. rewrite trace_bind_emit in HP.
  destruct HP as [HP|HP]; [discriminate|].
  apply in_trace_bind in HP. destruct HP as [HP|([] & _ & HP)].
  { pose proof (banner_prints a) as Q. rewrite Forall_forall in Q.
    apply Q in HP. destruct HP; discriminate. }
  apply in_trace_bind in HP. destruct HP as [HP|(v & OR & HP)].
  { pose proof (resolve_no_dynamic_event a e) as Q. rewrite Forall_forall in Q.
    apply Q in HP. discriminate. }
  apply in_trace_bind in HP. destruct HP as [HP|([] & OC & HP)].
  { pose proof (confirm_prints a e) as Q. rewrite Forall_forall in Q.
    apply Q in HP. destruct HP; discriminate. }
  apply in_trace_bind in HP. destruct HP as [HP|(d & _ & [])].
  destruct (dynamic_cancel a e pc HP) as (s & OD).
  assert (P : outcome (prelude a e) = Done (v, mkDca zero_amount true (Some s))).
  { unfold prelude. rewrite outcome_bind_emit.
    rewrite outcome_bind, banner_done, outcome_bind, OR, outcome_bind, OC,
      outcome_bind, OD. reflexivity. }
  exists v, (mkDca zero_amount true (Some s)).
  split; [exact P|]. split; [reflexivity|].
  rewrite main_split, trace_bind, outcome_bind, P. auto.
Qed.

Lemma main_prints_min_size a e v d m :
  outcome (prelude a e) = Done (v, d) ->
  In (Print (T_base_min_size m)) (trace (main a e)) ->
  base_min_size v = Some m.
Proof.
  intros P H.
  pose proof (prelude_done a e v d P) as (OR & _).
  apply (resolve_prints_min_size a e v m OR).
  rewrite main_split, trace_bind, P in H. apply in_app_or in H.
  destruct H as [H|H].
  2:{ pose proof (trade_no_prelude_event a e v d) as Q.
      rewrite Forall_forall in Q. apply Q in H. destruct H; discriminate. }
  unfold prelude in H. rewrite trace_bind_emit in H.
  destruct H as [H|H]; [discriminate|].
  apply in_trace_bind in H. destruct H as [H|([] & _ & H)].
  { pose proof (banner_prints a) as Q. rewrite Forall_forall in Q.
    apply Q in H. destruct H; discriminate. }
  apply in_trace_bind in H. destruct H as [H|(v' & _ & H)]; auto.
  apply in_trace_bind in H. destruct H as [H|([] & _ & H)].
  { pose proof (confirm_prints a e) as Q. rewrite Forall_forall in Q.
    apply Q in H. destruct H; discriminate. }
  apply in_trace_bind in H. destruct H as [H|(d' & _ & [])].
  pose proof (dynamic_no_constraint_print a e) as Q. rewrite Forall_forall in Q.
  apply Q in H. discriminate.
Qed.

(** ** A zero amount *)

Lemma fix_zero_coef d r : coef d = 0 -> fix_ d = Ok r -> coef r = 0.
Proof.
  intros Z0 H. rewrite fix_zero in H by auto. inversion H.
  rewrite coef_dec; lia.
Qed.

Lemma mul_zero_l a b r : coef a = 0 -> mul a b = Ok r -> coef r = 0.
Proof.
  unfold mul. intros Z0 H. eapply fix_zero_coef; [|exact H].
  rewrite Z0. reflexivity.
Qed.

Lemma mul_zero_l_ok a b : coef a = 0 -> exists r, mul a b = Ok r /\ coef r = 0.
Proof.
  intros Z0. unfold mul. rewrite fix_zero by (rewrite Z0; reflexivity).
  eexists. split; [reflexivity|]. rewrite coef_dec; lia.
Qed.

Lemma div_zero_l a b r : coef a = 0 -> div a b = Ok r -> coef r = 0.
Proof.
  unfold div, is_zero. intros Z0. rewrite Z0. simpl (0 =? 0).
  destruct (coef b =? 0); [discriminate|].
  apply fix_zero_coef. reflexivity.
Qed.

Lemma quantize_zero x inc r : coef x = 0 -> quantize x inc = Ok r -> coef r = 0.
Proof. intros Z0 H. apply quantize_rounds in H. tauto. Qed.

Lemma quantize_zero_ok x inc :
  coef x = 0 -> Etiny <= dexp inc <= Emax ->
  exists r, quantize x inc = Ok r /\ coef r = 0.
Proof.
  intros Z0 R. unfold quantize, is_zero. rewrite Z0.
  destruct (Z.leb_spec Etiny (dexp inc)); [|lia].
  destruct (Z.leb_spec (dexp inc) Emax); [|lia].
  simpl. rewrite fix_zero by reflexivity.
  eexists. split; [reflexivity|]. rewrite coef_dec; lia.
Qed.

Lemma base_currency_amount_of_zero iq z p inc q :
  coef z = 0 -> base_currency_amount_of iq z p inc = Ok q -> coef q = 0.
Proof.
  intros Z0. unfold base_currency_amount_of. destruct iq.
  - destruct (div z p) as [x|] eqn:D; [|discriminate]. simpl.
    apply quantize_zero. eapply div_zero_l; eauto.
  - now apply quantize_zero.
Qed.

Lemma order_value_of_zero q p prec :
  coef q = 0 -> 0 <= prec <= - Etiny ->
  exists ov, order_value_of q p prec = Ok ov /\ coef ov = 0.
Proof.
  intros Z0 R. unfold order_value_of, one_e_minus.
  destruct (mul_zero_l_ok q p Z0) as (x & -> & X0). simpl exc_bind.
  destruct (Z.ltb_spec prec 0); [lia|]. simpl exc_bind.
  apply quantize_zero_ok; auto. rewrite dexp_dec.
  unfold Etiny, Emax, Emin, PyDecimal.prec in *. lia.
Qed.

(* zero is below every positive decimal *)
Lemma lt_zero_positive z m : coef z = 0 -> lt zero m = true -> lt z m = true.
Proof.
  unfold lt, cmp, signed. intros Z0. rewrite Z0.
  change (dsign zero) with false. change (coef zero) with 0.
  change (dexp zero) with 0. cbv iota.
  assert (E : (if dsign z then - 0 else 0) = 0) by (destruct (dsign z); reflexivity).
  rewrite E. clear E. rewrite !Z.mul_0_l.
  assert (P1 : 0 < 10 ^ (dexp m - Z.min 0 (dexp m)))
    by (apply pow10_gt0; lia).
  assert (P2 : 0 < 10 ^ (dexp m - Z.min (dexp z) (dexp m)))
    by (apply pow10_gt0; lia).
  destruct (Z.compare_spec 0
              ((if dsign m then - coef m else coef m)
               * 10 ^ (dexp m - Z.min 0 (dexp m)))); try discriminate.
  intros _.
  destruct (Z.compare_spec 0
              ((if dsign m then - coef m else coef m)
               * 10 ^ (dexp m - Z.min (dexp z) (dexp m)))); auto; nia.
Qed.

(** C8.  Take a run in which the scaler prints "Dynamic DCA canceling
    trade" (line 266: the unfavourable branch forced [amount] to
    [Decimal("0.0")]) and in which the resolved [base_min_size] is
    positive.  The run gets through the prelude with a zero amount, no
    order, test or live, is submitted, and the run does not end normally.
    If the run reports a base quantity, that quantity is zero; and if
    moreover [quote_asset_precision] is a valid target for [quantize]
    (between 0 and 1000026), the notional value is zero, it is below
    [base_min_size], the rejection message is printed and the run ends by
    [exit()]. *)
Theorem C8_zero_amount_never_submitted a e pc m :
  In (Print (T_canceling pc)) (trace (main a e)) ->
  In (Print (T_base_min_size m)) (trace (main a e)) ->
  lt zero m = true ->
  exists v d,
    outcome (prelude a e) = Done (v, d)
    /\ dca_amount d = zero_amount
    /\ base_min_size v = Some m
    /\ Forall (fun ev => is_submission ev = false) (trace (main a e))
    /\ outcome (main a e) <> Done tt
    /\ forall q b,
         In (Print (T_base_currency_amount q b)) (trace (main a e)) ->
         coef q = 0
         /\ forall prec,
              quote_asset_precision v = Some prec ->
              0 <= prec <= - Etiny ->
              outcome (main a e) = Exited
              /\ exists p qc ov,
                   order_value_of q p prec = Ok ov
                   /\ coef ov = 0
                   /\ lt ov m = true
                   /\ In (Print (T_below_min_notional q b p qc ov m))
                         (trace (main a e)).
Proof.
  intros HC HM MP.
  destruct (main_cancel a e pc HC) as (v & d & P & DZ & T & O).
  pose proof (main_prints_min_size a e v d m P HM) as BM.
  exists v, d. split; [exact P|]. split; [exact DZ|]. split; [exact BM|].
  pose proof (prelude_done a e v d P) as (_ & _ & R & S).
  assert (SD : is_dynamic_dca d = true -> scaling d <> None).
  { intros D. destruct (S D) as (s & ->). discriminate. }
  assert (PQ : Forall (fun ev => is_submission ev = false) (trace (prelude a e))).
  { eapply Forall_impl; [|apply prelude_quiet].
    intros [] X; simpl in *; auto; discriminate. }
  pose proof (prelude_quiet a e) as Q. rewrite Forall_forall in Q.
  pose proof (trade_spec a e v d R) as TS.
  destruct (best_price a e) as [p|].
  2:{ rewrite T, O, TS. split; [|split; [discriminate|]].
      - apply Forall_app. split; auto. repeat constructor.
      - intros q b H. apply in_app_or in H.
        destruct H as [H|[H|[]]]; [apply Q in H|]; discriminate. }
  destruct TS as (qc & iq & inc & b0 & EQ & EI & EB & EC & TS).
  destruct (base_currency_amount_of iq (dca_amount d) p inc) as [q0|x] eqn:BA.
  2:{ rewrite T, O, TS. split; [|split; [discriminate|]].
      - apply Forall_app. split; auto. repeat constructor.
      - intros q b H. apply in_app_or in H.
        destruct H as [H|[H|[H|[]]]]; [apply Q in H| |]; discriminate. }
  assert (Q0 : coef q0 = 0).
  { eapply base_currency_amount_of_zero; [|exact BA]. rewrite DZ. reflexivity. }
  destruct R as (_ & _ & _ & RP & _).
  destruct (quote_asset_precision v) as [prec|] eqn:EP; [|congruence].
  pose proof (validate_spec a e v d p q0 prec m b0 qc EP BM EC EQ SD) as V.
  (* the part of the run that follows the sizing *)
  assert (ST : (exists x, settle a e v d p q0 = ([], Raised x)
                          /\ forall ov, order_value_of q0 p prec <> Ok ov)
               \/ exists ov,
                    order_value_of q0 p prec = Ok ov /\ coef ov = 0
                    /\ lt ov m = true
                    /\ settle a e v d p q0 =
                       (rejection_trace a e d
                          (T_below_min_notional q0 b0 p qc ov m), Exited)).
  { destruct (order_value_of q0 p prec) as [ov|x] eqn:OV.
    - right. exists ov.
      assert (OZ : coef ov = 0).
      { apply order_value_of_spec in OV. destruct OV as (_ & y & MY & QY & _).
        eapply quantize_zero; [|exact QY]. eapply mul_zero_l; eauto. }
      assert (L : lt ov m = true) by (apply lt_zero_positive; auto).
      repeat split; auto.
      eapply settle_rejected; eauto.
    - left. exists x. split; [|discriminate].
      unfold settle. rewrite V. reflexivity. }
  assert (SZ : forall q b, In (Print (T_base_currency_amount q b)) (trace (main a e))
                           -> q = q0 /\ b = b0).
  { intros q b H. rewrite T, TS in H. apply in_app_or in H.
    destruct H as [H|[H|[H|[H|H]]]]; try discriminate.
    - apply Q in H. discriminate.
    - inversion H; auto.
    - pose proof (settle_quiet a e v d p q0) as SQ.
      rewrite Forall_forall in SQ. apply SQ in H. simpl in H.
      destruct H as (_ & H & _). discriminate. }
  split; [|split].
  - rewrite T, TS. apply Forall_app. split; auto.
    do 3 (constructor; [reflexivity|]).
    destruct ST as [(x & -> & _)|(ov & _ & _ & _ & ->)]; cbn [trace fst].
    + constructor.
    + apply rejection_trace_no_submission. reflexivity.
  - rewrite O, TS.
    destruct ST as [(x & -> & _)|(ov & _ & _ & _ & ->)]; discriminate.
  - intros q b H. destruct (SZ q b H) as [-> ->]. split; [exact Q0|].
    intros prec' EP' RG. assert (prec' = prec) by congruence. subst prec'.
    destruct ST as [(x & _ & NO)|(ov & OV & OZ & L & ES)].
    + destruct (order_value_of_zero q0 p prec Q0 RG) as (ov & OV & _).
      now destruct (NO ov).
    + split; [rewrite O, TS, ES; reflexivity|].
      exists p, qc, ov. repeat split; auto.
      rewrite T, TS, ES. apply in_or_app. right. cbn [trace fst].
      unfold rejection_trace. simpl. auto.
Qed.

Lemma C8_witness :
  Forall (fun ev => is_submission ev = false)
         (trace (main (sample_args true false false) rally_env))
  /\ outcome (main (sample_args true false false) rally_env) = Exited.
Proof.
  assert (HC : In (Print (T_canceling (D 250 (-1))))
                  (trace (main (sample_args true false false) rally_env)))
    by (vm_compute; tauto).
  assert (HM : In (Print (T_base_min_size (D 1 (-4))))
                  (trace (main (sample_args true false false) rally_env)))
    by (vm_compute; tauto).
  destruct (C8_zero_amount_never_submitted _ _ _ _ HC HM eq_refl)
    as (v & d & _ & _ & _ & F & _).
  split; [exact F|]. vm_compute. reflexivity.
Defined.

(** ** The quantity converter *)

Lemma rescale_ties_to_even d e : ties_to_even d (rescale d e ROUND_HALF_EVEN).
Proof.
  rewrite rescale_half_even_eq. unfold ties_to_even, scaled.
  destruct (is_zero d) eqn:Z0.
  - intros _. rewrite coef_dec by lia. reflexivity.
  - apply is_zero_false in Z0.
    destruct (Z.leb_spec e (dexp d)) as [L|L].
    + rewrite dexp_dec.
      assert (P : 0 < 10 ^ (dexp d - e)) by (apply pow10_gt0; lia).
      rewrite signed_dec by nia.
      replace (Z.min (dexp d) e) with e by lia.
      replace (e - e) with 0 by lia. unfold signed.
      change (10 ^ 0) with 1.
      destruct (dsign d); cbv iota; lia.
    + rewrite dexp_dec.
      destruct (round_half_even_spec (coef d) (e - dexp d) ltac:(lia) ltac:(lia))
        as (Q0 & _ & Q2).
      rewrite signed_dec, coef_dec by auto.
      replace (Z.min (dexp d) e) with (dexp d) by lia.
      replace (dexp d - dexp d) with 0 by lia. unfold signed.
      change (10 ^ 0) with 1.
      intros H. apply Q2. destruct (dsign d); cbv iota in H; lia.
Qed.

Lemma quantize_ties_to_even x inc r : quantize x inc = Ok r -> ties_to_even x r.
Proof.
  intros H. apply quantize_spec in H. destruct H as (-> & _).
  apply rescale_ties_to_even.
Qed.


Lemma ndigits_mul_pow10 c k :
  0 < c -> 0 <= k -> ndigits (c * 10 ^ k) = ndigits c + k.
Proof.
  intros Hc Hk. destruct (ndigits_spec c Hc) as (N1 & N2 & N3).
  assert (P : 0 < 10 ^ k) by (apply pow10_gt0; lia).
  assert (U : ndigits (c * 10 ^ k) <= ndigits c + k).
  { apply ndigits_le; try nia. rewrite pow10_split by lia. nia. }
  assert (L : ndigits c - 1 + k < ndigits (c * 10 ^ k)).
  { apply ndigits_ge; try nia. rewrite pow10_split by lia. nia. }
  lia.
Qed.






(** ** The dynamic DCA scaler *)

Lemma fix_id_bound s c e :
  0 <= c < 10 ^ prec -> Etiny <= e <= Etop ->
  fix_ (dec s c e) = Ok (dec s c e).
Proof.
  intros Hc He. apply fix_id; rewrite ?dexp_dec; try lia.
  - rewrite coef_dec by lia.
    destruct (Z.eq_dec c 0) as [->|N]; [rewrite ndigits_zero; unfold prec; lia|].
    apply ndigits_le; unfold prec in *; lia.
  - unfold adjusted. rewrite dexp_dec, coef_dec by lia.
    assert (ndigits c <= prec).
    { destruct (Z.eq_dec c 0) as [->|N]; [rewrite ndigits_zero; unfold prec; lia|].
      apply ndigits_le; unfold prec in *; lia. }
    unfold Etop, Emax, prec in *. lia.
Qed.

Lemma cmp_zero r : cmp r zero = (signed r ?= 0).
Proof.
  unfold cmp. change (signed zero) with 0. change (dexp zero) with 0.
  rewrite Z.mul_0_l.
  assert (P : 0 < 10 ^ (dexp r - Z.min (dexp r) 0)) by (apply pow10_gt0; lia).
  destruct (Z.compare_spec (signed r) 0) as [E|E|E].
  - rewrite E. reflexivity.
  - apply Z.compare_lt_iff. nia.
  - apply Z.compare_gt_iff. nia.
Qed.

Lemma lt_zero_iff r : lt r zero = true <-> signed r < 0.
Proof.
  unfold lt. rewrite cmp_zero.
  destruct (Z.compare_spec (signed r) 0); split; intros; try lia; try discriminate;
    reflexivity.
Qed.

Lemma le_zero_iff r : le r zero = true <-> signed r <= 0.
Proof.
  unfold le. rewrite cmp_zero.
  destruct (Z.compare_spec (signed r) 0); split; intros; try lia; try discriminate;
    reflexivity.
Qed.

Lemma signed_nonneg d : dsign d = false -> 0 <= signed d.
Proof. unfold signed. intros ->. apply coef_nonneg. Qed.

Lemma nonneg_not_lt_zero r : dsign r = false -> lt r zero = false.
Proof.
  intros H. apply signed_nonneg in H.
  destruct (lt r zero) eqn:L; auto. apply lt_zero_iff in L. lia.
Qed.

Lemma mul_sign a b r : mul a b = Ok r -> dsign r = xorb (dsign a) (dsign b).
Proof. unfold mul. intros H. apply fix_sign in H. exact H. Qed.

Lemma add_nonneg a b r :
  dsign a = false -> dsign b = false -> add a b = Ok r -> dsign r = false.
Proof.
  intros SA SB. unfold add.
  destruct (is_zero a && is_zero b).
  { intros H. apply fix_sign in H. rewrite H, dsign_dec, SA. reflexivity. }
  destruct (is_zero a).
  { intros H. apply fix_sign in H. rewrite H.
    destruct (rescale_half_even_spec b (Z.max (Z.min (dexp a) (dexp b))
                (dexp b - prec - 1))) as (_ & S & _). congruence. }
  destruct (is_zero b).
  { intros H. apply fix_sign in H. rewrite H.
    destruct (rescale_half_even_spec a (Z.max (Z.min (dexp a) (dexp b))
                (dexp a - prec - 1))) as (_ & S & _). congruence. }
  cbv zeta.
  set (s := signed a * 10 ^ (dexp a - Z.min (dexp a) (dexp b))
            + signed b * 10 ^ (dexp b - Z.min (dexp a) (dexp b))).
  assert (0 <= s).
  { pose proof (signed_nonneg a SA). pose proof (signed_nonneg b SB).
    assert (0 < 10 ^ (dexp a - Z.min (dexp a) (dexp b))) by (apply pow10_gt0; lia).
    assert (0 < 10 ^ (dexp b - Z.min (dexp a) (dexp b))) by (apply pow10_gt0; lia).
    subst s. nia. }
  destruct (Z.eqb_spec s 0).
  - intros H'. apply fix_sign in H'. rewrite H'. reflexivity.
  - intros H'. apply fix_sign in H'. rewrite H', dsign_dec.
    apply Z.ltb_ge. lia.
Qed.

(* the scaled amount is never negative *)
Lemma scale_amount_nonneg side amount pc n r :
  dsign amount = false -> 1 <= n ->
  outcome (scale_amount side amount pc n) = Done r ->
  lt r zero = false.
Proof.
  intros SA Hn. unfold scale_amount.
  destruct (favorable side pc).
  - destruct (mul amount amount_multiplier) as [x|] eqn:MX;
      autorewrite with block; [|discriminate].
    destruct (mul x (of_int n)) as [y|] eqn:MY;
      autorewrite with block; [|discriminate].
    destruct (add amount y) as [z|] eqn:AZ;
      autorewrite with block; [|discriminate].
    intros [= <-]. apply nonneg_not_lt_zero.
    apply mul_sign in MX. apply mul_sign in MY.
    rewrite SA in MX. simpl in MX.
    assert (dsign (of_int n) = false).
    { unfold of_int. rewrite dsign_dec. apply Z.ltb_ge. lia. }
    eapply add_nonneg; [exact SA| |exact AZ].
    rewrite MY, MX, H. reflexivity.
  - destruct (mul amount amount_divider) as [x|] eqn:MX;
      autorewrite with block; [|discriminate].
    destruct (mul x (of_int n)) as [y|] eqn:MY;
      autorewrite with block; [|discriminate].
    destruct (sub amount y) as [z|] eqn:AZ;
      autorewrite with block; [|discriminate].
    destruct (le z zero) eqn:L; autorewrite with block.
    + intros [= <-]. reflexivity.
    + intros [= <-]. destruct (lt z zero) eqn:L'; auto.
      apply lt_zero_iff in L'.
      assert (le z zero = true) by (apply le_zero_iff; lia). congruence.
Qed.

Lemma mul_exact a b :
  coef a * coef b < 10 ^ prec -> Etiny <= dexp a + dexp b <= Etop ->
  mul a b = Ok (dec (xorb (dsign a) (dsign b)) (coef a * coef b) (dexp a + dexp b)).
Proof.
  intros Hc He. unfold mul. apply fix_id_bound; auto.
  pose proof (coef_nonneg a). pose proof (coef_nonneg b). nia.
Qed.

Lemma add_exact a b :
  is_zero a = false -> is_zero b = false ->
  let exp := Z.min (dexp a) (dexp b) in
  let s := signed a * 10 ^ (dexp a - exp) + signed b * 10 ^ (dexp b - exp) in
  Z.abs s < 10 ^ prec -> Etiny <= exp <= Etop ->
  add a b = Ok (if s =? 0 then dec false 0 exp else dec (s <? 0) (Z.abs s) exp).
Proof.
  intros ZA ZB exp s Hs He. unfold add. rewrite ZA, ZB. simpl andb. cbv iota zeta.
  fold exp. fold s. destruct (s =? 0).
  - apply fix_id_bound; auto. split; [lia|]. apply pow10_gt0. unfold prec. lia.
  - apply fix_id_bound; auto. lia.
Qed.

(* the scaler on amounts whose products fit the 28 digits of the context *)
Lemma scale_amount_exact side amount pc n :
  dsign amount = false -> 0 < coef amount -> 1 <= n ->
  100 * coef amount * (n + 1) < 10 ^ prec ->
  Etiny + 2 <= dexp amount <= Etop ->
  scale_amount side amount pc n =
  if favorable side pc then
    let r := dec false (10 * coef amount * (1 + n)) (dexp amount - 1) in
    ([Print (T_scaling_up n r)], Done r)
  else if n <? 4 then
    let r := dec false (25 * coef amount * (4 - n)) (dexp amount - 2) in
    ([Print (T_scaling_down n r)], Done r)
  else ([Print (T_canceling pc)], Done zero_amount).
Proof.
  intros SA CA Hn Fit Rg. unfold scale_amount.
  set (c := coef amount) in *. set (e := dexp amount) in *.
  assert (CN : coef (of_int n) = n).
  { unfold of_int. rewrite coef_dec by lia. lia. }
  assert (SN : dsign (of_int n) = false).
  { unfold of_int. rewrite dsign_dec. apply Z.ltb_ge. lia. }
  assert (EN : dexp (of_int n) = 0) by reflexivity.
  assert (P28 : 0 < 10 ^ prec) by (apply pow10_gt0; unfold prec; lia).
  destruct (favorable side pc).
  - (* amount * 1.0 *)
    rewrite (mul_exact amount amount_multiplier);
      [|change (coef amount_multiplier) with 10; fold c; nia
       |change (dexp amount_multiplier) with (-1); fold e; lia].
    rewrite SA. change (coef amount_multiplier) with 10.
    change (dexp amount_multiplier) with (-1). change (dsign amount_multiplier) with false.
    fold c; fold e. simpl xorb. autorewrite with block.
    (* ... * Decimal(steps) *)
    rewrite mul_exact;
      [|rewrite coef_dec, CN by nia; nia|rewrite dexp_dec, EN; lia].
    rewrite dsign_dec, SN, coef_dec, CN, dexp_dec, EN by nia.
    simpl xorb. autorewrite with block.
    (* amount + ... *)
    assert (ZA : is_zero amount = false) by (apply Z.eqb_neq; fold c; lia).
    assert (ZB : is_zero (dec false (c * 10 * n) (e + -1 + 0)) = false).
    { apply Z.eqb_neq. rewrite coef_dec by nia. nia. }
    pose proof (add_exact amount (dec false (c * 10 * n) (e + -1 + 0)) ZA ZB) as AE.
    cbv zeta in AE. rewrite dexp_dec, signed_dec in AE by nia.
    unfold signed in AE. rewrite SA in AE. fold c e in AE.
    replace (Z.min e (e + -1 + 0)) with (e - 1) in AE by lia.
    replace (e - (e - 1)) with 1 in AE by lia.
    replace (e + -1 + 0 - (e - 1)) with 0 in AE by lia.
    change (10 ^ 1) with 10 in AE. change (10 ^ 0) with 1 in AE.
    replace (c * 10 + c * 10 * n * 1) with (10 * c * (1 + n)) in AE by lia.
    rewrite AE by (try lia; rewrite Z.abs_eq by nia; nia).
    destruct (Z.eqb_spec (10 * c * (1 + n)) 0) as [E0|E0]; [nia|].
    destruct (Z.ltb_spec (10 * c * (1 + n)) 0) as [L0|L0]; [nia|].
    rewrite Z.abs_eq by nia. autorewrite with block. reflexivity.
  - (* amount * 0.25 *)
    rewrite (mul_exact amount amount_divider);
      [|change (coef amount_divider) with 25; fold c; nia
       |change (dexp amount_divider) with (-2); fold e; lia].
    rewrite SA. change (coef amount_divider) with 25.
    change (dexp amount_divider) with (-2). change (dsign amount_divider) with false.
    fold c; fold e. simpl xorb. autorewrite with block.
    rewrite mul_exact;
      [|rewrite coef_dec, CN by nia; nia|rewrite dexp_dec, EN; lia].
    rewrite dsign_dec, SN, coef_dec, CN, dexp_dec, EN by nia.
    simpl xorb. autorewrite with block.
    (* amount - ... *)
    assert (ZA : is_zero amount = false) by (apply Z.eqb_neq; fold c; lia).
    assert (ZB : is_zero (copy_negate (dec false (c * 25 * n) (e + -2 + 0))) = false).
    { apply Z.eqb_neq. unfold copy_negate, coef. simpl dint.
      rewrite Z2N.id by nia. nia. }
    pose proof (add_exact amount (copy_negate (dec false (c * 25 * n) (e + -2 + 0)))
                  ZA ZB) as AE.
    cbv zeta in AE.
    assert (SG : signed (copy_negate (dec false (c * 25 * n) (e + -2 + 0)))
                 = - (c * 25 * n)).
    { unfold signed, copy_negate, coef. simpl. rewrite Z2N.id by nia. reflexivity. }
    rewrite SG in AE. change (dexp (copy_negate (dec false (c * 25 * n) (e + -2 + 0))))
      with (e + -2 + 0) in AE.
    unfold signed in AE. rewrite SA in AE. fold c e in AE.
    replace (Z.min e (e + -2 + 0)) with (e - 2) in AE by lia.
    replace (e - (e - 2)) with 2 in AE by lia.
    replace (e + -2 + 0 - (e - 2)) with 0 in AE by lia.
    change (10 ^ 2) with 100 in AE. change (10 ^ 0) with 1 in AE.
    replace (c * 100 + - (c * 25 * n) * 1) with (25 * c * (4 - n)) in AE by lia.
    unfold sub. rewrite AE by (try lia; nia).
    autorewrite with block.
    destruct (Z.ltb_spec n 4) as [L4|L4].
    + destruct (Z.eqb_spec (25 * c * (4 - n)) 0) as [E0|E0]; [nia|].
      destruct (Z.ltb_spec (25 * c * (4 - n)) 0) as [L0|L0]; [nia|].
      rewrite Z.abs_eq by nia.
      assert (LE : le (dec false (25 * c * (4 - n)) (e - 2)) zero = false).
      { destruct (le _ zero) eqn:LE; auto. apply le_zero_iff in LE.
        rewrite signed_dec in LE by nia. nia. }
      rewrite LE. autorewrite with block. reflexivity.
    + assert (LE : le (if 25 * c * (4 - n) =? 0
                       then dec false 0 (e - 2)
                       else dec (25 * c * (4 - n) <? 0)
                                (Z.abs (25 * c * (4 - n))) (e - 2)) zero = true).
      { apply le_zero_iff.
        destruct (Z.eqb_spec (25 * c * (4 - n)) 0) as [E0|E0].
        - rewrite signed_dec by lia. reflexivity.
        - destruct (Z.ltb_spec (25 * c * (4 - n)) 0) as [L0|L0]; [|nia].
          rewrite signed_dec by lia. lia. }
      rewrite LE. autorewrite with block. reflexivity.
Qed.

(** C2 (as amended).  For a positive amount and [steps >= 1] the scaled
    amount is never negative.  When moreover the products fit the 28
    significant digits of the Decimal context
    ([100 * coefficient * (steps + 1) < 10 ^ 28], exponent within the
    context's range), the scaler returns: in the favourable direction
    [amount * (1 + steps)]; in the unfavourable direction
    [amount * (4 - steps) / 4], that is [amount * (1 - 0.25 * steps)], when
    this is positive ([steps < 4]), and exactly [Decimal("0.0")] otherwise. *)
Theorem C2_scaled_amount side amount pc n :
  dsign amount = false -> 0 < coef amount -> 1 <= n ->
  (forall r, outcome (scale_amount side amount pc n) = Done r -> lt r zero = false)
  /\
  (100 * coef amount * (n + 1) < 10 ^ prec ->
   Etiny + 2 <= dexp amount <= Etop ->
   exists r,
     outcome (scale_amount side amount pc n) = Done r
     /\ if favorable side pc then value_times r amount (1 + n) 1
        else if n <? 4 then value_times r amount (4 - n) 4 /\ lt zero r = true
        else r = zero_amount).
Proof.
  intros SA CA Hn. split.
  - intros r. now apply scale_amount_nonneg.
  - intros Fit Rg.
    rewrite (scale_amount_exact side amount pc n SA CA Hn Fit Rg).
    assert (P28 : 0 < 10 ^ prec) by (apply pow10_gt0; unfold prec; lia).
    destruct (favorable side pc).
    + eexists. split; [reflexivity|].
      unfold value_times, scaled. rewrite dexp_dec, signed_dec by nia.
      unfold signed. rewrite SA.
      replace (Z.min (dexp amount - 1) (dexp amount)) with (dexp amount - 1) by lia.
      replace (dexp amount - 1 - (dexp amount - 1)) with 0 by lia.
      replace (dexp amount - (dexp amount - 1)) with 1 by lia.
      change (10 ^ 0) with 1. change (10 ^ 1) with 10. lia.
    + destruct (Z.ltb_spec n 4) as [L4|L4].
      * eexists. split; [reflexivity|]. split.
        -- unfold value_times, scaled. rewrite dexp_dec, signed_dec by nia.
           unfold signed. rewrite SA.
           replace (Z.min (dexp amount - 2) (dexp amount)) with (dexp amount - 2) by lia.
           replace (dexp amount - 2 - (dexp amount - 2)) with 0 by lia.
           replace (dexp amount - (dexp amount - 2)) with 2 by lia.
           change (10 ^ 0) with 1. change (10 ^ 2) with 100. lia.
        -- unfold lt, cmp. change (signed zero) with 0. change (dexp zero) with 0.
           rewrite Z.mul_0_l, dexp_dec, signed_dec by nia.
           assert (0 < 10 ^ (dexp amount - 2 - Z.min 0 (dexp amount - 2)))
             by (apply pow10_gt0; lia).
           destruct (Z.compare_spec 0
                       (25 * coef amount * (4 - n)
                        * 10 ^ (dexp amount - 2 - Z.min 0 (dexp amount - 2))));
             auto; nia.
      * eexists. split; reflexivity.
Qed.

Lemma C2_witness :
  exists r,
    outcome (scale_amount BUY (D 2 (-3)) (minus (D 125 (-1))) 2) = Done r
    /\ value_times r (D 2 (-3)) 3 1.
Proof.
  destruct (C2_scaled_amount BUY (D 2 (-3)) (minus (D 125 (-1))) 2
              eq_refl eq_refl ltac:(lia)) as (_ & H).
  destruct (H eq_refl ltac:(vm_compute; split; discriminate)) as (r & Hr & Hv).
  exists r. split; [exact Hr|exact Hv].
Defined.

(** C2 (as stated) fails beyond the precision of the context.  Buying
    9999999999999999999999999999 on a 5% dip (one favourable step) scales
    the amount to 2.000000000000000000000000000E+28, which is not twice the
    amount.  Buying 10^39 + 1 after a 20% rise (four unfavourable steps),
    where [amount * (1 - 0.25 * 4)] is 0, leaves a scaled amount of 1. *)
Lemma C2_counterexample :
  (steps_of (minus (D 50 (-1))) = Ok 1
   /\ favorable BUY (minus (D 50 (-1))) = true
   /\ outcome (scale_amount BUY nines28 (minus (D 50 (-1))) 1)
      = Done (D 2000000000000000000000000000 1)
   /\ ~ value_times (D 2000000000000000000000000000 1) nines28 (1 + 1) 1)
  /\
  (steps_of (D 200 (-1)) = Ok 4
   /\ favorable BUY (D 200 (-1)) = false
   /\ outcome (scale_amount BUY big40 (D 200 (-1)) 4) = Done (D 1 0)
   /\ D 1 0 <> zero_amount).
Proof.
  split; [split; [|split; [|split]]|split; [|split; [|split]]];
    try (vm_compute; reflexivity).
  - vm_compute. discriminate.
  - discriminate.
Qed.

(** ** The step count *)

Lemma strip_zeros_spec fuel : forall c e c' e',
  0 < c ->
  strip_zeros fuel c e = (c', e') ->
  exists j, 0 <= j <= Z.of_nat fuel /\ e' = e + j /\ c = c' * 10 ^ j /\ 0 < c'
            /\ (j < Z.of_nat fuel -> c' mod 10 <> 0).
Proof.
  induction fuel as [|f IH]; intros c e c' e' Hc; cbn [strip_zeros].
  - intros [= <- <-]. exists 0. change (10 ^ 0) with 1. simpl. lia.
  - destruct (Z.eqb_spec (c mod 10) 0) as [E|E].
    + intros H.
      assert (D : c = 10 * (c / 10)).
      { pose proof (Z.div_mod c 10 ltac:(lia)). lia. }
      assert (P : 0 < c / 10) by lia.
      destruct (IH _ _ _ _ P H) as (j & J1 & J2 & J3 & J4 & J5).
      exists (j + 1). rewrite pow10_succ by lia.
      repeat split; try lia; rewrite D at 1; rewrite J3; lia.
    + intros [= <- <-]. exists 0. change (10 ^ 0) with 1.
      repeat split; try lia.
Qed.

Lemma div_eucl_exact a b q :
  0 < b -> a = b * q -> Z.div_eucl a b = (q, 0).
Proof.
  intros Hb ->. pose proof (Z.div_eucl_eq (b * q) b ltac:(lia)) as E.
  pose proof (Z.mod_pos_bound (b * q) b Hb) as B.
  unfold Z.modulo in B. destruct (Z.div_eucl (b * q) b) as [q' r'].
  assert (r' = 0 /\ q' = q) as [-> ->]; [|reflexivity].
  assert (b * (q - q') = r') by lia.
  assert (q - q' = 0) by nia. lia.
Qed.

(* [|pc| < 5.0] in terms of the coefficient *)
Lemma below_step_size c e :
  0 < c ->
  lt (mkDecimal false (Z.to_N c) e) step_size = true ->
  2 * c < 10 ^ (1 - e) /\ e <= 0.
Proof.
  intros Hc. unfold lt, cmp, signed.
  change (dsign step_size) with false. change (coef step_size) with 50.
  change (dexp step_size) with (-1). cbn [dsign dexp]. unfold coef. cbn [dint].
  rewrite Z2N.id by lia.
  destruct (Z_le_gt_dec e (-1)) as [L|L].
  - replace (Z.min e (-1)) with e by lia. replace (e - e) with 0 by lia.
    change (10 ^ 0) with 1.
    replace (1 - e) with (-1 - e + 2) by lia.
    rewrite pow10_split by lia. change (10 ^ 2) with 100.
    destruct (Z.compare_spec (c * 1) (50 * 10 ^ (-1 - e))); try discriminate.
    intros _. lia.
  - replace (Z.min e (-1)) with (-1) by lia.
    replace (-1 - -1) with 0 by lia. change (10 ^ 0) with 1.
    replace (e - -1) with (e + 1) by lia. rewrite pow10_succ by lia.
    assert (P : 0 < 10 ^ e) by (apply pow10_gt0; lia).
    destruct (Z.compare_spec (c * (10 * 10 ^ e)) (50 * 1)); try discriminate.
    intros _.
    destruct (Z.eq_dec e 0) as [->|N].
    + change (10 ^ 0) with 1 in *. change (10 ^ (1 - 0)) with 10. lia.
    + assert (10 ^ 1 <= 10 ^ e) by (apply pow10_le; lia).
      change (10 ^ 1) with 10 in *. nia.
Qed.

Lemma Etiny_low : Etiny <= -29.
Proof. unfold Etiny, Emin, prec. lia. Qed.

(* a positive number below one that fits the context, or exceeds it by
   one digit, stays below one when it is rounded *)
Lemma fix_small s Q e :
  0 < Q < 2 * 10 ^ prec -> Q < 10 ^ (- e) ->
  exists q f,
    fix_ (dec s Q e) = Ok (dec s q f)
    /\ 0 <= q < 10 ^ prec /\ (0 < q -> q < 10 ^ (- f)) /\ Etiny <= f < 0.
Proof.
  intros HQ HV.
  assert (P28 : 10 ^ prec = 10 * 10 ^ 27) by reflexivity.
  assert (P27 : 0 < 10 ^ 27) by (apply pow10_gt0; lia).
  pose proof Etiny_low as ET.
  assert (EN : e < 0).
  { destruct (Z_lt_le_dec e 0); auto. exfalso.
    destruct (Z.eq_dec e 0) as [->|N].
    - change (10 ^ (- 0)) with 1 in HV. lia.
    - rewrite Z.pow_neg_r in HV by lia. lia. }
  assert (N29 : ndigits Q <= 29).
  { apply ndigits_le; try lia; change (10 ^ 29) with (10 * 10 ^ prec); lia. }
  destruct (Z_lt_le_dec e Etiny) as [SUB|NOR].
  - (* below the smallest exponent: rounded at [Etiny] *)
    assert (EX : (if ndigits Q + e - prec <? Etiny then Etiny
                  else ndigits Q + e - prec) = Etiny).
    { destruct (Z.ltb_spec (ndigits Q + e - prec) Etiny); auto.
      unfold prec in *. lia. }
    assert (FX : forall q,
              (let '(c, k) := if ndigits Q + e - Etiny <? 0 then (1, 1)
                              else (Q, Etiny - e) in
               round_half_even c k) = q ->
              0 <= q < 10 ^ prec ->
              fix_ (dec s Q e) = Ok (dec s q Etiny)).
    { intros q Hq QB.
      unfold fix_, is_zero. rewrite coef_dec, dexp_dec, dsign_dec by lia.
      destruct (Z.eqb_spec Q 0); [lia|]. cbv zeta.
      destruct (Z.ltb_spec Etop (ndigits Q + e - prec));
        [unfold Etop, Emax, prec in *; lia|].
      rewrite EX.
      destruct (Z.ltb_spec e Etiny); [|lia].
      destruct (ndigits Q + e - Etiny <? 0); rewrite Hq.
      all: assert (NQ : ndigits q <= prec)
        by (destruct (Z.eq_dec q 0) as [->|NZ];
            [rewrite ndigits_zero; unfold prec; lia
            |apply ndigits_le; unfold prec in *; lia]).
      all: destruct (Z.ltb_spec prec (ndigits q)); [lia|].
      all: destruct (Z.ltb_spec Etop Etiny); [unfold Etop, Emax, prec in *; lia|].
      all: reflexivity. }
    assert (BIG : 10 ^ prec <= 10 ^ (- Etiny)).
    { apply pow10_le. unfold prec. lia. }
    destruct (ndigits Q + e - Etiny <? 0).
    + exists 0, Etiny. split; [apply FX; [reflexivity|lia]|].
      split; [lia|]. split; [lia|lia].
    + destruct (round_half_even_spec Q (Etiny - e) ltac:(lia) ltac:(lia))
        as (R0 & R1 & _).
      assert (10 <= 10 ^ (Etiny - e)).
      { change 10 with (10 ^ 1) at 1. apply pow10_le. lia. }
      assert (QB : round_half_even Q (Etiny - e) <= Q) by nia.
      assert (QS : round_half_even Q (Etiny - e) < 10 ^ prec) by nia.
      exists (round_half_even Q (Etiny - e)), Etiny.
      split; [apply FX; [reflexivity|lia]|].
      split; [lia|]. split; [lia|lia].
  - destruct (Z_lt_le_dec Q (10 ^ prec)) as [S|B].
    + exists Q, e. split; [|split; [lia|split; [auto|lia]]].
      apply fix_id; rewrite ?dexp_dec, ?coef_dec by lia; try lia.
      * apply ndigits_le; unfold prec; lia.
      * unfold adjusted. rewrite dexp_dec, coef_dec by lia.
        assert (ndigits Q <= - e) by (apply ndigits_le; lia).
        unfold Emax. lia.
    + (* 29 digits: one digit is rounded away *)
      assert (ND : ndigits Q = 29).
      { assert (28 < ndigits Q) by (apply ndigits_ge; unfold prec in *; lia).
        lia. }
      assert (E29 : e <= -29).
      { destruct (Z_le_gt_dec e (-29)); auto.
        assert (10 ^ (- e) <= 10 ^ 28) by (apply pow10_le; lia).
        change (10 ^ 28) with (10 ^ prec) in H. lia. }
      destruct (round_half_even_spec Q 1 ltac:(lia) ltac:(lia)) as (R0 & R1 & _).
      change (10 ^ 1) with 10 in R1.
      set (q := round_half_even Q 1) in *.
      assert (QB : 10 ^ 27 <= q <= 2 * 10 ^ 27) by lia.
      exists q, (e + 1).
      assert (NQ : ndigits q <= prec).
      { apply ndigits_le; unfold prec; lia. }
      split; [|split; [lia|split; [|lia]]].
      * unfold fix_, is_zero. rewrite coef_dec, dexp_dec, dsign_dec by lia.
        destruct (Z.eqb_spec Q 0); [lia|]. cbv zeta. rewrite ND.
        replace (29 + e - prec) with (e + 1) by (unfold prec; lia).
        destruct (Z.ltb_spec Etop (e + 1)); [unfold Etop, Emax, prec in *; lia|].
        destruct (Z.ltb_spec (e + 1) Etiny); [lia|].
        destruct (Z.ltb_spec e (e + 1)); [|lia].
        replace (29 + e - (e + 1)) with 28 by lia.
        change (28 <? 0) with false. cbv iota beta.
        replace (e + 1 - e) with 1 by lia. fold q.
        destruct (Z.ltb_spec prec (ndigits q)); [lia|].
        destruct (Z.ltb_spec Etop (e + 1)); [lia|]. reflexivity.
      * intros _. assert (10 ^ 28 <= 10 ^ (- (e + 1))) by (apply pow10_le; lia).
        change (10 ^ 28) with (10 * 10 ^ 27) in H. lia.
Qed.

Lemma floor_small q f : 0 < q < 10 ^ (- f) -> f < 0 -> floor (dec false q f) = 0.
Proof.
  intros HQ HF. unfold floor, rescale, is_zero.
  rewrite coef_dec, dexp_dec, dsign_dec by lia.
  destruct (Z.eqb_spec q 0); [lia|].
  destruct (Z.leb_spec 0 f); [lia|]. cbv zeta.
  destruct (ndigits q + f - 0 <? 0); cbv iota beta;
    unfold round_digits, round_floor; simpl andb; cbv iota.
  - reflexivity.
  - replace (0 - f) with (- f) by lia.
    rewrite Z.div_small by lia. reflexivity.
Qed.

(* [|pc| < 5.0] written with at most 28 significant digits gives no step *)
Lemma steps_of_small pc :
  ndigits (coef pc) <= prec ->
  lt (mkDecimal false (dint pc) (dexp pc)) step_size = true ->
  steps_of pc = Ok 0.
Proof.
  intros ND LT. unfold steps_of, div.
  change (is_zero step_size) with false. cbv iota.
  destruct (is_zero pc) eqn:Z0.
  { rewrite fix_zero by (rewrite coef_dec; lia). cbn [exc_bind].
    unfold abs. rewrite fix_zero by reflexivity. cbn [exc_bind].
    reflexivity. }
  apply is_zero_false in Z0.
  set (c := coef pc) in *. set (e := dexp pc) in *.
  assert (LT' : lt (mkDecimal false (Z.to_N c) e) step_size = true).
  { unfold c, coef. now rewrite N2Z.id. }
  destruct (below_step_size c e Z0 LT') as (B1 & B2).
  change (ndigits (coef step_size)) with 2. change (coef step_size) with 50.
  change (dexp step_size) with (-1). cbv zeta.
  set (shift := 2 - ndigits c + prec + 1).
  assert (SH : 3 <= shift) by (subst shift; unfold prec in *; lia).
  destruct (Z.leb_spec 0 shift); [|lia].
  assert (P2 : 0 < 10 ^ (shift - 2)) by (apply pow10_gt0; lia).
  rewrite (div_eucl_exact (c * 10 ^ shift) 50 (2 * c * 10 ^ (shift - 2)));
    [|lia|].
  2:{ replace shift with (shift - 2 + 2) at 1 by lia.
      rewrite pow10_split by lia. change (10 ^ 2) with 100. lia. }
  change (0 =? 0) with true. cbv iota. simpl negb. cbv iota.
  destruct (strip_zeros (Z.to_nat (e - -1 - (e - -1 - shift)))
              (2 * c * 10 ^ (shift - 2)) (e - -1 - shift)) as [Q1 e1] eqn:SZ.
  apply strip_zeros_spec in SZ; [|nia].
  destruct SZ as (j & J1 & J2 & J3 & J4 & J5).
  rewrite Z2Nat.id in J1, J5 by lia.
  replace (e - -1 - (e - -1 - shift)) with shift in J1, J5 by lia.
  (* at least [shift - 2] zeros have been removed *)
  assert (JL : shift - 2 <= j).
  { destruct (Z_le_gt_dec (shift - 2) j); auto. exfalso.
    apply J5; [lia|].
    assert (Q1 = 2 * c * 10 ^ (shift - 2 - j - 1) * 10).
    { assert (PJ : 0 < 10 ^ j) by (apply pow10_gt0; lia).
      replace (shift - 2) with (shift - 2 - j - 1 + 1 + j) in J3 by lia.
      rewrite pow10_split, pow10_succ in J3 by lia. nia. }
    rewrite H0. apply Z.mod_mul. lia. }
  set (k := j - (shift - 2)).
  assert (K : 0 <= k <= 2) by (subst k; lia).
  assert (QK : Q1 * 10 ^ k = 2 * c).
  { assert (PJ : 0 < 10 ^ (shift - 2)) by (apply pow10_gt0; lia).
    replace j with (k + (shift - 2)) in J3 by (subst k; lia).
    rewrite pow10_split in J3 by lia. nia. }
  assert (E1 : e1 = e - 1 + k) by (subst k; lia).
  assert (PK : 0 < 10 ^ k) by (apply pow10_gt0; lia).
  assert (V1 : Q1 < 10 ^ (- e1)).
  { assert (Q1 * 10 ^ k < 10 ^ (- e1 + k)).
    { rewrite QK. replace (- e1 + k) with (1 - e) by lia. exact B1. }
    destruct (Z_lt_le_dec (- e1) 0) as [N|N].
    - exfalso. assert (10 ^ (- e1 + k) <= 10 ^ k).
      { destruct (Z_lt_le_dec (- e1 + k) 0).
        - rewrite Z.pow_neg_r by lia. lia.
        - apply pow10_le; lia. }
      nia.
    - rewrite pow10_split in H0 by lia.
      assert (0 < 10 ^ (- e1)) by (apply pow10_gt0; lia). nia. }
  assert (QB : 0 < Q1 < 2 * 10 ^ prec).
  { split; [lia|].
    assert (c < 10 ^ prec).
    { destruct (ndigits_spec c Z0) as (U0 & _ & U).
      assert (10 ^ ndigits c <= 10 ^ prec) by (apply pow10_le; lia). lia. }
    nia. }
  destruct (fix_small (xorb (dsign pc) (dsign step_size)) Q1 e1 QB V1)
    as (q & f & FX & Fq & Fv & Ff).
  rewrite FX. cbn [exc_bind]. unfold abs.
  assert (AB : mkDecimal false (dint (dec (xorb (dsign pc) (dsign step_size)) q f))
                 (dexp (dec (xorb (dsign pc) (dsign step_size)) q f))
               = dec false q f) by reflexivity.
  rewrite AB, fix_id_bound by (unfold Etop, Emax, prec in *; lia).
  cbn [exc_bind].
  destruct (Z.eq_dec q 0) as [->|NZ].
  - unfold floor, rescale, is_zero. rewrite coef_dec by lia. reflexivity.
  - rewrite floor_small by lia. reflexivity.
Qed.

(** C4 (as amended).  With dynamic DCA requested: a percent change with
    [|percent_change| < 5.0] that is written with at most 28 significant
    digits gives [steps = 0]; and whenever [steps = 0], the block only asks for the
    ticker and prints the two values, the amount is unchanged,
    [is_dynamic_dca] becomes false, and everything after the block is what
    the same command line without [-d] would run. *)
Theorem C4_no_step_no_scaling a e :
  dynamic_dca a = true ->
  let pc := priceChangePercent e in
  (ndigits (coef pc) <= prec ->
   lt (copy_abs pc) step_size = true ->
   steps_of pc = Ok 0)
  /\
  (steps_of pc = Ok 0 ->
   let d := mkDca (amount a) false (Some (mkScaling pc 0 (amount a))) in
   dynamic_dca_block a e =
     ([Get_ticker (market_name a); Print (T_dynamic_dca pc 0)], Done d)
   /\ dynamic_dca_block (without_dynamic_dca a) e
      = ret (mkDca (amount a) false None)
   /\ forall v,
        trade a e v d
        = trade (without_dynamic_dca a) e v (mkDca (amount a) false None)).
Proof.
  intros DD pc. split.
  - intros ND LT. now apply steps_of_small.
  - intros S0. cbv zeta. split; [|split].
    + unfold dynamic_dca_block. rewrite DD. fold pc. rewrite S0. reflexivity.
    + reflexivity.
    + intros v. reflexivity.
Qed.

Lemma C4_witness :
  dynamic_dca_block (sample_args true false false) calm_env
  = ([Get_ticker "ETHBTC"; Print (T_dynamic_dca (D 32 (-1)) 0)],
     Done (mkDca (D 2 (-3)) false (Some (mkScaling (D 32 (-1)) 0 (D 2 (-3)))))).
Proof.
  destruct (C4_no_step_no_scaling (sample_args true false false) calm_env eq_refl)
    as (H1 & H2).
  assert (S0 : steps_of (priceChangePercent calm_env) = Ok 0).
  { apply H1.
    - vm_compute. discriminate.
    - reflexivity. }
  exact (proj1 (H2 S0)).
Defined.

(** C4 (as stated) fails beyond the precision of the context.  The percent
    change 4.99999999999999999999999999999 is below 5.0, but its quotient
    by 5.0 rounds to 1 in 28 digits: the step count is 1, a buy of 0.002 is
    scaled down to 0.00150 and [is_dynamic_dca] stays true. *)
Lemma C4_counterexample :
  lt (copy_abs almost5) step_size = true
  /\ steps_of almost5 = Ok 1
  /\ outcome (dynamic_dca_block (sample_args true false false) almost5_env)
     = Done (mkDca (D 150 (-5)) true
               (Some (mkScaling almost5 1 (D 2 (-3))))).
Proof. vm_compute. repeat split; reflexivity. Qed.

(** ** The order validator and the exact product *)

(** C3.  With the globals of the market assigned, the validator computes
    [order_value] as the Decimal product of the base quantity and the price
    (a product of the context, rounded to 28 significant digits), quantized
    to [quote_asset_precision] decimal places: the result has exponent
    [- quote_asset_precision] and is the product rounded to the nearest
    unit of that place, ties to even.  When the coefficient of the exact
    product has at most 28 digits, the Decimal product is the exact product,
    so that [order_value] is the exact value of quantity times price rounded
    to nearest.  The order is rejected exactly when
    [order_value < base_min_size]: then the rest of the run is the rejection
    message, followed when dynamic DCA is in effect by the cancellation
    summary (percent change, steps, market, side, scaled and original
    amount, currency) and its guarded notification, and the run exits
    without any order submission; otherwise the validator reports the order
    value and the submission follows.  When the Decimal arithmetic signals
    instead of returning a value, the run ends there with that exception.
    In any run that prints the rejection message the outcome is [exit()]
    and no order was submitted. *)
Theorem C3_order_validator a e v d p q prec m b qc :
  quote_asset_precision v = Some prec ->
  base_min_size v = Some m ->
  base_currency v = Some b ->
  quote_currency v = Some qc ->
  (is_dynamic_dca d = true -> scaling d <> None) ->
  match order_value_of q p prec with
  | Err x => settle a e v d p q = raise x
  | Ok ov =>
      (0 <= prec
       /\ exists x,
            mul q p = Ok x
            /\ quantize x (dec false 1 (- prec)) = Ok ov
            /\ dexp ov = - prec
            /\ rounded_to_nearest x ov
            /\ ties_to_even x ov
            /\ (coef q * coef p < 10 ^ PyDecimal.prec ->
                Etiny <= dexp q + dexp p <= Etop ->
                x = exact_product q p
                /\ rounded_to_nearest (exact_product q p) ov
                /\ ties_to_even (exact_product q p) ov))
      /\
      (if lt ov m then
         let message := T_below_min_notional q b p qc ov m in
         settle a e v d p q = (rejection_trace a e d message, Exited)
         /\ Forall (fun ev => is_submission ev = false)
                   (rejection_trace a e d message)
         /\ (is_dynamic_dca d = true ->
             exists s,
               scaling d = Some s
               /\ In (Print (T_canceled_summary (percent_change s) (steps s)
                               (market_name a) (order_side a) (dca_amount d)
                               (orig_amount s) (amount_currency a)))
                     (rejection_trace a e d message))
       else
         validate a e v d p q = ([Print (T_order_value ov qc)], Done ov)
         /\ exists ev,
              In ev (trace (settle a e v d p q)) /\ is_submission ev = true)
  end
  /\
  (forall q' b' p' qc' ov' m',
     In (Print (T_below_min_notional q' b' p' qc' ov' m')) (trace (main a e)) ->
     outcome (main a e) = Exited
     /\ Forall (fun ev => is_submission ev = false) (trace (main a e))).
Proof.
  intros P M B Q S.
  split; [|intros; eapply main_rejected; eauto].
  pose proof (validate_spec a e v d p q prec m b qc P M B Q S) as V.
  destruct (order_value_of q p prec) as [ov|x] eqn:OV.
  2:{ unfold settle. rewrite V. reflexivity. }
  split.
  { destruct (order_value_of_spec q p prec ov OV) as (P0 & x & MU & QU & EX & RN).
    split; [exact P0|]. exists x.
    pose proof (quantize_ties_to_even _ _ _ QU) as TE.
    repeat (split; [assumption|]).
    intros FITS RANGE.
    assert (X : x = exact_product q p).
    { rewrite (mul_exact q p FITS RANGE) in MU. injection MU as <-. reflexivity. }
    rewrite <- X. auto. }
  destruct (lt ov m) eqn:L.
  - cbv zeta. split; [eapply settle_rejected; eauto|].
    split; [apply rejection_trace_no_submission; reflexivity|].
    intros D. destruct (scaling d) as [s|] eqn:ES; [|now destruct (S D)].
    exists s. split; auto.
    unfold rejection_trace. rewrite D, ES. unfold canceled_summary.
    simpl. auto.
  - split; [exact V|].
    rewrite (settle_accepted a e v d p q prec m b qc ov) by auto.
    destruct (execute_submits a e v p q) as (ev & t & ET & IS).
    exists ev. split; auto.
    cbn [trace fst]. right. apply in_trace_bind_l.
    fold (trace (execute a e v p q)). rewrite ET. simpl. auto.
Qed.

Lemma C3_witness :
  settle (sample_args true false false) sample_env ethbtc_vars halved
         (D 5 (-2)) (D 1 (-3))
  = (rejection_trace (sample_args true false false) sample_env halved
       (T_below_min_notional (D 1 (-3)) "ETH" (D 5 (-2)) "BTC" (D 5000 (-8)) (D 1 (-4))),
     Exited)
  /\ rounded_to_nearest (exact_product (D 1 (-3)) (D 5 (-2))) (D 5000 (-8)).
Proof.
  assert (S : is_dynamic_dca halved = true -> scaling halved <> None)
    by (intros _; discriminate).
  pose proof (proj1 (C3_order_validator (sample_args true false false)
           sample_env ethbtc_vars halved (D 5 (-2)) (D 1 (-3)) 8 (D 1 (-4))
           "ETH" "BTC" eq_refl eq_refl eq_refl eq_refl S)) as H.
  split; [exact (proj1 (proj2 H))|].
  destruct (proj1 H) as (_ & x & _ & _ & _ & _ & _ & PR).
  refine (proj1 (proj2 (PR _ _))).
  - vm_compute. reflexivity.
  - split; vm_compute; discriminate.
Defined.

(* A price of 30 digits: the Decimal product of 1 and
   1.00000000500000000000000000001 is rounded to 28 digits, which lands on
   the tie 1.000000005, and the quantization then goes to the even
   1.00000000; the exact product rounds to 1.00000001.  With a minimum
   notional of 1.00000001 the order is rejected although the exact value,
   rounded to nearest, is not below the minimum. *)
Lemma C3_counterexample :
  order_value_of (D 1 0) long_price 8 = Ok (D 100000000 (-8))
  /\ ~ rounded_to_nearest (exact_product (D 1 0) long_price) (D 100000000 (-8))
  /\ rounded_to_nearest (exact_product (D 1 0) long_price) (D 100000001 (-8))
  /\ lt (D 100000000 (-8)) (D 100000001 (-8)) = true
  /\ lt (D 100000001 (-8)) (D 100000001 (-8)) = false.
Proof.
  split; [vm_compute; reflexivity|].
  split; [intros H; vm_compute in H; apply H; reflexivity|].
  split; [vm_compute; discriminate|].
  split; vm_compute; reflexivity.
Qed.

(** * Further properties of the script *)

(** ** Counting events, and the events of each part *)

Lemma count_app p t1 t2 :
  count p (t1 ++ t2) = (count p t1 + count p t2)%nat.
Proof. unfold count. rewrite filter_app, length_app. reflexivity. Qed.

Lemma count_none p t :
  Forall (fun ev => p ev = false) t -> count p t = O.
Proof.
  unfold count. induction 1 as [|ev t H _ IH]; simpl; auto.
  rewrite H. exact IH.
Qed.

Lemma count_cons p ev t :
  count p (ev :: t) = ((if p ev then 1 else 0) + count p t)%nat.
Proof. unfold count. simpl. destruct (p ev); reflexivity. Qed.

Lemma count_bind {A B} p (m : M A) (f : A -> M B) :
  count p (trace (bind m f)) =
  match outcome m with
  | Done a => (count p (trace m) + count p (trace (f a)))%nat
  | _ => count p (trace m)
  end.
Proof. rewrite trace_bind. destruct (outcome m); auto using count_app. Qed.

Lemma resolve_events a e : Forall resolve_event (trace (resolve a e)).
Proof.
  unfold resolve. forall_trace; try (right; reflexivity); try (left; reflexivity).
  apply Forall_trace_foldM. intros s x. unfold market_step.
  forall_trace; try (right; reflexivity).
  - apply Forall_trace_foldM. intros s' f. unfold filter_step, Decimal_of.
    forall_trace.
  - unfold check_filters. forall_trace.
  - unfold check_amount_currency. forall_trace.
Qed.

Lemma confirm_events a e : Forall confirm_event (trace (confirm a e)).
Proof.
  unfold confirm. forall_trace; try (right; reflexivity); left; reflexivity.
Qed.

Lemma dynamic_events a e : Forall dynamic_event (trace (dynamic_dca_block a e)).
Proof.
  unfold dynamic_dca_block. forall_trace; try (right; reflexivity).
  - left; eexists; reflexivity.
  - unfold scale_amount. forall_trace; right; reflexivity.
Qed.

Lemma price_events a e v : Forall price_event (trace (get_market_price a e v)).
Proof.
  unfold get_market_price, top_price.
  forall_trace; try (right; reflexivity); left; eexists; reflexivity.
Qed.

Lemma size_events v amount p :
  Forall (fun ev => is_print ev = true) (trace (size_order v amount p)).
Proof. unfold size_order. forall_trace; reflexivity. Qed.

Lemma notify_events a e s m : Forall report_event (trace (notify a e s m)).
Proof. unfold notify. forall_trace. left; reflexivity. Qed.

Lemma validate_events a e v d p q :
  Forall report_event (trace (validate a e v d p q)).
Proof.
  unfold validate. forall_trace; try (right; reflexivity). apply notify_events.
Qed.

Lemma summarize_events a e v d o s :
  Forall report_event (trace (summarize a e v d o s)).
Proof.
  unfold summarize. forall_trace; try (right; reflexivity); apply notify_events.
Qed.

(* everything before the order book is consulted *)
Lemma prelude_events a e :
  Forall (fun ev => resolve_event ev \/ confirm_event ev \/ dynamic_event ev)
         (trace (prelude a e)).
Proof.
  unfold prelude. forall_trace; try (left; right; reflexivity).
  - eapply Forall_impl; [|apply resolve_events]. auto.
  - eapply Forall_impl; [|apply confirm_events]. auto.
  - eapply Forall_impl; [|apply dynamic_events]. auto.
Qed.

(** ** The confirmation prompt (lines 232-237) *)

Lemma confirm_declined a e :
  live_mode a = true -> job_mode a = false ->
  input_response e <> "Y"%string ->
  confirm a e =
  ([Print T_separator; Input "Live purchase! Confirm Y/[n]: "; Print T_exiting],
   Exited).
Proof.
  intros L J R. unfold confirm. rewrite L, J. simpl andb. cbv iota.
  apply String.eqb_neq in R. rewrite R. reflexivity.
Qed.

(** X1.  In live mode without [--job], an answer to the prompt other than
    the exact text "Y" stops the run: no ticker or order-book request is
    made, no order is sized or submitted, and the run does not end
    normally.  When the market constraints resolve, the run asks, prints
    "Exiting without submitting orders." and ends by [exit()]. *)
Theorem X1_declined_confirmation a e :
  live_mode a = true -> job_mode a = false ->
  input_response e <> "Y"%string ->
  Forall no_fetch_no_order (trace (main a e))
  /\ outcome (main a e) <> Done tt
  /\ (forall v,
        outcome (resolve a e) = Done v ->
        outcome (main a e) = Exited
        /\ In (Input "Live purchase! Confirm Y/[n]: ") (trace (main a e))
        /\ In (Print T_exiting) (trace (main a e))).
Proof.
  intros L J R. pose proof (confirm_declined a e L J R) as C.
  split; [|split].
  - unfold main. forall_trace; try (repeat split; reflexivity).
    + apply resolve_quiet.
    + rewrite C. repeat constructor.
    + rewrite C in H2. discriminate.
    + rewrite C in H2. discriminate.
  - unfold main. rewrite !outcome_bind. rewrite outcome_emit, banner_done, C.
    destruct (outcome (resolve a e)); discriminate.
  - intros v OR.
    assert (E : main a e =
                ((Print (T_started a)
                   :: trace (if negb (live_mode a)
                             then emit (Print T_not_live_banner) else ret tt)
                   ++ trace (resolve a e)
                   ++ [Print T_separator; Input "Live purchase! Confirm Y/[n]: ";
                       Print T_exiting])%list,
                 Exited)).
    { unfold main. rewrite C.
      destruct (resolve a e) as [tr o]. simpl in OR. subst o.
      rewrite L. reflexivity. }
    rewrite E. split; [reflexivity|]. cbn [trace fst].
    split; right; apply in_or_app; right; apply in_or_app; right; simpl; auto.
Qed.

Lemma X1_witness :
  outcome (main live_args declining_env) = Exited
  /\ Forall no_fetch_no_order (trace (main live_args declining_env)).
Proof.
  assert (R : input_response declining_env <> "Y"%string) by discriminate.
  destruct (X1_declined_confirmation live_args declining_env eq_refl eq_refl R)
    as (F & _ & H).
  split; [|exact F].
  refine (proj1 (H _ _)). vm_compute. reflexivity.
Defined.

Lemma execute_events a e v p q :
  Forall (fun ev => is_submission ev = true \/ report_event ev)
         (trace (execute a e v p q)).
Proof.
  unfold execute, first_fill.
  forall_trace; try (left; reflexivity); try (right; right; reflexivity).
  eapply Forall_impl; [|apply notify_events]. auto.
Qed.

Lemma settle_events a e v d p q :
  Forall (fun ev => is_submission ev = true \/ report_event ev)
         (trace (settle a e v d p q)).
Proof.
  unfold settle. forall_trace.
  - eapply Forall_impl; [|apply validate_events]. auto.
  - apply execute_events.
  - eapply Forall_impl; [|apply summarize_events]. auto.
Qed.

Lemma trade_events a e v d :
  Forall (fun ev => price_event ev \/ is_submission ev = true \/ report_event ev)
         (trace (trade a e v d)).
Proof.
  unfold trade. forall_trace.
  - eapply Forall_impl; [|apply price_events]. auto.
  - eapply Forall_impl; [|apply size_events]. unfold report_event. auto.
  - eapply Forall_impl; [|apply settle_events]. tauto.
Qed.

(* an event class that excludes [p] leaves no [p] in the trace *)
Lemma count_class (P : Event -> Prop) p t :
  Forall P t -> (forall ev, P ev -> p ev = false) -> count p t = O.
Proof.
  intros F H. apply count_none. eapply Forall_impl; [|exact F]. exact H.
Qed.

Ltac class_excludes :=
  let ev := fresh "ev" in
  intros ev;
  unfold resolve_event, confirm_event, dynamic_event, price_event, report_event;
  destruct ev; simpl;
  repeat match goal with
         | |- _ -> _ => intros [?|?]
         | H : exists _, _ |- _ => destruct H
         | H : _ \/ _ |- _ => destruct H
         end;
  try reflexivity; try discriminate; try congruence.

(** X2.  The operator is asked at most once, and only in live mode without
    [--job]; the question is put before any ticker or order-book request. *)
Theorem X2_prompt_only_when_live_and_attended a e :
  (count is_input (trace (main a e)) <= 1)%nat
  /\ (forall prompt, In (Input prompt) (trace (main a e)) ->
        live_mode a = true /\ job_mode a = false)
  /\ (forall t1 t2 ev, trace (main a e) = (t1 ++ ev :: t2)%list ->
        is_input ev = true ->
        Forall (fun ev' => is_price_fetch ev' = false) t1).
Proof.
  assert (QC : (count is_input (trace (confirm a e)) <= 1)%nat
               /\ (forall prompt, In (Input prompt) (trace (confirm a e)) ->
                     live_mode a = true /\ job_mode a = false)).
  { unfold confirm. destruct (live_mode a), (job_mode a); simpl andb; cbv iota;
      try (split; [unfold count; simpl; lia|intros p []]).
    destruct (negb (input_response e =? "Y")%string);
      (split; [unfold count; simpl; lia|auto]). }
  destruct QC as (QC1 & QC2).
  assert (ZR : count is_input (trace (resolve a e)) = O).
  { apply (count_class _ _ _ (resolve_events a e)). class_excludes. }
  assert (ZD : count is_input (trace (dynamic_dca_block a e)) = O).
  { apply (count_class _ _ _ (dynamic_events a e)). class_excludes. }
  assert (ZT : forall v d, count is_input (trace (trade a e v d)) = O).
  { intros. apply (count_class _ _ _ (trade_events a e v d)). class_excludes. }
  split; [|split].
  - assert (ZB : count is_input (trace (if negb (live_mode a)
                                         then emit (Print T_not_live_banner)
                                         else ret tt)) = O)
      by (destruct (live_mode a); reflexivity).
    unfold main. rewrite count_bind, outcome_emit.
    change (count is_input (trace (emit (Print (T_started a))))) with O.
    rewrite count_bind, banner_done, ZB, count_bind, ZR.
    destruct (outcome (resolve a e)); try lia.
    rewrite count_bind. destruct (outcome (confirm a e)); try lia.
    rewrite count_bind, ZD.
    destruct (outcome (dynamic_dca_block a e)); rewrite ?ZT; lia.
  - intros prompt H. unfold main in H. rewrite trace_bind_emit in H.
    destruct H as [H|H]; [discriminate|].
    apply in_trace_bind in H. destruct H as [H|(x & _ & H)].
    { destruct (live_mode a); simpl in H; intuition discriminate. }
    apply in_trace_bind in H. destruct H as [H|(v & _ & H)].
    { pose proof (resolve_events a e) as F. rewrite Forall_forall in F.
      apply F in H. destruct H; discriminate. }
    apply in_trace_bind in H. destruct H as [H|(y & _ & H)]; [exact (QC2 _ H)|].
    apply in_trace_bind in H. destruct H as [H|(d & _ & H)].
    { pose proof (dynamic_events a e) as F. rewrite Forall_forall in F.
      apply F in H. destruct H as [[s H]|H]; discriminate. }
    pose proof (trade_events a e v d) as F. rewrite Forall_forall in F.
    apply F in H. unfold price_event, report_event in H.
    destruct H as [[[s H]|H]|[H|[H|H]]]; discriminate.
  - intros t1 t2 ev E I.
    assert (S : exists pre post,
               trace (main a e) = (pre ++ post)%list
               /\ Forall (fun ev' => is_price_fetch ev' = false) pre
               /\ Forall (fun ev' => is_input ev' = false) post).
    { unfold main. rewrite trace_bind_emit, trace_bind, banner_done, trace_bind.
      pose proof (resolve_events a e) as FR.
      pose proof (confirm_events a e) as FC.
      set (b := trace (if negb (live_mode a) then emit (Print T_not_live_banner)
                       else ret tt)).
      assert (FB : Forall (fun ev' => is_price_fetch ev' = false) b).
      { subst b. destruct (live_mode a); repeat constructor. }
      assert (FR' : Forall (fun ev' => is_price_fetch ev' = false)
                           (trace (resolve a e))).
      { eapply Forall_impl; [|exact FR]. class_excludes. }
      assert (FC' : Forall (fun ev' => is_price_fetch ev' = false)
                           (trace (confirm a e))).
      { eapply Forall_impl; [|exact FC]. class_excludes. }
      destruct (outcome (resolve a e)) as [v| |].
      2,3: exists (Print (T_started a) :: b ++ trace (resolve a e))%list, [];
           rewrite app_nil_r; repeat split; auto;
           constructor; [reflexivity|apply Forall_app; auto].
      rewrite trace_bind.
      destruct (outcome (confirm a e)) as [[]| |].
      2,3: exists (Print (T_started a) :: b ++ trace (resolve a e)
                     ++ trace (confirm a e))%list, [];
           rewrite app_nil_r; repeat split; auto;
           constructor; [reflexivity|repeat (apply Forall_app; split; auto)].
      rewrite trace_bind.
      exists (Print (T_started a) :: b ++ trace (resolve a e)
                ++ trace (confirm a e))%list,
             (match outcome (dynamic_dca_block a e) with
              | Done d => trace (dynamic_dca_block a e) ++ trace (trade a e v d)
              | _ => trace (dynamic_dca_block a e)
              end)%list.
      split; [|split].
      - rewrite <- app_comm_cons, <- !app_assoc. reflexivity.
      - constructor; [reflexivity|repeat (apply Forall_app; split; auto)].
      - assert (FD : Forall (fun ev' => is_input ev' = false)
                            (trace (dynamic_dca_block a e))).
        { eapply Forall_impl; [|apply dynamic_events]. class_excludes. }
        destruct (outcome (dynamic_dca_block a e)); auto.
        apply Forall_app; split; auto.
        eapply Forall_impl; [|apply trade_events]. class_excludes. }
    destruct S as (pre & post & E' & FP & FQ).
    rewrite E' in E.
    (* the prompt lies in [pre], so [t1] is a prefix of [pre] *)
    clear E'. revert t1 E. induction FP as [|x pre Hx FP IH]; intros t1 E.
    + simpl in E. exfalso. rewrite Forall_forall in FQ.
      assert (In ev post) by (rewrite E; apply in_or_app; right; left; reflexivity).
      apply FQ in H. congruence.
    + destruct t1 as [|y t1]; [constructor|].
      simpl in E. injection E as -> E. constructor; auto.
Qed.

Lemma X2_witness :
  live_mode live_args = true /\ job_mode live_args = false.
Proof.
  assert (H : In (Input "Live purchase! Confirm Y/[n]: ")
                 (trace (main live_args declining_env))) by (vm_compute; tauto).
  exact (proj1 (proj2 (X2_prompt_only_when_live_and_attended _ _)) _ H).
Defined.

(** ** Submission (lines 325-349) *)

Lemma execute_shape a e v p q :
  exists t, trace (execute a e v p q) = submission a q :: t
            /\ Forall report_event t.
Proof.
  unfold execute, submission.
  destruct (negb (live_mode a)); [|destruct (is_buy (order_side a))];
    rewrite trace_bind_emit; eexists; (split; [reflexivity|]).
  - forall_trace; right; reflexivity.
  - unfold first_fill. forall_trace; try (right; reflexivity); apply notify_events.
  - unfold first_fill. forall_trace; try (right; reflexivity); apply notify_events.
Qed.

Lemma submission_is_submission a q : is_submission (submission a q) = true.
Proof.
  unfold submission. destruct (negb (live_mode a)), (is_buy (order_side a));
    reflexivity.
Qed.

Lemma submission_fits_submission a q : submission_fits a (submission a q).
Proof.
  unfold submission. destruct (live_mode a) eqn:L, (order_side a) eqn:S;
    simpl; rewrite ?L, ?S; auto.
Qed.

Lemma report_not_submission ev : report_event ev -> is_submission ev = false.
Proof. revert ev. class_excludes. Qed.

Lemma settle_submission_count a e v d p q :
  (count is_submission (trace (settle a e v d p q)) <= 1)%nat.
Proof.
  unfold settle. rewrite count_bind.
  rewrite (count_class _ _ _ (validate_events a e v d p q) report_not_submission).
  destruct (outcome (validate a e v d p q)); try lia.
  rewrite count_bind.
  destruct (execute_shape a e v p q) as (t & -> & F).
  rewrite count_cons, submission_is_submission,
          (count_class _ _ _ F report_not_submission).
  destruct (outcome (execute a e v p q)) as [[o s]| |]; try lia.
  rewrite (count_class _ _ _ (summarize_events a e v d o s) report_not_submission).
  lia.
Qed.

Lemma trade_submission_count a e v d :
  (count is_submission (trace (trade a e v d)) <= 1)%nat.
Proof.
  unfold trade. rewrite count_bind.
  rewrite (count_class _ _ _ (price_events a e v)) by class_excludes.
  destruct (outcome (get_market_price a e v)) as [p| |]; try lia.
  rewrite count_bind.
  rewrite (count_class _ _ _ (size_events v (dca_amount d) p))
    by (intros []; simpl; congruence).
  destruct (outcome (size_order v (dca_amount d) p)) as [q| |]; try lia.
  pose proof (settle_submission_count a e v d p q). lia.
Qed.

Lemma prelude_no_submission a e :
  Forall (fun ev => is_submission ev = false) (trace (prelude a e)).
Proof.
  eapply Forall_impl; [|apply prelude_events].
  intros ev H. unfold resolve_event, confirm_event, dynamic_event in H.
  destruct ev; simpl in *; auto;
    destruct H as [[H|H]|[[H|H]|[[s H]|H]]]; congruence.
Qed.

(** X3.  A run hands at most one order to the exchange.  Without [--live]
    it can only be a test order; with [--live] it is [order_market_buy] for
    BUY and [order_market_sell] for SELL; in each case for the market and
    side of the command line. *)
Theorem X3_one_submission_in_the_mode_of_the_run a e :
  (count is_submission (trace (main a e)) <= 1)%nat
  /\ Forall (submission_fits a) (trace (main a e)).
Proof.
  split.
  - destruct (main_shape a e) as [(E & _)|(v & d & _ & E & _)]; rewrite E.
    + rewrite (count_none _ _ (prelude_no_submission a e)). lia.
    + rewrite count_app, (count_none _ _ (prelude_no_submission a e)).
      apply trade_submission_count.
  - assert (R : forall ev, report_event ev -> submission_fits a ev)
      by (intros [] [?|?]; simpl in *; auto; discriminate).
    destruct (main_shape a e) as [(E & _)|(v & d & _ & E & _)]; rewrite E.
    + eapply Forall_impl; [|apply prelude_no_submission].
      intros [] ?; simpl in *; auto; discriminate.
    + apply Forall_app; split.
      * eapply Forall_impl; [|apply prelude_no_submission].
        intros [] ?; simpl in *; auto; discriminate.
      * unfold trade. forall_trace.
        -- eapply Forall_impl; [|apply price_events].
           intros [] [[? ?]|?]; simpl in *; auto; discriminate.
        -- eapply Forall_impl; [|apply size_events].
           intros [] ?; simpl in *; auto; discriminate.
        -- unfold settle. forall_trace.
           ++ eapply Forall_impl; [|apply validate_events]. exact R.
           ++ destruct (execute_shape a e v a0 a1) as (t & -> & F).
              constructor; [apply submission_fits_submission|].
              eapply Forall_impl; [|exact F]. exact R.
           ++ eapply Forall_impl; [|apply summarize_events]. exact R.
Qed.

(* a block that a report follows holds no submission *)
Lemma In_report_not_submission ev t :
  Forall report_event t -> In ev t -> is_submission ev = true -> False.
Proof.
  intros F I S. rewrite Forall_forall in F.
  apply F, report_not_submission in I. congruence.
Qed.

(** X4.  Whatever order a run submits has passed both earlier steps: its
    quantity is the one the sizing step computed from the (possibly scaled)
    amount and the order-book price, and the notional value of that
    quantity, quantized to the quote precision, is not below the market's
    minimum notional. *)
Theorem X4_submitted_order_was_sized_and_validated a e ev :
  In ev (trace (main a e)) ->
  is_submission ev = true ->
  exists v d p iq inc q prec m ov,
    outcome (prelude a e) = Done (v, d)
    /\ best_price a e = Some p
    /\ amount_currency_is_quote_currency v = Some iq
    /\ base_increment v = Some inc
    /\ base_currency_amount_of iq (dca_amount d) p inc = Ok q
    /\ ev = submission a q
    /\ quote_asset_precision v = Some prec
    /\ base_min_size v = Some m
    /\ order_value_of q p prec = Ok ov
    /\ lt ov m = false.
Proof.
  intros I S.
  assert (T : is_trade_event ev = true) by (destruct ev; simpl in *; congruence).
  destruct (main_trade_event a e ev I T) as (v & d & OP & IT & _).
  destruct (prelude_done a e v d OP) as (_ & _ & R & SC).
  pose proof (trade_spec a e v d R) as TS.
  destruct (best_price a e) as [p|] eqn:BP.
  2:{ rewrite TS in IT. simpl in IT. destruct IT as [<-|[]]. discriminate. }
  destruct TS as (qc & iq & inc & b & Q & IQ & INC & B & TS).
  destruct (base_currency_amount_of iq (dca_amount d) p inc) as [q|x] eqn:BA.
  2:{ rewrite TS in IT. simpl in IT.
      destruct IT as [<-|[<-|[]]]; discriminate. }
  rewrite TS in IT. cbn [trace fst] in IT.
  destruct IT as [<-|[<-|[<-|IT]]]; try discriminate.
  destruct R as (_ & _ & _ & PR & (m & MS & _) & _).
  destruct (quote_asset_precision v) as [prec|] eqn:PREC; [|congruence].
  assert (SC' : is_dynamic_dca d = true -> scaling d <> None).
  { intros H. destruct (SC H) as (s & ->). discriminate. }
  destruct (order_value_of q p prec) as [ov|x] eqn:OV.
  2:{ exfalso. pose proof (validate_spec a e v d p q prec m b qc PREC MS B Q SC') as V.
      rewrite OV in V.
      destruct (settle_validate a e v d p q) as (SV & _).
      rewrite V in SV. simpl in SV. rewrite SV in IT. simpl in IT. exact IT. }
  destruct (lt ov m) eqn:LT.
  { exfalso.
    rewrite (settle_rejected a e v d p q prec m b qc ov PREC MS B Q SC' OV LT) in IT.
    cbn [trace fst] in IT.
    pose proof (rejection_trace_no_submission a e d
                  (T_below_min_notional q b p qc ov m) eq_refl) as F.
    rewrite Forall_forall in F. apply F in IT. congruence. }
  rewrite (settle_accepted a e v d p q prec m b qc ov PREC MS B Q SC' OV LT) in IT.
  cbn [trace fst] in IT. destruct IT as [<-|IT]; [discriminate|].
  exists v, d, p, iq, inc, q, prec, m, ov.
  repeat (split; [assumption || reflexivity|]).
  split; [|repeat split; assumption || reflexivity].
  apply in_trace_bind in IT. destruct IT as [IT|([o s] & _ & IT)].
  - destruct (execute_shape a e v p q) as (t & E & F). rewrite E in IT.
    destruct IT as [<-|IT]; [reflexivity|].
    exfalso. exact (In_report_not_submission _ _ F IT S).
  - exfalso. exact (In_report_not_submission _ _ (summarize_events a e v d o s) IT S).
Qed.

Lemma X4_witness :
  exists q ov,
    base_currency_amount_of true (D 2 (-3)) (D 5 (-2)) (D 1 (-3)) = Ok q
    /\ order_value_of q (D 5 (-2)) 8 = Ok ov
    /\ lt ov (D 1 (-4)) = false.
Proof.
  assert (I : In (Create_test_order "ETHBTC" BUY (D 40 (-3)))
                 (trace (main (sample_args false false false) sample_env)))
    by (vm_compute; tauto).
  destruct (X4_submitted_order_was_sized_and_validated _ _ _ I eq_refl)
    as (v & d & p & iq & inc & q & prec & m & ov
        & OP & BP & IQ & INC & BA & _ & PREC & MS & OV & LT).
  vm_compute in OP, BP. injection OP as <- <-. injection BP as <-.
  vm_compute in IQ, INC, PREC, MS.
  injection IQ as <-. injection INC as <-. injection PREC as <-. injection MS as <-.
  exists q, ov. auto.
Defined.

(** ** The stages of a run *)

Lemma main_after_prelude a e v d :
  outcome (prelude a e) = Done (v, d) ->
  main a e = ((trace (prelude a e) ++ trace (trade a e v d))%list,
              outcome (trade a e v d)).
Proof.
  intros OP. rewrite main_split. unfold bind.
  unfold outcome in OP. rewrite OP. simpl. destruct (trade a e v d); reflexivity.
Qed.

Lemma main_stage a e : Early a e \/ Late a e.
Proof.
  destruct (outcome (prelude a e)) as [[v d]| |] eqn:OP.
  2,3: left; apply Stopped_early;
       [ intros x; congruence
       | rewrite main_split, trace_bind, OP; reflexivity
       | rewrite main_split, outcome_bind, OP; discriminate ].
  pose proof (main_after_prelude a e v d OP) as MA.
  destruct (prelude_done a e v d OP) as (_ & _ & R & SC).
  pose proof (trade_spec a e v d R) as TS.
  destruct (best_price a e) as [p|] eqn:BP.
  2:{ left. eapply No_price; eauto. rewrite MA, TS. reflexivity. }
  destruct TS as (qc & iq & inc & b & Q & IQ & INC & B & TS).
  destruct (base_currency_amount_of iq (dca_amount d) p inc) as [q|x] eqn:BA.
  2:{ left. eapply Not_sized; eauto. rewrite MA, TS. reflexivity. }
  pose proof R as (_ & _ & _ & PR & (m & MS & _) & _).
  destruct (quote_asset_precision v) as [prec|] eqn:PREC; [|congruence].
  assert (SC' : is_dynamic_dca d = true -> scaling d <> None).
  { intros H. destruct (SC H) as (s & ->). discriminate. }
  destruct (order_value_of q p prec) as [ov|x] eqn:OV.
  2:{ left. eapply Not_valued; eauto. rewrite MA, TS. cbn [trace outcome fst snd].
      pose proof (validate_spec a e v d p q prec m b qc PREC MS B Q SC') as V.
      rewrite OV in V.
      destruct (settle_validate a e v d p q) as (SV & _).
      rewrite V in SV. simpl in SV. rewrite SV. reflexivity. }
  destruct (lt ov m) eqn:LT.
  - left. eapply Rejected; eauto. rewrite MA, TS. cbn [trace outcome fst snd].
    rewrite (settle_rejected a e v d p q prec m b qc ov PREC MS B Q SC' OV LT).
    reflexivity.
  - right. eapply Accepted; eauto. rewrite MA, TS. cbn [trace outcome fst snd].
    rewrite (settle_accepted a e v d p q prec m b qc ov PREC MS B Q SC' OV LT).
    reflexivity.
Qed.

(** ** Submission and summary of a validated order (lines 325-423) *)

Lemma summarize_spec a e v d o shown qc s :
  quote_currency v = Some qc ->
  summary_text a d qc o shown = Some s ->
  summarize a e v d o shown = (closing a e s o, Done tt).
Proof.
  intros Q S. unfold summarize, summary_text, closing in *. rewrite Q.
  pose proof (notify_done a e s (T_order o)) as ND.
  destruct (is_dynamic_dca d).
  - destruct (scaling d) as [sc|]; [|discriminate]. injection S as <-.
    autorewrite with block.
    destruct (notify a e _ (T_order o)) as [tn on]. simpl in ND. subst on.
    destruct (live_mode a); reflexivity.
  - injection S as <-. autorewrite with block.
    destruct (notify a e _ (T_order o)) as [tn on]. simpl in ND. subst on.
    destruct (live_mode a); reflexivity.
Qed.

Lemma finish_simulated a e v d p q :
  live_mode a = false ->
  finish a e v d p q =
  match test_order e with
  | Err x => ([submission a q], Raised x)
  | Ok o =>
      ((submission a q
          :: (if order_truthy o then [Print (T_order o)] else [])
          ++ trace (summarize a e v d o (ShownDecimal p)))%list,
       outcome (summarize a e v d o (ShownDecimal p)))
  end.
Proof.
  intros L. unfold finish, execute, submission. rewrite L. cbn [negb].
  destruct (test_order e) as [o|x]; [|reflexivity].
  destruct (summarize a e v d o (ShownDecimal p)) as [ts os] eqn:S.
  unfold bind. cbn [lift fst snd emit ret app].
  destruct (order_truthy o); cbn [fst snd emit ret app]; rewrite S; reflexivity.
Qed.

Lemma finish_live a e v d p q m :
  live_mode a = true ->
  market v = Some m ->
  finish a e v d p q =
  match market_order e with
  | Err (BinanceAPIException msg) =>
      ((submission a q :: Print (T_unable_to_place_because m msg)
          :: trace (notify a e (T_unable_to_place m) (T_exception msg)))%list,
       Exited)
  | Err x => ([submission a q], Raised x)
  | Ok o =>
      match fills o with
      | None =>
          ([submission a q; Print (T_order o)],
           Raised (TypeError "'NoneType' object is not subscriptable"))
      | Some [] => ([submission a q; Print (T_order o)], Raised IndexError)
      | Some (f :: _) =>
          ((submission a q :: Print (T_order o)
              :: trace (summarize a e v d o (ShownText (fill_price f))))%list,
           outcome (summarize a e v d o (ShownText (fill_price f))))
      end
  end.
Proof.
  intros L MK. unfold finish, execute, submission, first_fill.
  rewrite L, MK. cbn [negb].
  destruct (market_order e) as [o|x].
  - destruct (fills o) as [[|f fs]|];
      destruct (is_buy (order_side a)); try reflexivity;
      destruct (summarize a e v d o (ShownText (fill_price f))) as [ts os] eqn:S;
      unfold bind; cbn [fst snd emit ret app]; rewrite S; reflexivity.
  - destruct x; destruct (is_buy (order_side a)); try reflexivity;
      rewrite read_Some, bind_ret;
      pose proof (notify_done a e (T_unable_to_place m) (T_exception msg)) as ND;
      destruct (notify a e (T_unable_to_place m) (T_exception msg)) as [tn on];
      simpl in ND; subst on;
      unfold bind; cbn [emit exit_ ret fst snd app trace];
      rewrite ?app_nil_r; reflexivity.
Qed.

(** ** What each stage of a run holds *)

Lemma count_nil p : count p [] = O.
Proof. reflexivity. Qed.

Ltac count_simpl :=
  repeat (rewrite count_app || rewrite count_cons || rewrite count_nil).

Ltac count_eval := cbn [is_submission is_summary is_publish].

Lemma notify_counts a e s m :
  count is_submission (trace (notify a e s m)) = O
  /\ count is_summary (trace (notify a e s m)) = O
  /\ (count is_publish (trace (notify a e s m)) <= 1)%nat.
Proof.
  unfold notify. destruct (sns_topic e) as [t|]; [|cbn; lia].
  destruct (negb (t =? "")%string && live_mode a); cbn; lia.
Qed.

Lemma notify_not_live a e s m : live_mode a = false -> notify a e s m = ret tt.
Proof.
  intros L. unfold notify. rewrite L. destruct (sns_topic e); auto.
  now rewrite andb_false_r.
Qed.

Lemma summary_text_some a d qc o shown :
  (is_dynamic_dca d = true -> exists s, scaling d = Some s) ->
  exists s, summary_text a d qc o shown = Some s /\ is_summary (Print s) = true.
Proof.
  intros SC. unfold summary_text. destruct (is_dynamic_dca d).
  - destruct (SC eq_refl) as (s & ->). eexists; split; reflexivity.
  - eexists; split; reflexivity.
Qed.

Lemma closing_counts a e s o :
  is_summary (Print s) = true ->
  count is_submission (closing a e s o) = O
  /\ count is_summary (closing a e s o) = 1%nat
  /\ (count is_publish (closing a e s o) <= 1)%nat.
Proof.
  intros S. destruct (notify_counts a e s (T_order o)) as (N1 & N2 & N3).
  unfold closing. destruct (live_mode a); cbn [negb]; count_simpl;
    rewrite N1, N2, S; count_eval; lia.
Qed.

Lemma prelude_no_summary a e :
  Forall (fun ev => is_summary ev = false) (trace (prelude a e)).
Proof.
  unfold prelude. forall_trace; try reflexivity.
  - unfold resolve. forall_trace; try reflexivity.
    apply Forall_trace_foldM. intros s x. unfold market_step.
    forall_trace; try reflexivity.
    + rewrite foldM_silent by apply filter_step_trace. constructor.
    + rewrite check_filters_trace. constructor.
    + rewrite check_amount_currency_trace. constructor.
  - unfold confirm. forall_trace; reflexivity.
  - unfold dynamic_dca_block. forall_trace; try reflexivity.
    unfold scale_amount. forall_trace; reflexivity.
Qed.

Lemma prelude_no_publish a e :
  Forall (fun ev => is_publish ev = false) (trace (prelude a e)).
Proof.
  eapply Forall_impl; [|apply prelude_events].
  intros ev H. unfold resolve_event, confirm_event, dynamic_event in H.
  destruct ev; simpl in *; auto;
    destruct H as [[H|H]|[[H|H]|[[s H]|H]]]; congruence.
Qed.

Lemma rejection_counts a e d msg :
  is_summary (Print msg) = false ->
  count is_submission (rejection_trace a e d msg) = O
  /\ count is_summary (rejection_trace a e d msg) = O
  /\ (count is_publish (rejection_trace a e d msg) <= 1)%nat.
Proof.
  intros S. unfold rejection_trace.
  destruct (is_dynamic_dca d); [destruct (scaling d) as [s|]|];
    count_simpl; rewrite ?S; count_eval; try lia.
  destruct (notify_counts a e (canceled_summary a d s) msg) as (-> & -> & N).
  unfold canceled_summary in *. count_eval. lia.
Qed.

(* the counts of a run that ends before anything is submitted *)
Lemma early_counts a e :
  Early a e ->
  count is_submission (trace (main a e)) = O
  /\ count is_summary (trace (main a e)) = O
  /\ (count is_publish (trace (main a e)) <= 1)%nat
  /\ outcome (main a e) <> Done tt
  /\ (forall x, outcome (main a e) = Raised x ->
                count is_publish (trace (main a e)) = O).
Proof.
  pose proof (count_none _ _ (prelude_no_submission a e)) as P1.
  pose proof (count_none _ _ (prelude_no_summary a e)) as P2.
  pose proof (count_none _ _ (prelude_no_publish a e)) as P3.
  intros [N T O|v d _ _ E|v d p qc iq inc x _ _ _ _ _ _ E
          |v d p qc iq inc q b prec x _ _ _ _ _ _ _ _ _ E
          |v d p qc iq inc q b prec m ov _ _ _ _ _ _ _ _ _ _ _ E].
  - rewrite T, P1, P2, P3. repeat split; auto.
  - rewrite E. cbn [trace outcome fst snd].
    rewrite !count_app, P1, P2, P3. unfold count; simpl.
    repeat split; auto; discriminate.
  - rewrite E. cbn [trace outcome fst snd].
    rewrite !count_app, P1, P2, P3. unfold count; simpl.
    repeat split; auto; discriminate.
  - rewrite E. cbn [trace outcome fst snd].
    rewrite !count_app, P1, P2, P3. unfold count; simpl.
    repeat split; auto; discriminate.
  - rewrite E. cbn [trace outcome fst snd].
    destruct (rejection_counts a e d (T_below_min_notional q b p qc ov m) eq_refl)
      as (R1 & R2 & R3).
    rewrite !count_app, P1, P2, P3, R1, R2.
    unfold count at 1 2 3; simpl.
    repeat split; auto; discriminate.
Qed.

(* the counts of the submission and what follows it *)
Lemma finish_counts a e v d p q qc m :
  quote_currency v = Some qc ->
  market v = Some m ->
  (is_dynamic_dca d = true -> exists s, scaling d = Some s) ->
  count is_submission (trace (finish a e v d p q)) = 1%nat
  /\ count is_summary (trace (finish a e v d p q))
     = match outcome (finish a e v d p q) with Done _ => 1%nat | _ => O end
  /\ (count is_publish (trace (finish a e v d p q)) <= 1)%nat
  /\ (forall x, outcome (finish a e v d p q) = Raised x ->
                count is_publish (trace (finish a e v d p q)) = O).
Proof.
  intros Q MK SC.
  assert (SS : forall o shown, exists s,
             summarize a e v d o shown = (closing a e s o, Done tt)
             /\ is_summary (Print s) = true).
  { intros o shown. destruct (summary_text_some a d qc o shown SC) as (s & S & I).
    exists s. split; auto. apply summarize_spec with (qc := qc); auto. }
  pose proof (submission_is_submission a q) as SB.
  assert (SP : is_publish (submission a q) = false /\ is_summary (submission a q) = false).
  { unfold submission. destruct (negb (live_mode a)), (is_buy (order_side a));
      split; reflexivity. }
  destruct SP as (SP1 & SP2).
  destruct (live_mode a) eqn:L.
  - rewrite (finish_live a e v d p q m L MK).
    destruct (market_order e) as [o|x].
    + destruct (fills o) as [[|f fs]|]; cbn [trace outcome fst snd];
        rewrite ?count_cons, ?SB, ?SP1, ?SP2;
        try (unfold count; simpl; repeat split; auto; lia).
      destruct (SS o (ShownText (fill_price f))) as (s & -> & I).
      cbn [trace outcome fst snd].
      destruct (closing_counts a e s o I) as (-> & -> & C).
      simpl. repeat split; auto; try lia. discriminate.
    + destruct x; cbn [trace outcome fst snd];
        rewrite ?count_cons, ?SB, ?SP1, ?SP2;
        try (unfold count; simpl; repeat split; auto; lia).
      destruct (notify_counts a e (T_unable_to_place m) (T_exception msg))
        as (-> & -> & N).
      simpl. repeat split; auto; try lia. discriminate.
  - rewrite (finish_simulated a e v d p q L).
    destruct (test_order e) as [o|x]; cbn [trace outcome fst snd];
      rewrite ?count_cons, ?SB, ?SP1, ?SP2;
      try (unfold count; simpl; repeat split; auto; lia).
    destruct (SS o (ShownDecimal p)) as (s & -> & I).
    cbn [trace outcome fst snd]. rewrite !count_app.
    destruct (closing_counts a e s o I) as (-> & -> & C).
    assert (C0 : count is_publish (closing a e s o) = O).
    { unfold closing. rewrite (notify_not_live a e s (T_order o) L), L.
      unfold count; simpl. destruct (is_publish (Print s)); reflexivity. }
    rewrite C0.
    destruct (order_truthy o); unfold count; simpl;
      repeat split; auto; try lia; discriminate.
Qed.

(* the counts of a run whose order passes the validator *)
Lemma late_counts a e :
  Late a e ->
  count is_submission (trace (main a e)) = 1%nat
  /\ count is_summary (trace (main a e))
     = match outcome (main a e) with Done _ => 1%nat | _ => O end
  /\ (count is_publish (trace (main a e)) <= 1)%nat
  /\ (forall x, outcome (main a e) = Raised x ->
                count is_publish (trace (main a e)) = O).
Proof.
  pose proof (count_none _ _ (prelude_no_submission a e)) as P1.
  pose proof (count_none _ _ (prelude_no_summary a e)) as P2.
  pose proof (count_none _ _ (prelude_no_publish a e)) as P3.
  intros [v d p qc iq inc q b prec m ov OP _ Q _ _ _ _ _ _ _ _ E].
  destruct (prelude_done a e v d OP) as (_ & _ & R & SC).
  destruct R as (MK & _).
  destruct (market v) as [mk|] eqn:MKE; [|congruence].
  destruct (finish_counts a e v d p q qc mk Q MKE SC) as (F1 & F2 & F3 & F4).
  rewrite E. cbn [trace outcome fst snd].
  rewrite !count_app, !count_cons, P1, P2, P3, F1, F2.
  unfold sized, priced, count at 1 2 3; simpl.
  repeat split; auto.
Qed.

(** X5.  A run publishes at most one notification, and a run that ends with
    an uncaught exception has published none: a failure that is not the
    exchange's refusal of a live order is never reported to the topic. *)
Theorem X5_at_most_one_notification a e :
  (count is_publish (trace (main a e)) <= 1)%nat
  /\ (forall x, outcome (main a e) = Raised x ->
                count is_publish (trace (main a e)) = O).
Proof.
  destruct (main_stage a e) as [E|L].
  - destruct (early_counts a e E) as (_ & _ & P & _ & R). auto.
  - destruct (late_counts a e L) as (_ & _ & P & R). auto.
Qed.

Lemma X5_witness :
  count is_publish (trace (main live_args unfilled_env)) = O.
Proof.
  apply (proj2 (X5_at_most_one_notification live_args unfilled_env) IndexError).
  vm_compute. reflexivity.
Defined.

(** X6.  The order summary is printed exactly when the run ends normally,
    and then once; a run that ends normally has handed exactly one order to
    the exchange. *)
Theorem X6_summary_iff_completed a e :
  count is_summary (trace (main a e))
  = match outcome (main a e) with Done _ => 1%nat | _ => O end
  /\ (outcome (main a e) = Done tt ->
      count is_submission (trace (main a e)) = 1%nat).
Proof.
  destruct (main_stage a e) as [E|L].
  - destruct (early_counts a e E) as (_ & S & _ & N & _).
    split; [|intros D; congruence].
    rewrite S. destruct (outcome (main a e)) as [[]| |]; congruence.
  - destruct (late_counts a e L) as (S & Y & _). auto.
Qed.

Lemma X6_witness :
  count is_submission (trace (main live_args sample_env)) = 1%nat.
Proof.
  apply (proj2 (X6_summary_iff_completed live_args sample_env)).
  vm_compute. reflexivity.
Defined.

(** ** The loop variable [market] (lines 197, 351-353) *)

Lemma market_step_market a v m v' :
  outcome (market_step a v m) = Done v' -> market v' = Some m.
Proof.
  unfold market_step.
  destruct (symbol m =? market_name a)%string.
  - intros H.
    apply outcome_bind_done in H. destruct H as (v1 & H1 & H).
    apply outcome_bind_done in H. destruct H as ([] & H2 & H).
    apply outcome_bind_done in H. destruct H as (v2 & H3 & H).
    autorewrite with block in H. inversion H; subst v2. clear H.
    apply filter_loop_assets in H1. destruct H1 as (_ & _ & _ & K & _).
    apply check_amount_currency_done in H3. destruct H3 as (b & ->).
    simpl. rewrite K. reflexivity.
  - intros H. inversion H. reflexivity.
Qed.

Lemma market_loop_market a ms : forall v v',
  outcome (foldM (market_step a) v ms) = Done v' ->
  market v' = match hd_error (rev ms) with
              | Some m => Some m
              | None => market v
              end.
Proof.
  induction ms as [|m ms IH]; intros v v' H.
  - inversion H. reflexivity.
  - simpl in H. apply outcome_bind_done in H. destruct H as (v1 & H1 & H2).
    apply market_step_market in H1. apply IH in H2. rewrite H2, H1.
    simpl rev. destruct (rev ms); reflexivity.
Qed.

(* after the loop, [market] is the last record of the list, whatever its
   symbol *)
Lemma resolve_market a e v :
  outcome (resolve a e) = Done v ->
  exists m, last_listed e = Some m /\ market v = Some m.
Proof.
  intros H. pose proof (resolve_done a e v H) as (MK & _).
  unfold resolve in H. autorewrite with block in H.
  apply outcome_bind_done in H. destruct H as (v1 & H1 & H).
  apply outcome_bind_done in H. destruct H as (d1 & H2 & H).
  autorewrite with block in H.
  apply outcome_bind_done in H. destruct H as (d2 & H3 & H).
  autorewrite with block in H.
  apply outcome_bind_done in H. destruct H as (d3 & H4 & H).
  autorewrite with block in H. inversion H; subst v1. clear H.
  apply market_loop_market in H1. unfold last_listed.
  destruct (hd_error (rev (exchange_info e))) as [m|]; [eauto|].
  simpl in H1. congruence.
Qed.

Lemma count_zero_In p t ev : count p t = O -> In ev t -> p ev = true -> False.
Proof.
  unfold count. intros C I P.
  assert (F : In ev (filter p t)) by (apply filter_In; auto).
  destruct (filter p t); [exact F|discriminate].
Qed.

(* a run in which something is submitted is one whose order passed the
   validator *)
Lemma submitting_run_late a e ev :
  In ev (trace (main a e)) -> is_submission ev = true -> Late a e.
Proof.
  intros I S. destruct (main_stage a e) as [E|L]; auto.
  destruct (early_counts a e E) as (C & _).
  destruct (count_zero_In _ _ _ C I S).
Qed.

(** X7.  When the exchange refuses a live order with a
    [BinanceAPIException], the run reports the failure and ends by [exit()]
    without printing a summary.  The report, and the notification published
    when a topic is configured, carry the exception's message and, as
    [market], the last record of the exchange's symbol list (the value the
    loop variable is left with), whichever market was traded. *)
Theorem X7_refused_live_order a e msg ev :
  live_mode a = true ->
  market_order e = Err (BinanceAPIException msg) ->
  In ev (trace (main a e)) ->
  is_submission ev = true ->
  outcome (main a e) = Exited
  /\ count is_summary (trace (main a e)) = O
  /\ exists m,
       last_listed e = Some m
       /\ In (Print (T_unable_to_place_because m msg)) (trace (main a e))
       /\ forall t, sns_topic e = Some t -> t <> ""%string ->
            In (Sns_publish t (T_unable_to_place m) (T_exception msg))
               (trace (main a e)).
Proof.
  intros L MO I S.
  pose proof (submitting_run_late a e ev I S) as LT.
  destruct (late_counts a e LT) as (_ & SM & _).
  destruct LT as [v d p qc iq inc q b prec m ov OP _ Q _ _ _ _ _ _ _ _ E].
  destruct (prelude_done a e v d OP) as (OR & _).
  destruct (resolve_market a e v OR) as (mk & LL & MK).
  rewrite (finish_live a e v d p q mk L MK), MO in E.
  cbn [trace outcome fst snd] in E.
  assert (O : outcome (main a e) = Exited) by (rewrite E; reflexivity).
  split; [exact O|]. split; [rewrite SM, O; reflexivity|].
  exists mk. split; [exact LL|]. rewrite E. cbn [trace fst]. split.
  - apply in_or_app; right. apply in_or_app; right. simpl. auto.
  - intros t T NE. apply in_or_app; right. apply in_or_app; right.
    right. right. right. unfold notify. rewrite T, L.
    apply String.eqb_neq in NE. rewrite NE. simpl. auto.
Qed.

Lemma X7_witness :
  outcome (main live_args refusing_env) = Exited
  /\ In (Print (T_unable_to_place_because adabtc "Account has insufficient balance"))
        (trace (main live_args refusing_env)).
Proof.
  assert (I : In (Order_market_buy "ETHBTC" (D 40 (-3)))
                 (trace (main live_args refusing_env)))
    by (vm_compute; tauto).
  destruct (X7_refused_live_order live_args refusing_env _ _
              eq_refl eq_refl I eq_refl) as (O & _ & m & LL & P & _).
  split; [exact O|].
  vm_compute in LL. injection LL as <-. exact P.
Defined.

(** X8.  A live order whose reply carries no fill (no [fills] key, or an
    empty list) has been placed and printed when line 387 raises: the run
    ends with that exception, prints no summary and publishes nothing. *)
Theorem X8_live_order_without_fill a e o x ev :
  live_mode a = true ->
  market_order e = Ok o ->
  outcome (first_fill o) = Raised x ->
  In ev (trace (main a e)) ->
  is_submission ev = true ->
  outcome (main a e) = Raised x
  /\ In (Print (T_order o)) (trace (main a e))
  /\ count is_summary (trace (main a e)) = O
  /\ count is_publish (trace (main a e)) = O.
Proof.
  intros L MO FF I S.
  pose proof (submitting_run_late a e ev I S) as LT.
  destruct (late_counts a e LT) as (_ & SM & _ & PB).
  destruct LT as [v d p qc iq inc q b prec m ov OP _ Q _ _ _ _ _ _ _ _ E].
  destruct (prelude_done a e v d OP) as (OR & _).
  destruct (resolve_market a e v OR) as (mk & LL & MK).
  rewrite (finish_live a e v d p q mk L MK), MO in E.
  assert (O : outcome (main a e) = Raised x
              /\ In (Print (T_order o)) (trace (main a e))).
  { rewrite E. unfold first_fill in FF.
    destruct (fills o) as [[|f fs]|]; try discriminate;
      cbn [trace outcome fst snd]; simpl in FF; (split; [congruence|]);
      apply in_or_app; right; apply in_or_app; right; simpl; auto. }
  destruct O as (O & P).
  split; [exact O|]. split; [exact P|]. split.
  - rewrite SM, O. reflexivity.
  - apply (PB x O).
Qed.

Lemma X8_witness :
  outcome (main live_args unfilled_env) = Raised IndexError.
Proof.
  assert (I : In (Order_market_buy "ETHBTC" (D 40 (-3)))
                 (trace (main live_args unfilled_env)))
    by (vm_compute; tauto).
  exact (proj1 (X8_live_order_without_fill live_args unfilled_env _ IndexError _
                  eq_refl eq_refl eq_refl I eq_refl)).
Defined.

(** ** The summary (lines 389-411) *)

(* [amount] and [is_dynamic_dca] after lines 241-272 *)
Lemma dynamic_dca_block_result a e d :
  outcome (dynamic_dca_block a e) = Done d ->
  (dynamic_dca a = false /\ d = mkDca (amount a) false None)
  \/ (dynamic_dca a = true
      /\ exists n, steps_of (priceChangePercent e) = Ok n
         /\ let s := mkScaling (priceChangePercent e) n (amount a) in
            (n <= 0 /\ d = mkDca (amount a) false (Some s))
            \/ (0 < n
                /\ exists amt,
                     outcome (scale_amount (order_side a) (amount a)
                                (priceChangePercent e) n) = Done amt
                     /\ d = mkDca amt true (Some s))).
Proof.
  unfold dynamic_dca_block. destruct (dynamic_dca a).
  - intros H. right. split; [reflexivity|].
    autorewrite with block in H.
    apply outcome_bind_done in H. destruct H as (n & H1 & H).
    apply outcome_lift_done in H1. exists n. split; [exact H1|].
    autorewrite with block in H.
    destruct (0 <? n) eqn:P.
    + right. apply Z.ltb_lt in P. split; [exact P|].
      apply outcome_bind_done in H. destruct H as (amt & H2 & H).
      inversion H. eauto.
    + left. apply Z.ltb_ge in P. inversion H. auto.
  - intros H. inversion H. auto.
Qed.

Lemma notify_no_print a e s m t : In (Print t) (trace (notify a e s m)) -> False.
Proof.
  unfold notify. destruct (sns_topic e) as [tp|]; [|intros []].
  destruct (negb (tp =? "")%string && live_mode a); simpl;
    intuition discriminate.
Qed.

Lemma submission_is_summary a q : is_summary (submission a q) = false.
Proof.
  unfold submission. destruct (negb (live_mode a)), (is_buy (order_side a));
    reflexivity.
Qed.

(** X9.  The summary reports the run as it went.  The plain form shows the
    requested amount and appears only when no scaling applied (no
    [--dynamic_dca], or a 24h change of less than one step); the Dynamic DCA
    form shows the ticker's percent change, the positive number of steps,
    the scaled and the original amount.  In both, the status is that of the
    exchange's reply and the price is the order-book price in simulation and
    the text of the first fill's price in live mode. *)
Theorem X9_summary_reports_the_run a e :
  (forall mn side amt cur st shown qc,
      In (Print (T_plain_summary mn side amt cur st shown qc)) (trace (main a e)) ->
      mn = market_name a /\ side = order_side a /\ amt = amount a
      /\ cur = amount_currency a
      /\ (dynamic_dca a = false
          \/ exists n, steps_of (priceChangePercent e) = Ok n /\ n <= 0)
      /\ reported a e st shown)
  /\ (forall pc n mn side amt orig cur st shown qc,
      In (Print (T_dca_summary pc n mn side amt orig cur st shown qc))
         (trace (main a e)) ->
      mn = market_name a /\ side = order_side a /\ cur = amount_currency a
      /\ dynamic_dca a = true
      /\ pc = priceChangePercent e /\ steps_of pc = Ok n /\ 0 < n
      /\ orig = amount a
      /\ outcome (scale_amount side orig pc n) = Done amt
      /\ reported a e st shown).
Proof.
  assert (K : forall s, In (Print s) (trace (main a e)) ->
            is_summary (Print s) = true ->
            exists d qc o shown,
              outcome (dynamic_dca_block a e) = Done d
              /\ summary_text a d qc o shown = Some s
              /\ reported a e (status o) shown).
  { intros s I S.
    destruct (main_stage a e) as [E|L].
    { destruct (early_counts a e E) as (_ & C & _).
      destruct (count_zero_In _ _ _ C I S). }
    destruct L as [v d p qc iq inc q b prec m ov OP BP Q _ _ _ _ _ _ _ _ E].
    destruct (prelude_done a e v d OP) as (OR & OD & _ & SC).
    destruct (resolve_market a e v OR) as (mk & _ & MK).
    assert (SS : forall o shown, exists s',
               summarize a e v d o shown = (closing a e s' o, Done tt)
               /\ summary_text a d qc o shown = Some s').
    { intros o shown.
      destruct (summary_text_some a d qc o shown SC) as (s' & S' & _).
      exists s'. split; auto. apply summarize_spec with (qc := qc); auto. }
    assert (CL : forall s' o, In (Print s) (closing a e s' o) -> s = s').
    { intros s' o H. unfold closing in H.
      apply in_app_or in H. destruct H as [H|H].
      - destruct (notify_no_print _ _ _ _ _ H).
      - destruct H as [H|[H|H]].
        + inversion H; subst s. discriminate.
        + inversion H. reflexivity.
        + destruct (live_mode a); simpl in H; [destruct H|].
          destruct H as [H|[]]. inversion H; subst s. discriminate. }
    assert (PRE : In (Print s) (trace (prelude a e)) -> False).
    { intros H. pose proof (prelude_no_summary a e) as F.
      rewrite Forall_forall in F. apply F in H. congruence. }
    rewrite E in I. cbn [trace fst] in I.
    apply in_app_or in I. destruct I as [I|I]; [destruct (PRE I)|].
    apply in_app_or in I. destruct I as [I|I].
    { unfold sized, priced in I. simpl in I.
      destruct I as [I|[I|[I|[]]]]; inversion I; subst s; discriminate. }
    destruct I as [I|I]; [inversion I; subst s; discriminate|].
    unfold reported.
    destruct (live_mode a) eqn:LV.
    - rewrite (finish_live a e v d p q mk LV MK) in I.
      destruct (market_order e) as [o|x] eqn:MO.
      + destruct (fills o) as [[|f fs]|] eqn:FL; cbn [trace fst] in I;
          try (simpl in I;
               destruct I as [I|[I|[]]]; [|inversion I; subst s; discriminate];
               rewrite <- I in S; rewrite submission_is_summary in S; discriminate).
        destruct (SS o (ShownText (fill_price f))) as (s' & SE & ST).
        rewrite SE in I. cbn [trace fst] in I.
        destruct I as [I|[I|I]].
        * rewrite <- I in S. rewrite submission_is_summary in S. discriminate.
        * inversion I; subst s; discriminate.
        * apply CL in I. subst s'. exists d, qc, o, (ShownText (fill_price f)).
          repeat split; auto. exists o, f, fs. auto.
      + exfalso. destruct x; cbn [trace fst] in I;
          try (simpl in I; destruct I as [I|[]];
               rewrite <- I in S; rewrite submission_is_summary in S; discriminate).
        destruct I as [I|[I|I]].
        * rewrite <- I in S. rewrite submission_is_summary in S. discriminate.
        * inversion I; subst s; discriminate.
        * exact (notify_no_print _ _ _ _ _ I).
    - rewrite (finish_simulated a e v d p q LV) in I.
      destruct (test_order e) as [o|x] eqn:TO; cbn [trace fst] in I.
      2:{ exfalso. simpl in I. destruct I as [I|[]].
          rewrite <- I in S. rewrite submission_is_summary in S. discriminate. }
      destruct (SS o (ShownDecimal p)) as (s' & SE & ST).
      rewrite SE in I. cbn [trace fst] in I.
      destruct I as [I|I].
      { rewrite <- I in S. rewrite submission_is_summary in S. discriminate. }
      apply in_app_or in I. destruct I as [I|I].
      { destruct (order_truthy o); simpl in I; [|destruct I].
        destruct I as [I|[]]. inversion I; subst s; discriminate. }
      apply CL in I. subst s'. exists d, qc, o, (ShownDecimal p).
      repeat split; auto. exists o, p. auto. }
  split.
  - intros mn side amt cur st shown qc I.
    destruct (K _ I eq_refl) as (d & qc' & o & shown' & OD & ST & RP).
    unfold summary_text in ST.
    destruct (dynamic_dca_block_result a e d OD)
      as [(DD & ->)|(DD & n & SO & [(NP & ->)|(NP & amt' & SA & ->)])];
      simpl in ST; inversion ST; subst; repeat split; eauto.
  - intros pc n mn side amt orig cur st shown qc I.
    destruct (K _ I eq_refl) as (d & qc' & o & shown' & OD & ST & RP).
    unfold summary_text in ST.
    destruct (dynamic_dca_block_result a e d OD)
      as [(DD & ->)|(DD & n' & SO & [(NP & ->)|(NP & amt' & SA & ->)])];
      simpl in ST; inversion ST; subst; repeat split; eauto.
Qed.

Lemma X9_witness :
  steps_of (D 125 (-1)) = Ok 2
  /\ reported (sample_args false true true) sample_env
       (Some "FILLED"%string) (ShownText "0.05010000").
Proof.
  destruct (X9_summary_reports_the_run (sample_args true false false) sample_env)
    as (_ & H2).
  destruct (X9_summary_reports_the_run (sample_args false true true) sample_env)
    as (H1 & _).
  split.
  - refine (proj1 (proj2 (proj2 (proj2 (proj2 (proj2
              (H2 (D 125 (-1)) 2 "ETHBTC"%string BUY (D 100 (-5)) (D 2 (-3))
                  "BTC"%string None (ShownDecimal (D 5 (-2))) "BTC"%string _))))))).
    vm_compute. tauto.
  - refine (proj2 (proj2 (proj2 (proj2 (proj2
              (H1 "ETHBTC"%string BUY (D 2 (-3)) "BTC"%string
                  (Some "FILLED"%string) (ShownText "0.05010000")
                  "BTC"%string _)))))).
    vm_compute. tauto.
Defined.

(** ** The order book (lines 278-282) *)

(** X10.  When the side of the order book that the script reads (the bids
    for a buy, the asks for a sell) is empty, indexing it raises
    [IndexError]: the run ends there, after its only order-book request,
    with nothing sized, submitted or published. *)
Theorem X10_empty_order_book a e v d :
  outcome (prelude a e) = Done (v, d) ->
  (if is_buy (order_side a) then bids e else asks e) = [] ->
  outcome (main a e) = Raised IndexError
  /\ trace (main a e)
     = (trace (prelude a e) ++ [Get_order_book (market_name a)])%list
  /\ Forall (fun ev => is_sizing ev = false /\ is_submission ev = false
                       /\ is_publish ev = false)
            (trace (main a e)).
Proof.
  intros OP B.
  assert (BP : best_price a e = None).
  { unfold best_price. destruct (order_side a); simpl in B; rewrite B; reflexivity. }
  assert (E : main a e =
              ((trace (prelude a e) ++ [Get_order_book (market_name a)])%list,
               Raised IndexError)).
  { destruct (main_stage a e) as [E|L].
    - destruct E as [N _ _|? ? _ _ E|? ? ? ? ? ? ? _ BP' _ _ _ _ _
                    |? ? ? ? ? ? ? ? ? ? _ BP' _ _ _ _ _ _ _ _
                    |? ? ? ? ? ? ? ? ? ? ? _ BP' _ _ _ _ _ _ _ _ _ _];
        try congruence; try (destruct (N _ OP)).
    - destruct L as [? ? ? ? ? ? ? ? ? ? ? _ BP' _ _ _ _ _ _ _ _ _ _]. congruence. }
  rewrite E. cbn [trace outcome fst snd]. repeat split.
  apply Forall_app; split.
  - pose proof (prelude_no_submission a e) as F1.
    pose proof (prelude_no_publish a e) as F2.
    pose proof (prelude_quiet a e) as F3.
    rewrite Forall_forall in *. intros ev I.
    specialize (F1 ev I). specialize (F2 ev I). specialize (F3 ev I).
    repeat split; auto. destruct ev as [[]| | | | | | | |]; simpl in *; congruence.
  - repeat constructor.
Qed.

Lemma X10_witness :
  outcome (main (sample_args false false false) no_bids_env) = Raised IndexError.
Proof.
  refine (proj1 (X10_empty_order_book (sample_args false false false) no_bids_env
                   _ _ _ eq_refl)).
  vm_compute. reflexivity.
Defined.

(** ** Filter entries without their value (lines 204-210) *)

Lemma filter_step_lacks_value v f :
  lacks_value f ->
  filter_step v f
  = raise (TypeError "conversion from NoneType to Decimal is not supported").
Proof.
  unfold filter_step, lacks_value.
  intros [(T & N)|[(T & N)|(T & N)]]; rewrite T, N; reflexivity.
Qed.

(** X11.  A MIN_NOTIONAL, LOT_SIZE or PRICE_FILTER entry of the traded
    market that lacks its value key makes [Decimal(None)] raise
    [TypeError]; the run ends there, before any price is fetched or any
    order is sized or submitted, whatever the entries after it hold. *)
Theorem X11_filter_without_value a e pre m post fs1 f fs2 v1 :
  exchange_info e = (pre ++ m :: post)%list ->
  Forall (other_market a) pre ->
  symbol m = market_name a ->
  filters m = (fs1 ++ f :: fs2)%list ->
  outcome (foldM filter_step (set_assets (set_market no_vars m) m) fs1) = Done v1 ->
  lacks_value f ->
  outcome (main a e)
  = Raised (TypeError "conversion from NoneType to Decimal is not supported")
  /\ Forall no_fetch_no_order (trace (main a e)).
Proof.
  intros EI OM SY FS F1 LV.
  apply (main_resolution_raises a e pre m post _ EI OM SY).
  unfold resolve_constraints. rewrite FS, foldM_app.
  rewrite !outcome_bind, F1. cbn [foldM].
  rewrite (filter_step_lacks_value v1 f LV). reflexivity.
Qed.

Lemma X11_witness :
  outcome (main (sample_args false false false) no_step_key_env)
  = Raised (TypeError "conversion from NoneType to Decimal is not supported").
Proof.
  refine (proj1 (X11_filter_without_value (sample_args false false false)
                   no_step_key_env [adabtc] ethbtc_no_step_key []
                   [mkFilter "MIN_NOTIONAL" (Some (D 10000 (-8))) None None]
                   (mkFilter "LOT_SIZE" None None None)
                   [mkFilter "PRICE_FILTER" None None (Some (D 100 (-8)))]
                   _ eq_refl _ eq_refl eq_refl _ _)).
  - repeat constructor. discriminate.
  - vm_compute. reflexivity.
  - right. left. split; reflexivity.
Defined.

(** ** The scaler and the sign of the price change (lines 250-269) *)

(* rounding to the context does not look at the sign *)
Lemma fix_dec_sign s s' c e :
  fix_ (dec s' c e) =
  match fix_ (dec s c e) with
  | Ok r => Ok (mkDecimal s' (dint r) (dexp r))
  | Err x => Err x
  end.
Proof.
  unfold fix_, is_zero, coef, dec. cbn [dsign dint dexp].
  destruct (Z.of_N (Z.to_N c) =? 0); [reflexivity|]. cbv zeta.
  destruct (Etop <? _); [reflexivity|].
  destruct (e <? _); [|reflexivity].
  destruct (_ <? 0); cbv iota beta;
    destruct (prec <? _); cbv iota beta;
    destruct (Etop <? _); reflexivity.
Qed.

Lemma div_sign a b s :
  div (mkDecimal s (dint a) (dexp a)) b =
  match div a b with
  | Ok r => Ok (mkDecimal (xorb s (dsign b)) (dint r) (dexp r))
  | Err x => Err x
  end.
Proof.
  unfold div, is_zero, coef. cbn [dsign dint dexp].
  destruct (Z.of_N (dint b) =? 0).
  { destruct (Z.of_N (dint a) =? 0); reflexivity. }
  destruct (Z.of_N (dint a) =? 0).
  { apply fix_dec_sign. }
  cbv zeta.
  destruct (if 0 <=? _ then _ else _) as [coeff remainder].
  destruct (negb (remainder =? 0)).
  { apply fix_dec_sign. }
  destruct (strip_zeros _ coeff _) as [c' e']. apply fix_dec_sign.
Qed.

Lemma steps_of_sign pc s :
  steps_of (mkDecimal s (dint pc) (dexp pc)) = steps_of pc.
Proof.
  unfold steps_of. rewrite div_sign.
  destruct (div pc step_size) as [q|x]; reflexivity.
Qed.

Lemma steps_of_nonneg pc n : steps_of pc = Ok n -> 0 <= n.
Proof.
  unfold steps_of. destruct (div pc step_size) as [q|x]; [|discriminate].
  cbn [exc_bind]. unfold abs.
  destruct (fix_ (mkDecimal false (dint q) (dexp q))) as [r|x] eqn:F;
    [|discriminate].
  cbn [exc_bind]. intros [= <-]. apply fix_sign in F. simpl in F.
  unfold floor. apply signed_nonneg.
  unfold rescale. destruct (is_zero r); [rewrite F; reflexivity|].
  destruct (0 <=? dexp r); [rewrite F; reflexivity|].
  cbv zeta. destruct (_ <? 0); rewrite F; reflexivity.
Qed.

Lemma lt_zero_l_iff r : lt zero r = true <-> 0 < signed r.
Proof.
  unfold lt, cmp. change (signed zero) with 0. change (dexp zero) with 0.
  rewrite Z.mul_0_l.
  assert (P : 0 < 10 ^ (dexp r - Z.min 0 (dexp r))) by (apply pow10_gt0; lia).
  destruct (Z.compare_spec 0 (signed r * 10 ^ (dexp r - Z.min 0 (dexp r))));
    split; intros; try discriminate; try reflexivity; nia.
Qed.

Lemma signed_negate r : signed (copy_negate r) = - signed r.
Proof. unfold signed, copy_negate, coef. simpl. destruct (dsign r); simpl; lia. Qed.

Lemma lt_negate_l r : lt (copy_negate r) zero = lt zero r.
Proof.
  destruct (lt zero r) eqn:L.
  - apply lt_zero_iff. apply lt_zero_l_iff in L. rewrite signed_negate. lia.
  - destruct (lt (copy_negate r) zero) eqn:L'; auto.
    apply lt_zero_iff in L'. rewrite signed_negate in L'.
    assert (lt zero r = true) by (apply lt_zero_l_iff; lia). congruence.
Qed.

Lemma lt_negate_r r : lt zero (copy_negate r) = lt r zero.
Proof.
  destruct (lt r zero) eqn:L.
  - apply lt_zero_l_iff. apply lt_zero_iff in L. rewrite signed_negate. lia.
  - destruct (lt zero (copy_negate r)) eqn:L'; auto.
    apply lt_zero_l_iff in L'. rewrite signed_negate in L'.
    assert (lt r zero = true) by (apply lt_zero_iff; lia). congruence.
Qed.

(** X12.  The scaler treats a sale after a rise as it treats a purchase
    after a fall of the same size: the number of steps depends on the
    magnitude of the 24h change only and is never negative, the direction
    test of a SELL at a change is that of a BUY at the opposite change, and
    the scaled amount is the same.  No change is favorable to both sides. *)
Theorem X12_scaler_mirrors_the_sides pc amount n :
  steps_of (copy_negate pc) = steps_of pc
  /\ (forall k, steps_of pc = Ok k -> 0 <= k)
  /\ favorable SELL (copy_negate pc) = favorable BUY pc
  /\ favorable BUY (copy_negate pc) = favorable SELL pc
  /\ favorable BUY pc && favorable SELL pc = false
  /\ outcome (scale_amount SELL amount (copy_negate pc) n)
     = outcome (scale_amount BUY amount pc n).
Proof.
  assert (F1 : favorable SELL (copy_negate pc) = favorable BUY pc).
  { unfold favorable. simpl. rewrite ?orb_false_r. apply lt_negate_r. }
  assert (F2 : favorable BUY (copy_negate pc) = favorable SELL pc).
  { unfold favorable. simpl. rewrite ?orb_false_r. apply lt_negate_l. }
  split; [apply (steps_of_sign pc (negb (dsign pc)))|].
  split; [apply steps_of_nonneg|].
  split; [exact F1|]. split; [exact F2|]. split.
  - unfold favorable. simpl. rewrite orb_false_r.
    destruct (lt pc zero) eqn:L1; auto.
    destruct (lt zero pc) eqn:L2; auto.
    apply lt_zero_iff in L1. apply lt_zero_l_iff in L2. lia.
  - unfold scale_amount. rewrite F1.
    destruct (favorable BUY pc); [reflexivity|].
    rewrite !outcome_bind.
    destruct (outcome (lift (mul amount amount_divider))) as [x| |];
      try reflexivity.
    rewrite !outcome_bind.
    destruct (outcome (lift (mul x (of_int n)))) as [y| |]; try reflexivity.
    rewrite !outcome_bind.
    destruct (outcome (lift (sub amount y))) as [z| |]; try reflexivity.
    destruct (le z zero); reflexivity.
Qed.

Lemma X12_witness : 0 <= 2.
Proof.
  apply (proj1 (proj2 (X12_scaler_mirrors_the_sides (D 125 (-1)) (D 2 (-3)) 2)) 2).
  vm_compute. reflexivity.
Defined.

(** ** The constraints of the traded market (lines 204-210) *)

Lemma normalize_stripped z :
  plain_value z -> exists r, normalize z = Ok r /\ stripped z r.
Proof.
  intros ((C0 & C1) & E0 & E1).
  assert (ND : ndigits (coef z) <= prec)
    by (apply ndigits_le; unfold prec in *; lia).
  destruct (ndigits_spec (coef z) C0) as (N1 & N2 & N3).
  unfold normalize.
  rewrite fix_id by (unfold adjusted; lia). cbn [exc_bind].
  unfold is_zero. destruct (Z.eqb_spec (coef z) 0) as [Z0|_]; [lia|].
  destruct (strip_zeros _ (coef z) (dexp z)) as [c' e'] eqn:SZ.
  apply strip_zeros_spec in SZ; [|lia].
  destruct SZ as (j & J1 & J2 & J3 & J4 & J5).
  rewrite Z2Nat.id in J1, J5 by lia.
  rewrite Z.min_l in J1, J5 by lia.
  assert (JL : j < ndigits (coef z)).
  { destruct (Z_lt_le_dec j (ndigits (coef z))) as [|G]; auto. exfalso.
    assert (10 ^ ndigits (coef z) <= 10 ^ j) by (apply pow10_le; lia).
    assert (0 < 10 ^ j) by (apply pow10_gt0; lia). nia. }
  eexists. split; [reflexivity|].
  unfold stripped. rewrite dsign_dec, dexp_dec, coef_dec by lia.
  replace (e' - dexp z) with j by lia.
  repeat split; auto; lia.
Qed.

(** X13.  The three constraints of a market are its filter values with the
    trailing zeros removed: for each type, the last entry of that type in
    the list decides, and a value such as 0.00100000 leaves the same number
    written 0.001, so that the base increment's exponent is the place of the
    step size's last non-zero digit. *)
Theorem X13_constraints_are_stripped_filter_values fs v v' f z :
  outcome (foldM filter_step v fs) = Done v' ->
  plain_value z ->
  (last_filter "MIN_NOTIONAL" fs = Some f -> minNotional f = Some z ->
   exists r, base_min_size v' = Some r /\ stripped z r)
  /\ (last_filter "LOT_SIZE" fs = Some f -> stepSize f = Some z ->
      exists r, base_increment v' = Some r /\ stripped z r)
  /\ (last_filter "PRICE_FILTER" fs = Some f -> tickSize f = Some z ->
      exists r, quote_increment v' = Some r /\ stripped z r).
Proof.
  intros H PV. destruct (normalize_stripped z PV) as (r & N & S).
  destruct (filter_loop_extracted fs v v' H) as (E1 & E2 & E3).
  unfold extracted in *.
  repeat split; intros L F.
  - rewrite L in E1. destruct E1 as (z' & n & F' & N' & V).
    exists r. split; [congruence|exact S].
  - rewrite L in E2. destruct E2 as (z' & n & F' & N' & V).
    exists r. split; [congruence|exact S].
  - rewrite L in E3. destruct E3 as (z' & n & F' & N' & V).
    exists r. split; [congruence|exact S].
Qed.

Lemma X13_witness : stripped (D 100000 (-8)) (D 1 (-3)).
Proof.
  assert (PV : plain_value (D 100000 (-8))).
  { unfold plain_value. vm_compute. repeat split; congruence. }
  destruct (proj1 (proj2 (X13_constraints_are_stripped_filter_values
                            ethbtc_filters
                            (set_assets (set_market no_vars ethbtc) ethbtc)
                            (mkVars (Some ethbtc) (Some "ETH"%string)
                               (Some "BTC"%string) (Some 8)
                               (Some (D 1 (-4))) (Some (D 1 (-3)))
                               (Some (D 1 (-6))) None)
                            (mkFilter "LOT_SIZE" None (Some (D 100000 (-8))) None)
                            (D 100000 (-8)) eq_refl PV)) eq_refl eq_refl)
    as (r & R & S).
  injection R as <-. exact S.
Defined.

(** ** The requests to the exchange, in order *)

Lemma calls_app t1 t2 : calls (t1 ++ t2) = (calls t1 ++ calls t2)%list.
Proof. apply filter_app. Qed.

Lemma calls_none (P : Event -> Prop) t :
  Forall P t -> (forall ev, P ev -> is_call ev = false) -> calls t = [].
Proof.
  intros F H. unfold calls. induction F as [|ev t Hev _ IH]; simpl; auto.
  rewrite (H ev Hev). exact IH.
Qed.

Lemma print_not_call ev : is_print ev = true -> is_call ev = false.
Proof. destruct ev; simpl; congruence. Qed.

Lemma report_not_call ev : report_event ev -> is_call ev = false.
Proof. destruct ev; intros [H|H]; simpl in *; congruence. Qed.

Lemma resolve_calls a e : calls (trace (resolve a e)) = [Get_exchange_info].
Proof.
  unfold resolve. rewrite trace_bind_emit.
  change (calls (Get_exchange_info :: ?t)) with (Get_exchange_info :: calls t).
  f_equal. apply (calls_none (fun ev => is_print ev = true)); [|apply print_not_call].
  forall_trace; try reflexivity.
  apply Forall_trace_foldM. intros s x. unfold market_step.
  forall_trace; try reflexivity.
  - rewrite foldM_silent by apply filter_step_trace. constructor.
  - rewrite check_filters_trace. constructor.
  - rewrite check_amount_currency_trace. constructor.
Qed.

Lemma confirm_calls a e : calls (trace (confirm a e)) = [].
Proof.
  apply (calls_none _ _ (confirm_events a e)).
  intros [] [H|H]; simpl in *; congruence.
Qed.

Lemma dynamic_calls a e :
  calls (trace (dynamic_dca_block a e))
  = if dynamic_dca a then [Get_ticker (market_name a)] else [].
Proof.
  unfold dynamic_dca_block. destruct (dynamic_dca a); [|reflexivity].
  rewrite trace_bind_emit.
  change (calls (Get_ticker ?s :: ?t)) with (Get_ticker s :: calls t).
  f_equal. apply (calls_none (fun ev => is_print ev = true)); [|apply print_not_call].
  forall_trace; try reflexivity.
  unfold scale_amount. forall_trace; reflexivity.
Qed.

(* the requests made before the order book is consulted *)
Lemma prelude_calls a e :
  let tick := if dynamic_dca a then [Get_ticker (market_name a)] else [] in
  (exists rest,
     (calls (trace (prelude a e)) ++ rest)%list = Get_exchange_info :: tick)
  /\ (forall x, outcome (prelude a e) = Done x ->
        calls (trace (prelude a e)) = Get_exchange_info :: tick).
Proof.
  intros tick. unfold prelude.
  rewrite trace_bind_emit, outcome_bind_emit.
  change (calls (Print (T_started a) :: ?t)) with (calls t).
  rewrite trace_bind, outcome_bind, banner_done, calls_app.
  replace (calls (trace (if negb (live_mode a)
                         then emit (Print T_not_live_banner) else ret tt)))
    with (@nil Event) by (destruct (live_mode a); reflexivity).
  cbn [app]. rewrite trace_bind, outcome_bind.
  destruct (outcome (resolve a e)) as [v| |].
  2,3: rewrite resolve_calls; split; [exists tick; reflexivity|discriminate].
  rewrite calls_app, resolve_calls. cbn [app].
  rewrite trace_bind, outcome_bind.
  destruct (outcome (confirm a e)) as [[]| |].
  2,3: rewrite confirm_calls; split; [exists tick; reflexivity|discriminate].
  rewrite calls_app, confirm_calls. cbn [app].
  rewrite trace_bind, outcome_bind.
  destruct (outcome (dynamic_dca_block a e)) as [d| |].
  2,3: rewrite dynamic_calls; split;
       [exists []; rewrite app_nil_r; reflexivity|discriminate].
  rewrite calls_app, dynamic_calls. cbn [trace ret fst]. rewrite app_nil_r.
  split; [exists []; rewrite app_nil_r; reflexivity|reflexivity].
Qed.

Lemma finish_calls a e v d p q :
  calls (trace (finish a e v d p q)) = [submission a q].
Proof.
  unfold finish. rewrite trace_bind.
  destruct (execute_shape a e v p q) as (t & E & F).
  assert (SC : is_call (submission a q) = true).
  { unfold submission. destruct (negb (live_mode a)), (is_buy (order_side a));
      reflexivity. }
  assert (H0 : calls (submission a q :: t) = [submission a q]).
  { unfold calls. cbn [filter]. rewrite SC. f_equal.
    apply (calls_none _ _ F report_not_call). }
  rewrite E.
  destruct (outcome (execute a e v p q)) as [[o s]| |]; auto.
  change ((submission a q :: t) ++ ?u)%list with (submission a q :: (t ++ u))%list.
  unfold calls. cbn [filter]. rewrite SC. f_equal.
  fold (calls (t ++ trace (summarize a e v d o s))).
  rewrite calls_app, (calls_none _ _ F report_not_call).
  apply (calls_none _ _ (summarize_events a e v d o s) report_not_call).
Qed.

(** X14.  The exchange is called in one fixed order, each request at most
    once: the exchange information, the 24h ticker (only with
    [--dynamic_dca]), the order book, the order.  A run makes a prefix of
    that sequence, and all of it when it ends normally. *)
Theorem X14_exchange_calls_in_order a e :
  exists q,
    (exists rest, (calls (trace (main a e)) ++ rest)%list = call_plan a q)
    /\ (outcome (main a e) = Done tt ->
        calls (trace (main a e)) = call_plan a q).
Proof.
  destruct (prelude_calls a e) as (PC1 & PC2).
  set (tick := if dynamic_dca a then [Get_ticker (market_name a)] else []) in *.
  assert (RJ : forall d m, calls (rejection_trace a e d m) = []).
  { intros d m. unfold rejection_trace.
    destruct (is_dynamic_dca d); [destruct (scaling d)|]; try reflexivity.
    change (calls (Print ?x :: Print ?y :: ?t)) with (calls t).
    apply (calls_none _ _ (notify_events a e _ m) report_not_call). }
  destruct (main_stage a e) as [E|L].
  - destruct E as [N T O|v d OP _ E|v d p qc iq inc x OP _ _ _ _ _ E
                  |v d p qc iq inc q b prec x OP _ _ _ _ _ _ _ _ E
                  |v d p qc iq inc q b prec m ov OP _ _ _ _ _ _ _ _ _ _ E].
    + exists zero. split; [|intros D; congruence].
      rewrite T. destruct PC1 as (rest & PC1).
      exists (rest ++ [Get_order_book (market_name a); submission a zero])%list.
      rewrite app_assoc, PC1. unfold call_plan. fold tick. reflexivity.
    + exists zero. rewrite E. cbn [trace outcome fst snd].
      split; [|discriminate].
      rewrite calls_app, (PC2 _ OP). exists [submission a zero].
      unfold call_plan. fold tick. cbn [app calls filter is_call].
      rewrite <- app_assoc. reflexivity.
    + exists zero. rewrite E. cbn [trace outcome fst snd].
      split; [|discriminate].
      rewrite calls_app, (PC2 _ OP). exists [submission a zero].
      unfold call_plan. fold tick. cbn [app calls filter is_call priced].
      rewrite <- app_assoc. reflexivity.
    + exists q. rewrite E. cbn [trace outcome fst snd].
      split; [|discriminate].
      rewrite calls_app, (PC2 _ OP). exists [submission a q].
      unfold call_plan. fold tick. cbn [app calls filter is_call sized priced].
      rewrite <- app_assoc. reflexivity.
    + exists q. rewrite E. cbn [trace outcome fst snd].
      split; [|discriminate].
      rewrite !calls_app, (PC2 _ OP), RJ. exists [submission a q].
      unfold call_plan. fold tick. cbn [app calls filter is_call sized priced].
      rewrite <- app_assoc. reflexivity.
  - destruct L as [v d p qc iq inc q b prec m ov OP _ _ _ _ _ _ _ _ _ _ E].
    exists q.
    assert (C : calls (trace (main a e)) = call_plan a q).
    { rewrite E. cbn [trace fst].
      rewrite !calls_app, (PC2 _ OP).
      change (calls (Print ?x :: ?t)) with (calls t).
      rewrite finish_calls.
      unfold call_plan. fold tick. cbn [app calls filter is_call sized priced].
      reflexivity. }
    split; [exists []; rewrite app_nil_r; exact C|intros _; exact C].
Qed.

Lemma X14_witness :
  exists q, calls (trace (main live_args sample_env)) = call_plan live_args q.
Proof.
  destruct (X14_exchange_calls_in_order live_args sample_env) as (q & _ & H).
  exists q. apply H. vm_compute. reflexivity.
Defined.

(** ** The operator's answer *)

Lemma outcome_bind_ext {A B} (m : M A) (f g : A -> M B) :
  (forall x, outcome (f x) = outcome (g x)) ->
  outcome (bind m f) = outcome (bind m g).
Proof. intros H. rewrite !outcome_bind. destruct (outcome m); auto. Qed.

Lemma calls_bind_ext {A B} (m : M A) (f g : A -> M B) :
  (forall x, calls (trace (f x)) = calls (trace (g x))) ->
  calls (trace (bind m f)) = calls (trace (bind m g)).
Proof.
  intros H. rewrite !trace_bind. destruct (outcome m); auto.
  rewrite !calls_app, H. reflexivity.
Qed.

(* the run with [--job], written with the blocks of the run without *)
Lemma main_as_job a e :
  main (as_job a) e =
  (emit (Print (T_started (as_job a))) ;;
   (if negb (live_mode a) then emit (Print T_not_live_banner) else ret tt) ;;
   v <- resolve a e ;;
   d <- dynamic_dca_block a e ;;
   trade a e v d).
Proof.
  assert (C : confirm (as_job a) e = ret tt).
  { unfold confirm. simpl. rewrite andb_false_r. reflexivity. }
  unfold main. rewrite C.
  apply bind_ext; intros _. apply bind_ext; intros _.
  apply bind_ext; intros v. rewrite bind_ret. reflexivity.
Qed.

(** X15.  The answer of the operator is read only by the prompt.  In
    simulation mode and with [--job] the run, its output included, is the
    same whatever would have been typed.  In live mode without [--job], the
    answer "Y" lets the run go on as the run with [--job] does: it ends the
    same way after the same requests to the exchange. *)
Theorem X15_answer_matters_only_at_the_prompt a e :
  (forall r, live_mode a = false \/ job_mode a = true ->
     main a (with_response e r) = main a e)
  /\ (live_mode a = true -> job_mode a = false ->
      input_response e = "Y"%string ->
      outcome (main a e) = outcome (main (as_job a) e)
      /\ calls (trace (main a e)) = calls (trace (main (as_job a) e))).
Proof.
  split.
  - intros r H.
    assert (C : confirm a (with_response e r) = confirm a e).
    { unfold confirm. destruct H as [-> | ->]; [reflexivity|].
      rewrite andb_false_r. reflexivity. }
    unfold main. rewrite C. reflexivity.
  - intros L J R.
    assert (C : confirm a e
                = ([Print T_separator; Input "Live purchase! Confirm Y/[n]: "],
                   Done tt)).
    { unfold confirm. rewrite L, J, R. reflexivity. }
    rewrite main_as_job. unfold main. split.
    + rewrite !outcome_bind_emit. apply outcome_bind_ext; intros _.
      apply outcome_bind_ext; intros v. rewrite C. reflexivity.
    + rewrite !trace_bind_emit.
      change (calls (Print ?x :: ?t)) with (calls t).
      apply calls_bind_ext; intros _. apply calls_bind_ext; intros v.
      rewrite C. rewrite trace_bind. reflexivity.
Qed.

Lemma X15_witness :
  outcome (main live_args sample_env) = outcome (main (as_job live_args) sample_env).
Proof.
  exact (proj1 (proj2 (X15_answer_matters_only_at_the_prompt live_args sample_env)
                  eq_refl eq_refl eq_refl)).
Defined.

(** ** What is published (lines 313-319, 352-357, 413-418) *)

Lemma In_notify a e s' m' t s m :
  In (Sns_publish t s m) (trace (notify a e s' m')) ->
  s = s' /\ m = m' /\ live_mode a = true.
Proof.
  unfold notify. destruct (sns_topic e) as [tp|]; [|intros []].
  destruct (negb (tp =? "")%string) ; [|intros []].
  destruct (live_mode a); [|intros []].
  intros [H|[]]. inversion H. auto.
Qed.

(** X16.  Whatever the run publishes it has also written to its output:
    the subject and the message of a notification are printed in the same
    run (the cancellation summary with its reason, the order summary with
    the order), except for a refused live order, where the printed line
    joins the subject and the exception's message. *)
Theorem X16_published_is_printed a e t s m :
  In (Sns_publish t s m) (trace (main a e)) ->
  (In (Print s) (trace (main a e)) /\ In (Print m) (trace (main a e)))
  \/ exists mk msg,
       s = T_unable_to_place mk /\ m = T_exception msg
       /\ In (Print (T_unable_to_place_because mk msg)) (trace (main a e)).
Proof.
  intros I.
  assert (PRE : In (Sns_publish t s m) (trace (prelude a e)) -> False).
  { intros H. pose proof (prelude_no_publish a e) as F.
    rewrite Forall_forall in F. apply F in H. discriminate. }
  destruct (main_stage a e) as [E|L].
  - destruct E as [N T O|v d OP _ E|v d p qc iq inc x OP _ _ _ _ _ E
                  |v d p qc iq inc q b prec x OP _ _ _ _ _ _ _ _ E
                  |v d p qc iq inc q b prec mn ov OP _ _ _ _ _ _ _ _ _ _ E].
    + rewrite T in I. destruct (PRE I).
    + rewrite E in I. cbn [trace fst] in I.
      apply in_app_or in I. destruct I as [I|I]; [destruct (PRE I)|].
      simpl in I. intuition discriminate.
    + rewrite E in I. cbn [trace fst] in I.
      apply in_app_or in I. destruct I as [I|I]; [destruct (PRE I)|].
      simpl in I. intuition discriminate.
    + rewrite E in I. cbn [trace fst] in I.
      apply in_app_or in I. destruct I as [I|I]; [destruct (PRE I)|].
      simpl in I. intuition discriminate.
    + left. rewrite E in *. cbn [trace fst] in *.
      apply in_app_or in I. destruct I as [I|I]; [destruct (PRE I)|].
      apply in_app_or in I. destruct I as [I|I];
        [simpl in I; intuition discriminate|].
      unfold rejection_trace in *.
      destruct I as [I|I]; [discriminate|].
      destruct (is_dynamic_dca d); [|destruct I].
      destruct (scaling d) as [sc|]; [|destruct I].
      destruct I as [I|I]; [discriminate|].
      apply In_notify in I. destruct I as (-> & -> & _).
      split; apply in_or_app; right; apply in_or_app; right; simpl; auto.
  - destruct L as [v d p qc iq inc q b prec mn ov OP _ Q _ _ _ _ _ _ _ _ E].
    destruct (prelude_done a e v d OP) as (OR & _ & _ & SC).
    destruct (resolve_market a e v OR) as (mk & _ & MK).
    rewrite E in *. cbn [trace fst] in *.
    apply in_app_or in I. destruct I as [I|I]; [destruct (PRE I)|].
    apply in_app_or in I. destruct I as [I|I];
      [simpl in I; intuition discriminate|].
    destruct I as [I|I]; [discriminate|].
    assert (SB : Sns_publish t s m <> submission a q).
    { unfold submission. destruct (negb (live_mode a)), (is_buy (order_side a));
        discriminate. }
    assert (IN : forall ev, In ev (trace (finish a e v d p q)) ->
               In ev (trace (prelude a e) ++ sized a p qc q b
                        ++ Print (T_order_value ov qc)
                           :: trace (finish a e v d p q))).
    { intros ev H. apply in_or_app; right. apply in_or_app; right.
      right. exact H. }
    destruct (live_mode a) eqn:LV.
    + rewrite (finish_live a e v d p q mk LV MK) in *.
      destruct (market_order e) as [o|x].
      * destruct (fills o) as [[|f fs]|]; cbn [trace fst] in *;
          try (simpl in I; destruct I as [I|[I|[]]]; congruence).
        destruct (summary_text_some a d qc o (ShownText (fill_price f)) SC)
          as (s' & ST & _).
        rewrite (summarize_spec a e v d o _ qc s' Q ST) in *.
        cbn [trace fst] in *.
        destruct I as [I|[I|I]]; try congruence.
        unfold closing in I. apply in_app_or in I. destruct I as [I|I].
        2:{ simpl in I. destruct I as [I|[I|I]]; try discriminate.
            rewrite LV in I. destruct I. }
        apply In_notify in I. destruct I as (-> & -> & _).
        left. split; apply IN.
        -- right. right. unfold closing. apply in_or_app; right. simpl. auto.
        -- right. left. reflexivity.
      * destruct x; cbn [trace fst] in *;
          try (simpl in I; destruct I as [I|[]]; congruence).
        destruct I as [I|[I|I]]; try congruence.
        apply In_notify in I. destruct I as (-> & -> & _).
        right. exists mk, msg. repeat split. apply IN. right. left. reflexivity.
    + exfalso. rewrite (finish_simulated a e v d p q LV) in I.
      destruct (test_order e) as [o|x]; cbn [trace fst] in I.
      2:{ simpl in I. destruct I as [I|[]]. congruence. }
      destruct (summary_text_some a d qc o (ShownDecimal p) SC) as (s' & ST & _).
      rewrite (summarize_spec a e v d o _ qc s' Q ST) in I.
      cbn [trace fst] in I.
      destruct I as [I|I]; [congruence|].
      apply in_app_or in I. destruct I as [I|I].
      { destruct (order_truthy o); simpl in I; intuition discriminate. }
      unfold closing in I. rewrite (notify_not_live a e s' (T_order o) LV), LV in I.
      simpl in I. intuition discriminate.
Qed.

Lemma X16_witness :
  In (Print (T_order filled)) (trace (main live_args sample_env)).
Proof.
  assert (I : In (Sns_publish "arn:aws:sns:us-east-1:0:dca"
                    (T_plain_summary "ETHBTC" BUY (D 2 (-3)) "BTC"
                       (Some "FILLED"%string) (ShownText "0.05010000") "BTC")
                    (T_order filled))
                 (trace (main live_args sample_env)))
    by (vm_compute; tauto).
  destruct (X16_published_is_printed _ _ _ _ _ I) as [(_ & P)|(mk & msg & _ & F & _)].
  - exact P.
  - discriminate F.
Defined.

(** ** How a run can fail once the market is resolved *)

Lemma fix_error d x : fix_ d = Err x -> decimal_error x.
Proof.
  unfold fix_. destruct (is_zero d); [discriminate|]. cbv zeta.
  destruct (Etop <? _); [intros [= <-]; exact I|].
  destruct (dexp d <? _); [|discriminate].
  destruct (_ <? 0); cbv iota beta;
    destruct (prec <? _); cbv iota beta;
    destruct (Etop <? _); try discriminate; intros [= <-]; exact I.
Qed.

Lemma mul_error a b x : mul a b = Err x -> decimal_error x.
Proof. apply fix_error. Qed.

Lemma add_error a b x : add a b = Err x -> decimal_error x.
Proof.
  unfold add. destruct (is_zero a && is_zero b); [apply fix_error|].
  destruct (is_zero a); [apply fix_error|].
  destruct (is_zero b); [apply fix_error|]. cbv zeta.
  destruct (_ =? 0); apply fix_error.
Qed.

Lemma div_error a b x : div a b = Err x -> decimal_error x.
Proof.
  unfold div. destruct (is_zero b).
  { destruct (is_zero a); intros [= <-]; exact I. }
  destruct (is_zero a); [apply fix_error|]. cbv zeta.
  destruct (if 0 <=? _ then _ else _) as [coeff remainder].
  destruct (negb (remainder =? 0)); [apply fix_error|].
  destruct (strip_zeros _ coeff _) as [c' e']. apply fix_error.
Qed.

Lemma quantize_error d q x : quantize d q = Err x -> decimal_error x.
Proof.
  unfold quantize. destruct (negb _); [intros [= <-]; exact I|].
  destruct (is_zero d); [apply fix_error|].
  destruct (Emax <? adjusted d); [intros [= <-]; exact I|].
  destruct (prec <? _); [intros [= <-]; exact I|]. cbv zeta.
  destruct (Emax <? _); [intros [= <-]; exact I|].
  destruct (prec <? _); [intros [= <-]; exact I|]. apply fix_error.
Qed.

Lemma steps_of_error pc x : steps_of pc = Err x -> decimal_error x.
Proof.
  unfold steps_of. destruct (div pc step_size) as [q|y] eqn:D.
  - cbn [exc_bind]. unfold abs.
    destruct (fix_ _) as [r|y] eqn:F; [discriminate|].
    intros [= <-]. exact (fix_error _ _ F).
  - intros [= <-]. exact (div_error _ _ _ D).
Qed.

Lemma sizing_error iq amount p inc x :
  base_currency_amount_of iq amount p inc = Err x -> decimal_error x.
Proof.
  unfold base_currency_amount_of. destruct iq; [|apply quantize_error].
  destruct (div amount p) as [q|y] eqn:D; cbn [exc_bind].
  - apply quantize_error.
  - intros [= <-]. exact (div_error _ _ _ D).
Qed.

Lemma order_value_error q p prec x :
  order_value_of q p prec = Err x -> decimal_error x.
Proof.
  unfold order_value_of. destruct (mul q p) as [y|z] eqn:MU; cbn [exc_bind].
  - unfold one_e_minus. destruct (prec <? 0); cbn [exc_bind].
    + intros [= <-]. exact I.
    + apply quantize_error.
  - intros [= <-]. exact (mul_error _ _ _ MU).
Qed.

Lemma lift_raised {A} (m : Exc A) x : outcome (lift m) = Raised x -> m = Err x.
Proof. destruct m; simpl; congruence. Qed.

Lemma scale_amount_error side amount pc n x :
  outcome (scale_amount side amount pc n) = Raised x -> decimal_error x.
Proof.
  unfold scale_amount. destruct (favorable side pc).
  - rewrite outcome_bind.
    destruct (outcome (lift (mul amount amount_multiplier))) as [y| |] eqn:M1;
      try discriminate.
    2:{ intros [= <-]. apply lift_raised in M1. exact (mul_error _ _ _ M1). }
    rewrite outcome_bind.
    destruct (outcome (lift (mul y (of_int n)))) as [z| |] eqn:M2;
      try discriminate.
    2:{ intros [= <-]. apply lift_raised in M2. exact (mul_error _ _ _ M2). }
    rewrite outcome_bind.
    destruct (outcome (lift (add amount z))) as [w| |] eqn:M3;
      try discriminate.
    intros [= <-]. apply lift_raised in M3. exact (add_error _ _ _ M3).
  - rewrite outcome_bind.
    destruct (outcome (lift (mul amount amount_divider))) as [y| |] eqn:M1;
      try discriminate.
    2:{ intros [= <-]. apply lift_raised in M1. exact (mul_error _ _ _ M1). }
    rewrite outcome_bind.
    destruct (outcome (lift (mul y (of_int n)))) as [z| |] eqn:M2;
      try discriminate.
    2:{ intros [= <-]. apply lift_raised in M2. exact (mul_error _ _ _ M2). }
    rewrite outcome_bind.
    destruct (outcome (lift (sub amount z))) as [w| |] eqn:M3.
    + destruct (le w zero); discriminate.
    + intros [= <-]. apply lift_raised in M3. exact (add_error _ _ _ M3).
    + discriminate.
Qed.

Lemma dynamic_block_error a e x :
  outcome (dynamic_dca_block a e) = Raised x -> decimal_error x.
Proof.
  unfold dynamic_dca_block. destruct (dynamic_dca a); [|discriminate].
  rewrite outcome_bind_emit, outcome_bind.
  destruct (outcome (lift (steps_of (priceChangePercent e)))) as [n| |] eqn:S;
    try discriminate.
  2:{ intros [= <-]. apply lift_raised in S. exact (steps_of_error _ _ S). }
  rewrite outcome_bind_emit.
  destruct (0 <? n); [|discriminate].
  rewrite outcome_bind.
  destruct (outcome (scale_amount _ _ _ n)) as [y| |] eqn:SA; try discriminate.
  intros [= <-]. exact (scale_amount_error _ _ _ _ _ SA).
Qed.

(* How a run of the model can end in an exception once the constraints are
   resolved.  The environment record has the ticker, the order book, the
   prompt and the topic always answer, and every market record carry its
   precision, so the list is that of the model, not of every failure the
   script can meet. *)
Lemma raised_after_resolution a e v x :
  outcome (resolve a e) = Done v ->
  outcome (main a e) = Raised x ->
  decimal_error x
  \/ x = IndexError
  \/ x = TypeError "'NoneType' object is not subscriptable"
  \/ from_exchange a e x.
Proof.
  intros OR OM.
  destruct (main_stage a e) as [E|L].
  - destruct E as [N T O|v' d OP _ E|v' d p qc iq inc y OP _ _ _ _ SZ E
                  |v' d p qc iq inc q b prec y OP _ _ _ _ _ _ _ OV E
                  |v' d p qc iq inc q b prec mn ov OP _ _ _ _ _ _ _ _ _ _ E].
    + left. rewrite main_split, outcome_bind in OM.
      unfold prelude in OM, N.
      rewrite outcome_bind_emit, outcome_bind, banner_done, outcome_bind, OR,
        outcome_bind in OM.
      rewrite outcome_bind_emit, outcome_bind, banner_done, outcome_bind, OR,
        outcome_bind in N.
      assert (CF : forall y, outcome (confirm a e) <> Raised y).
      { intros y. unfold confirm. destruct (live_mode a && negb (job_mode a));
          [|discriminate].
        destruct (negb (input_response e =? "Y")%string); discriminate. }
      destruct (outcome (confirm a e)) as [[]| |] eqn:OC.
      * rewrite outcome_bind in OM, N.
        destruct (outcome (dynamic_dca_block a e)) as [d| |] eqn:OD.
        -- exfalso. apply (N (v, d)). reflexivity.
        -- injection OM as <-. exact (dynamic_block_error a e _ OD).
        -- discriminate.
      * destruct (CF e0). reflexivity.
      * discriminate.
    + rewrite E in OM. injection OM as <-. auto.
    + rewrite E in OM. injection OM as <-. left. exact (sizing_error _ _ _ _ _ SZ).
    + rewrite E in OM. injection OM as <-. left. exact (order_value_error _ _ _ _ OV).
    + rewrite E in OM. discriminate.
  - destruct L as [v' d p qc iq inc q b prec mn ov OP _ Q _ _ _ _ _ _ _ _ E].
    destruct (prelude_done a e v' d OP) as (OR' & _ & _ & SC).
    destruct (resolve_market a e v' OR') as (mk & _ & MK).
    rewrite E in OM. cbn [outcome snd] in OM.
    unfold from_exchange.
    destruct (live_mode a) eqn:LV.
    + rewrite (finish_live a e v' d p q mk LV MK) in OM.
      destruct (market_order e) as [o|y].
      * destruct (fills o) as [[|f fs]|]; cbn [outcome snd] in OM.
        -- injection OM as <-. auto.
        -- destruct (summary_text_some a d qc o (ShownText (fill_price f)) SC)
             as (s' & ST & _).
           rewrite (summarize_spec a e v' d o _ qc s' Q ST) in OM. discriminate.
        -- injection OM as <-. auto.
      * destruct y; cbn [outcome snd] in OM; try discriminate;
          injection OM as <-; auto.
    + rewrite (finish_simulated a e v' d p q LV) in OM.
      destruct (test_order e) as [o|y]; cbn [outcome snd] in OM.
      * destruct (summary_text_some a d qc o (ShownDecimal p) SC) as (s' & ST & _).
        rewrite (summarize_spec a e v' d o _ qc s' Q ST) in OM. discriminate.
      * injection OM as <-. auto.
Qed.

(** X17.  A run that gets past the resolution of the market (line 230)
    reads no unassigned global afterwards.  Every global of the market loop
    is assigned, each of the three constraints with a non-zero value, and
    the globals of the dynamic DCA block are assigned whenever
    [is_dynamic_dca] is still set after it; so such a run does not end with
    a [NameError] of the script's own: the [NameError] that an unlisted
    market or an absent filter produces is confined to lines 212-230. *)
Theorem X17_globals_assigned_after_resolution a e v :
  outcome (resolve a e) = Done v ->
  resolved v
  /\ (forall d, outcome (dynamic_dca_block a e) = Done d ->
        is_dynamic_dca d = true -> exists s, scaling d = Some s)
  /\ (forall n, outcome (main a e) = Raised (NameError n) ->
        from_exchange a e (NameError n)).
Proof.
  intros OR. split; [exact (resolve_done a e v OR)|].
  split; [apply dynamic_dca_block_done|].
  intros n OM.
  destruct (raised_after_resolution a e v _ OR OM) as [D|[E|[E|F]]];
    [destruct D|discriminate E|discriminate E|exact F].
Qed.

Lemma X17_witness :
  exists v, outcome (resolve live_args sample_env) = Done v /\ resolved v.
Proof.
  eexists. split.
  - vm_compute. reflexivity.
  - refine (proj1 (X17_globals_assigned_after_resolution live_args sample_env _ _)).
    vm_compute. reflexivity.
Defined.

(** ** Amounts that are already on the step grid (lines 289-290) *)

(** X18.  An amount given in the base currency that has no digit below the
    base increment's last place is ordered as it is: the quantity has the
    increment's exponent and the amount's value, whatever the price; sizing
    the quantity again gives it back. *)
Theorem X18_on_grid_base_amount_unchanged amount p p' inc q :
  base_currency_amount_of false amount p inc = Ok q ->
  dexp inc <= dexp amount ->
  dexp q = dexp inc
  /\ dsign q = dsign amount
  /\ coef q = coef amount * 10 ^ (dexp amount - dexp inc)
  /\ base_currency_amount_of false q p' inc = Ok q.
Proof.
  unfold base_currency_amount_of. intros H LE.
  destruct (quantize_spec _ _ _ H) as (R & B).
  assert (P : 0 < 10 ^ (dexp amount - dexp inc)) by (apply pow10_gt0; lia).
  pose proof (coef_nonneg amount) as CN.
  assert (R' : q = dec (dsign amount)
                     (coef amount * 10 ^ (dexp amount - dexp inc)) (dexp inc)).
  { rewrite R. unfold rescale, is_zero.
    destruct (Z.eqb_spec (coef amount) 0) as [Z0|NZ].
    - rewrite Z0, Z.mul_0_l. reflexivity.
    - destruct (Z.leb_spec (dexp inc) (dexp amount)); [reflexivity|lia]. }
  assert (RQ : rescale q (dexp inc) ROUND_HALF_EVEN = q).
  { rewrite R'. unfold rescale, is_zero.
    rewrite coef_dec, dexp_dec, dsign_dec by nia.
    destruct (Z.eqb_spec (coef amount * 10 ^ (dexp amount - dexp inc)) 0) as [Z0|NZ].
    - rewrite Z0. reflexivity.
    - rewrite Z.leb_refl, Z.sub_diag. change (10 ^ 0) with 1.
      rewrite Z.mul_1_r. reflexivity. }
  split; [rewrite R'; apply dexp_dec|].
  split; [rewrite R'; apply dsign_dec|].
  split; [rewrite R'; apply coef_dec; nia|].
  (* the checks of [quantize] pass for [q] as they did for [amount] *)
  revert H. unfold quantize.
  destruct (negb _); [discriminate|].
  destruct (is_zero amount) eqn:ZA.
  - intros H.
    assert (ZQ : is_zero q = true).
    { unfold is_zero in *. apply Z.eqb_eq in ZA. rewrite R', coef_dec by nia.
      rewrite ZA. reflexivity. }
    rewrite ZQ.
    assert (SQ : dsign q = dsign amount) by (rewrite R'; apply dsign_dec).
    rewrite SQ. exact H.
  - assert (ZQ : is_zero q = false).
    { apply is_zero_false in ZA. unfold is_zero. rewrite R', coef_dec by nia.
      apply Z.eqb_neq. nia. }
    rewrite ZQ. apply is_zero_false in ZA.
    assert (AQ : adjusted q = adjusted amount).
    { unfold adjusted. rewrite R', coef_dec, dexp_dec by nia.
      rewrite ndigits_mul_pow10 by lia. lia. }
    rewrite AQ.
    destruct (Emax <? adjusted amount); [discriminate|].
    destruct (prec <? _); [discriminate|]. cbv zeta.
    rewrite RQ, <- R.
    destruct (Emax <? adjusted q); [discriminate|].
    destruct (prec <? _); [discriminate|]. auto.
Qed.

Lemma X18_witness :
  base_currency_amount_of false (D 40 (-3)) (D 7 0) (D 1 (-3)) = Ok (D 40 (-3)).
Proof.
  refine (proj2 (proj2 (proj2
            (X18_on_grid_base_amount_unchanged (D 4 (-2)) (D 5 (-2)) (D 7 0)
               (D 1 (-3)) (D 40 (-3)) eq_refl _)))).
  simpl. lia.
Defined.
